(** * Task lifecycle and audit engine of nexus-ai-task

    A shallow embedding of [TasksService], [ProjectsService] and the task
    schema hooks ([pre('save')], [addHistoryEntry]) over an explicit model of
    the document store, followed by the properties of the lifecycle engine.

    Conventions of the embedding:
    - a collection is the list of its documents in natural (insertion) order;
    - every service method is a computation in a state-and-exception monad
      over the collection; the state also counts the mutating store calls
      issued so far, and an exception keeps the state reached when it is
      thrown (nothing is rolled back);
    - [new Date()] / [Date.now()] is the argument [now] (milliseconds since
      the epoch), read once per service call, also by the [timestamps]
      option of the schemas; a freshly generated ObjectId is the argument
      [oid] of [create];
    - an ObjectId is the 24 lower-case hexadecimal digits it prints as; a
      string handed to the driver where the schema expects an ObjectId is
      cast ([toHexString]) before it is compared with a stored [_id];
    - a string is the sequence of the bytes of its UTF-8 encoding;
    - a finite JavaScript number is the rational it denotes, compared with
      [Qeq_bool] and [Qle_bool];
    - the object returned to the controller ([{...taskObj, id: taskObj._id}])
      is identified with the document it is built from. *)

From Stdlib Require Import List String Ascii ZArith QArith Bool Lia.
From Stdlib Require Import Permutation Sorted.
Import ListNotations.

Open Scope string_scope.
Open Scope Z_scope.
Open Scope list_scope.

(** ** JavaScript values stored in history deltas *)

Inductive value : Type :=
| VUndefined
| VNull
| VString (s : string)
| VNumber (q : Q)
| VDate (d : Z)
| VStrings (l : list string)
| VObjectId (s : string).

(** [a === b] between a value taken from a request body and a value taken
    from a loaded document.  Primitives compare by value; [Date], array and
    [ObjectId] are objects, and an object deserialised from the request is
    never the same reference as one held by the document. *)
Definition strict_eq (a b : value) : bool :=
  match a, b with
  | VUndefined, VUndefined => true
  | VNull, VNull => true
  | VString s, VString s' => String.eqb s s'
  | VNumber p, VNumber q => Qeq_bool p q
  | _, _ => false
  end.

Definition is_undefined (v : value) : bool :=
  match v with VUndefined => true | _ => false end.

(** Structural comparison of two stored values (used to state what a
    mutation changed, not by the service). *)
Definition same_value (a b : value) : bool :=
  match a, b with
  | VUndefined, VUndefined => true
  | VNull, VNull => true
  | VString s, VString s' => String.eqb s s'
  | VNumber p, VNumber q => Qeq_bool p q
  | VDate d, VDate d' => Z.eqb d d'
  | VStrings l, VStrings l' =>
      if list_eq_dec string_dec l l' then true else false
  | VObjectId s, VObjectId s' => String.eqb s s'
  | _, _ => false
  end.

(** Truthiness of an optional string ([if (query.search)],
    [dto.name && ...]). *)
Definition truthy_str (o : option string) : bool :=
  match o with
  | Some s => negb (String.eqb s EmptyString)
  | None => false
  end.

Definition truthy_bool (o : option bool) : bool :=
  match o with Some b => b | None => false end.

Definition opt_str_eqb (a b : option string) : bool :=
  match a, b with
  | Some x, Some y => String.eqb x y
  | None, None => true
  | _, _ => false
  end.

Definition is_null {A} (o : option A) : bool :=
  match o with None => true | Some _ => false end.

(** ** Exceptions and the service monad *)

Inductive Exception : Type :=
| NotFoundException (msg : string)
| ConflictException (msg : string)
| BSONError
| TypeError
| ValidationError
| MongoServerError.

Inductive Result (A : Type) : Type :=
| Ok (a : A)
| Throw (e : Exception).
Arguments Ok {A} a.
Arguments Throw {A} e.

Definition is_NotFound {A} (r : Result A) : bool :=
  match r with Throw (NotFoundException _) => true | _ => false end.

Definition is_Conflict {A} (r : Result A) : bool :=
  match r with Throw (ConflictException _) => true | _ => false end.

(** A call is rejected when it throws [NotFound] or [Conflict]. *)
Definition rejected {A} (r : Result A) : bool :=
  is_NotFound r || is_Conflict r.

(** A collection together with the number of mutating calls it received. *)
Record Store (D : Type) : Type := mkStore {
  docs : list D;
  writes : nat
}.
Arguments mkStore {D} docs writes.
Arguments docs {D} s.
Arguments writes {D} s.

Definition M (D A : Type) : Type := Store D -> Result A * Store D.

Definition ret {D A} (a : A) : M D A := fun s => (Ok a, s).

Definition throw {D A} (e : Exception) : M D A := fun s => (Throw e, s).

Definition bind {D A B} (m : M D A) (k : A -> M D B) : M D B :=
  fun s =>
    match m s with
    | (Ok a, s') => k a s'
    | (Throw e, s') => (Throw e, s')
    end.

Notation "x <- m ;; k" := (bind m (fun x => k))
  (at level 61, m at next level, right associativity).
Notation "m ;;; k" := (bind m (fun _ => k))
  (at level 61, right associativity).

(** *** Store calls *)

Section StoreCalls.
Context {D : Type}.
Variable doc_id : D -> string.

(** [Model.findOne(filter)]: the first document matching the filter. *)
Definition model_findOne (filter : D -> bool) : M D (option D) :=
  fun s => (Ok (List.find filter (docs s)), s).

(** Replace the first document whose [_id] is [id] by its update. *)
Fixpoint update_first (id : string) (upd : D -> D) (l : list D)
  : option D * list D :=
  match l with
  | [] => (None, [])
  | d :: r =>
      if String.eqb (doc_id d) id then (Some (upd d), upd d :: r)
      else let (o, r') := update_first id upd r in (o, d :: r')
  end.

(** [Model.findByIdAndUpdate(id, update, { new: true })]: one mutating
    call; the result is the updated document, or [null] when no document
    has that [_id]. *)
Definition model_findByIdAndUpdate (id : string) (upd : D -> D)
  : M D (option D) :=
  fun s =>
    let (o, l) := update_first id upd (docs s) in
    (Ok o, mkStore l (S (writes s))).

(** The store a [findByIdAndUpdate] leaves behind. *)
Definition updated (id : string) (upd : D -> D) (s : Store D) : Store D :=
  mkStore (snd (update_first id upd (docs s))) (S (writes s)).

(** [doc.save()] of a new document: one mutating call.  The store keeps
    [_id] unique and answers a duplicate with an E11000 error. *)
Definition model_save (d : D) : M D D :=
  fun s =>
    if existsb (fun x => String.eqb (doc_id x) (doc_id d)) (docs s)
    then (Throw MongoServerError, mkStore (docs s) (S (writes s)))
    else (Ok d, mkStore (docs s ++ [d]) (S (writes s))).

(** The document stored under an [_id]: the one a [findByIdAndUpdate]
    acts on. *)
Definition lookup (id : string) (l : list D) : option D :=
  List.find (fun d => String.eqb (doc_id d) id) l.

(** *** Unique indexes

    A collection may declare a unique index besides the one on [_id];
    [same_key a b] tells that two documents carry the same key of that
    index.  A write that would leave two documents with the same key is
    refused with an E11000 error and changes no document.  An update that
    leaves the key of its document as it was does not touch the index. *)
Variable same_key : D -> D -> bool.

Definition duplicate_key (d : D) (l : list D) : bool :=
  existsb (fun x => negb (String.eqb (doc_id x) (doc_id d)) && same_key x d)
    l.

Definition model_save_unique (d : D) : M D D :=
  fun s =>
    if duplicate_key d (docs s)
    then (Throw MongoServerError, mkStore (docs s) (S (writes s)))
    else model_save d s.

Definition model_findByIdAndUpdate_unique (id : string) (upd : D -> D)
  : M D (option D) :=
  fun s =>
    match lookup id (docs s) with
    | Some d =>
        if negb (same_key d (upd d)) && duplicate_key (upd d) (docs s)
        then (Throw MongoServerError, mkStore (docs s) (S (writes s)))
        else model_findByIdAndUpdate id upd s
    | None => model_findByIdAndUpdate id upd s
    end.
End StoreCalls.

(** *** [find(filter).sort(spec)]

    The store returns the documents matching the filter, ordered by the sort
    specification.  The specification fixes the order only between documents
    it tells apart; documents with equal sort keys come back in an order the
    store chooses.  [None] stands for an order computed inside the store
    (text score). *)
Definition sorted_by {D} (leb : D -> D -> bool) (l : list D) : Prop :=
  StronglySorted (fun a b => leb a b = true) l.

Definition find_sort {D} (filter : D -> bool)
    (order : option (D -> D -> bool)) (coll result : list D) : Prop :=
  Permutation (List.filter filter coll) result /\
  match order with
  | Some leb => sorted_by leb result
  | None => True
  end.

(** One admissible answer of the store: a stable insertion sort of the
    matching documents. *)
Fixpoint insert_by {D} (leb : D -> D -> bool) (x : D) (l : list D) : list D :=
  match l with
  | [] => [x]
  | y :: r => if leb y x then y :: insert_by leb x r else x :: y :: r
  end.

Definition sort_by {D} (leb : D -> D -> bool) (l : list D) : list D :=
  fold_right (fun x acc => insert_by leb x acc) [] (rev l).

Definition find_sort_run {D} (filter : D -> bool)
    (order : option (D -> D -> bool)) (coll : list D) : list D :=
  match order with
  | Some leb => sort_by leb (List.filter filter coll)
  | None => List.filter filter coll
  end.

(** *** [countDocuments] and [$group] counts *)

(** [Model.countDocuments(filter)]. *)
Definition countDocuments {D} (filter : D -> bool) (coll : list D) : nat :=
  List.length (List.filter filter coll).

(** One more document for the group of key [k]. *)
Fixpoint bump {K} (eqb : K -> K -> bool) (k : K) (groups : list (K * nat))
  : list (K * nat) :=
  match groups with
  | [] => [(k, 1%nat)]
  | (k', n) :: r =>
      if eqb k' k then (k', S n) :: r else (k', n) :: bump eqb k r
  end.

(** [Model.aggregate([{ $match: filter },
      { $group: { _id: '$key', count: { $sum: 1 } } }])]: one item per key
    met among the matching documents, with the number of them. *)
Definition aggregate_count {D K} (eqb : K -> K -> bool) (key : D -> K)
    (filter : D -> bool) (coll : list D) : list (K * nat) :=
  fold_left (fun groups d => bump eqb (key d) groups)
    (List.filter filter coll) [].

(** [counts[item._id] = item.count] on a record of counters. *)
Definition assign_count {K} (eqb : K -> K -> bool) (counts : K -> nat)
    (item : K * nat) : K -> nat :=
  fun k => if eqb k (fst item) then snd item else counts k.

(** Counters initialised to zero, then [items.forEach(assign)]. *)
Definition counts_of {K} (eqb : K -> K -> bool) (items : list (K * nat))
  : K -> nat :=
  fold_left (assign_count eqb) items (fun _ => 0%nat).

(** ** JavaScript strings *)

Definition byte (a : ascii) : nat := nat_of_ascii a.

(** [s.length] counts UTF-16 code units: one for a character of the basic
    plane (a byte below 0x80 or a lead byte below 0xF0), two for a character
    beyond it (a lead byte from 0xF0 on); the continuation bytes 0x80..0xBF
    count for nothing. *)
Definition code_units (a : ascii) : nat :=
  let n := byte a in
  if Nat.ltb n 128 then 1%nat
  else if Nat.ltb n 192 then 0%nat
  else if Nat.ltb n 240 then 1%nat
  else 2%nat.

Fixpoint js_length (s : string) : nat :=
  match s with
  | EmptyString => 0%nat
  | String a r => (code_units a + js_length r)%nat
  end.

(** [s.split(c)] for a one-character separator. *)
Fixpoint split_on (c : ascii) (s : string) : list string :=
  match s with
  | EmptyString => [EmptyString]
  | String a r =>
      if Ascii.eqb a c then EmptyString :: split_on c r
      else match split_on c r with
           | [] => [String a EmptyString]
           | h :: tl => String a h :: tl
           end
  end.

(** The white space and line terminators [String.prototype.trim] strips:
    U+0009..U+000D and U+0020 (one byte), U+00A0 (two bytes), and U+1680,
    U+2000..U+200A, U+2028, U+2029, U+202F, U+205F, U+3000, U+FEFF (three
    bytes). *)
Definition is_space (a : ascii) : bool :=
  let n := byte a in
  Nat.eqb n 32 || (Nat.leb 9 n && Nat.leb n 13).

Definition is_space2 (a b : ascii) : bool :=
  Nat.eqb (byte a) 194 && Nat.eqb (byte b) 160.

Definition is_space3 (a b c : ascii) : bool :=
  let x := byte a in
  let y := byte b in
  let z := byte c in
  (Nat.eqb x 225 && Nat.eqb y 154 && Nat.eqb z 128)
  || (Nat.eqb x 226 && Nat.eqb y 128
      && ((Nat.leb 128 z && Nat.leb z 138) || Nat.eqb z 168 || Nat.eqb z 169
          || Nat.eqb z 175))
  || (Nat.eqb x 226 && Nat.eqb y 129 && Nat.eqb z 159)
  || (Nat.eqb x 227 && Nat.eqb y 128 && Nat.eqb z 128)
  || (Nat.eqb x 239 && Nat.eqb y 187 && Nat.eqb z 191).

(** The string is one white-space character. *)
Definition is_white (w : string) : bool :=
  match w with
  | String a EmptyString => is_space a
  | String a (String b EmptyString) => is_space2 a b
  | String a (String b (String c EmptyString)) => is_space3 a b c
  | _ => false
  end.

Fixpoint trim_start (s : string) : string :=
  match s with
  | EmptyString => EmptyString
  | String a r =>
      if is_space a then trim_start r
      else match r with
           | EmptyString => s
           | String b r2 =>
               if is_space2 a b then trim_start r2
               else match r2 with
                    | EmptyString => s
                    | String c r3 =>
                        if is_space3 a b c then trim_start r3 else s
                    end
           end
  end.

Fixpoint trim_end (s : string) : string :=
  match s with
  | EmptyString => EmptyString
  | String a r =>
      let r' := trim_end r in
      if is_white (String a r') then EmptyString else String a r'
  end.

Definition trim (s : string) : string := trim_end (trim_start s).
Arguments trim : simpl never.

(** The string begins with a white-space character. *)
Definition starts_white (s : string) : bool :=
  match s with
  | EmptyString => false
  | String a r =>
      is_space a
      || match r with
         | EmptyString => false
         | String b r2 =>
             is_space2 a b
             || match r2 with
                | EmptyString => false
                | String c _ => is_space3 a b c
                end
         end
  end.

Definition mem_str (x : string) (l : list string) : bool :=
  existsb (String.eqb x) l.

(** A value matched by [/^[a-z0-9]{25}$/]. *)
Definition lower_alnum (a : ascii) : bool :=
  let n := byte a in
  (Nat.leb 48 n && Nat.leb n 57) || (Nat.leb 97 n && Nat.leb n 122).

Definition matches_id (s : string) : bool :=
  Nat.eqb (String.length s) 25 && forallb lower_alnum (list_ascii_of_string s).

(** ** External collaborators

    The driver's [Types.ObjectId]: [isValid] is the test the constructor
    applies before it throws, [toHexString id] is what
    [new Types.ObjectId(id)] prints as, for a valid [id].  The text index of
    the store decides which documents a [$text] search matches. *)
Class ObjectIdLib : Type := {
  isValid : string -> bool;
  toHexString : string -> string
}.

(** [Date] arithmetic in local time: midnight of the day of an instant
    ([setHours(0, 0, 0, 0)]) and the same wall-clock time on the next
    calendar day ([setDate(getDate() + 1)]). *)
Class DateLib : Type := {
  start_of_day : Z -> Z;
  next_day : Z -> Z
}.

(** * Tasks *)

Module Tasks.

(** ** Schema ([task.schema.ts]) *)

Inductive TaskStatus : Type := TODO | IN_PROGRESS | DONE | BLOCKED.

Definition status_str (s : TaskStatus) : string :=
  match s with
  | TODO => "todo"
  | IN_PROGRESS => "in_progress"
  | DONE => "done"
  | BLOCKED => "blocked"
  end.

Definition status_eqb (a b : TaskStatus) : bool :=
  String.eqb (status_str a) (status_str b).

Inductive TaskPriority : Type := CRITICAL | HIGH | MEDIUM | LOW | LOWEST.

Definition priority_num (p : TaskPriority) : Z :=
  match p with
  | CRITICAL => 1
  | HIGH => 2
  | MEDIUM => 3
  | LOW => 4
  | LOWEST => 5
  end.

Definition priority_eqb (a b : TaskPriority) : bool :=
  Z.eqb (priority_num a) (priority_num b).

Record FieldChange : Type := mkChange {
  field : string;
  old_value : value;
  new_value : value
}.

Record TaskHistoryEntry : Type := mkEntry {
  action : string;
  user_id : string;
  timestamp : Z;
  changes : list FieldChange
}.

(** A stored task.  [project_id] is declared with the driver's class
    [Types.ObjectId], which is no schema type: the path is [Mixed] and keeps
    the string the DTO carries.  [createdAt] and [updatedAt] are the two
    fields of the schema option [timestamps: true]. *)
Record Task : Type := mkTask {
  _id : string;
  title : string;
  description : option string;
  status : TaskStatus;
  priority : TaskPriority;
  team_id : string;
  project_id : option string;
  assignee_id : option string;
  created_by : string;
  labels : list string;
  tags : list string;
  due_date : option Z;
  start_date : option Z;
  estimated_hours : option Q;
  position : Q;
  completed_at : option Z;
  history : list TaskHistoryEntry;
  deleted_at : option Z;
  createdAt : option Z;
  updatedAt : option Z
}.

(** Field setters ([$set] / [$unset] / assignment on a document). *)
Definition set_title v t :=
  mkTask (_id t) v (description t) (status t) (priority t) (team_id t)
    (project_id t) (assignee_id t) (created_by t) (labels t) (tags t)
    (due_date t) (start_date t) (estimated_hours t) (position t)
    (completed_at t) (history t) (deleted_at t) (createdAt t) (updatedAt t).
Definition set_description v t :=
  mkTask (_id t) (title t) v (status t) (priority t) (team_id t)
    (project_id t) (assignee_id t) (created_by t) (labels t) (tags t)
    (due_date t) (start_date t) (estimated_hours t) (position t)
    (completed_at t) (history t) (deleted_at t) (createdAt t) (updatedAt t).
Definition set_status v t :=
  mkTask (_id t) (title t) (description t) v (priority t) (team_id t)
    (project_id t) (assignee_id t) (created_by t) (labels t) (tags t)
    (due_date t) (start_date t) (estimated_hours t) (position t)
    (completed_at t) (history t) (deleted_at t) (createdAt t) (updatedAt t).
Definition set_priority v t :=
  mkTask (_id t) (title t) (description t) (status t) v (team_id t)
    (project_id t) (assignee_id t) (created_by t) (labels t) (tags t)
    (due_date t) (start_date t) (estimated_hours t) (position t)
    (completed_at t) (history t) (deleted_at t) (createdAt t) (updatedAt t).
Definition set_project_id v t :=
  mkTask (_id t) (title t) (description t) (status t) (priority t)
    (team_id t) v (assignee_id t) (created_by t) (labels t) (tags t)
    (due_date t) (start_date t) (estimated_hours t) (position t)
    (completed_at t) (history t) (deleted_at t) (createdAt t) (updatedAt t).
Definition set_assignee_id v t :=
  mkTask (_id t) (title t) (description t) (status t) (priority t)
    (team_id t) (project_id t) v (created_by t) (labels t) (tags t)
    (due_date t) (start_date t) (estimated_hours t) (position t)
    (completed_at t) (history t) (deleted_at t) (createdAt t) (updatedAt t).
Definition set_labels v t :=
  mkTask (_id t) (title t) (description t) (status t) (priority t)
    (team_id t) (project_id t) (assignee_id t) (created_by t) v (tags t)
    (due_date t) (start_date t) (estimated_hours t) (position t)
    (completed_at t) (history t) (deleted_at t) (createdAt t) (updatedAt t).
Definition set_tags v t :=
  mkTask (_id t) (title t) (description t) (status t) (priority t)
    (team_id t) (project_id t) (assignee_id t) (created_by t) (labels t) v
    (due_date t) (start_date t) (estimated_hours t) (position t)
    (completed_at t) (history t) (deleted_at t) (createdAt t) (updatedAt t).
Definition set_due_date v t :=
  mkTask (_id t) (title t) (description t) (status t) (priority t)
    (team_id t) (project_id t) (assignee_id t) (created_by t) (labels t)
    (tags t) v (start_date t) (estimated_hours t) (position t)
    (completed_at t) (history t) (deleted_at t) (createdAt t) (updatedAt t).
Definition set_start_date v t :=
  mkTask (_id t) (title t) (description t) (status t) (priority t)
    (team_id t) (project_id t) (assignee_id t) (created_by t) (labels t)
    (tags t) (due_date t) v (estimated_hours t) (position t) (completed_at t)
    (history t) (deleted_at t) (createdAt t) (updatedAt t) .
Definition set_estimated_hours v t :=
  mkTask (_id t) (title t) (description t) (status t) (priority t)
    (team_id t) (project_id t) (assignee_id t) (created_by t) (labels t)
    (tags t) (due_date t) (start_date t) v (position t) (completed_at t)
    (history t) (deleted_at t) (createdAt t) (updatedAt t) .
Definition set_position v t :=
  mkTask (_id t) (title t) (description t) (status t) (priority t)
    (team_id t) (project_id t) (assignee_id t) (created_by t) (labels t)
    (tags t) (due_date t) (start_date t) (estimated_hours t) v
    (completed_at t) (history t) (deleted_at t) (createdAt t) (updatedAt t).
Definition set_completed_at v t :=
  mkTask (_id t) (title t) (description t) (status t) (priority t)
    (team_id t) (project_id t) (assignee_id t) (created_by t) (labels t)
    (tags t) (due_date t) (start_date t) (estimated_hours t) (position t) v
    (history t) (deleted_at t) (createdAt t) (updatedAt t) .
Definition set_history v t :=
  mkTask (_id t) (title t) (description t) (status t) (priority t)
    (team_id t) (project_id t) (assignee_id t) (created_by t) (labels t)
    (tags t) (due_date t) (start_date t) (estimated_hours t) (position t)
    (completed_at t) v (deleted_at t) (createdAt t) (updatedAt t) .
Definition set_deleted_at v t :=
  mkTask (_id t) (title t) (description t) (status t) (priority t)
    (team_id t) (project_id t) (assignee_id t) (created_by t) (labels t)
    (tags t) (due_date t) (start_date t) (estimated_hours t) (position t)
    (completed_at t) (history t) v (createdAt t) (updatedAt t) .
Definition set_createdAt v t :=
  mkTask (_id t) (title t) (description t) (status t) (priority t)
    (team_id t) (project_id t) (assignee_id t) (created_by t) (labels t)
    (tags t) (due_date t) (start_date t) (estimated_hours t) (position t)
    (completed_at t) (history t) (deleted_at t) v (updatedAt t) .
Definition set_updatedAt v t :=
  mkTask (_id t) (title t) (description t) (status t) (priority t)
    (team_id t) (project_id t) (assignee_id t) (created_by t) (labels t)
    (tags t) (due_date t) (start_date t) (estimated_hours t) (position t)
    (completed_at t) (history t) (deleted_at t) (createdAt t) v.

(** [$push: { history: e }]: append, nothing else. *)
Definition push_history (e : TaskHistoryEntry) (t : Task) : Task :=
  set_history (history t ++ [e]) t.

(** [TaskSchema.pre('save')].  [isNew] and [isModified('status')] are the
    document flags Mongoose hands to the hook.  The class declares
    [created_at] and [updated_at] without [@Prop]: they are no paths of the
    schema, so the two assignments of the hook ([this.created_at = now],
    [this.updated_at = now]) reach no stored field. *)
Definition pre_save (isNew status_modified : bool) (now : Z) (t : Task)
    : Task :=
  if isNew then
    push_history
      (mkEntry "created" (created_by t) now
         [mkChange "status" VNull (VString (status_str (status t)))])
      t
  else if status_modified then
    if status_eqb (status t) DONE && is_null (completed_at t)
    then set_completed_at (Some now) t
    else t
  else t.

(** Schema option [timestamps: true]: saving a new document stamps
    [createdAt] and [updatedAt], every update stamps [updatedAt]. *)
Definition timestamps_save (now : Z) (t : Task) : Task :=
  set_updatedAt (Some now) (set_createdAt (Some now) t).

Definition timestamps_update (now : Z) (t : Task) : Task :=
  set_updatedAt (Some now) t.

(** The validators [save()] runs on a new document, path by path, before
    the [pre('save')] hook of the schema: [required] refuses the empty
    string, [match] lets the empty string through, [status] and [priority]
    are members of their enumerations by their type, [project_id] is a
    [Mixed] path and has none. *)
Definition validate (t : Task) : bool :=
  negb (String.eqb (title t) EmptyString)
  && Nat.leb 1 (js_length (title t)) && Nat.leb (js_length (title t)) 200
  && match description t with
     | Some d => Nat.leb (js_length d) 5000
     | None => true
     end
  && matches_id (team_id t)
  && match assignee_id t with
     | Some a => String.eqb a EmptyString || matches_id a
     | None => true
     end
  && matches_id (created_by t)
  && Nat.leb (List.length (labels t)) 50
  && match estimated_hours t with
     | Some h => Qle_bool 0 h && Qle_bool h 9999
     | None => true
     end
  && Nat.leb (List.length (history t)) 100.

(** [TaskSchema.methods.addHistoryEntry]: push, then keep the last 100
    ([this.history.slice(-100)]). *)
Definition addHistoryEntry (act userId : string)
    (chg : list FieldChange) (now : Z) (t : Task) : Task :=
  let h := history t ++ [mkEntry act userId now chg] in
  if Nat.ltb 100 (List.length h)
  then set_history (skipn (List.length h - 100) h) t
  else set_history h t.

(** ** DTOs ([task.dto.ts]) *)

Module CreateTaskDto.
Record t : Type := mk {
  title : string;
  description : option string;
  status : option TaskStatus;
  priority : option TaskPriority;
  project_id : option string;
  assignee_id : option string;
  labels : option (list string);
  tags : option (list string);
  due_date : option Z;
  start_date : option Z;
  estimated_hours : option Q
}.
End CreateTaskDto.

(** One own property of an [UpdateTaskDto] instance.  The validation pipe
    ([whitelist], [forbidNonWhitelisted]) admits these keys only. *)
Inductive UpdateTaskProp : Type :=
| U_title (v : string)
| U_description (v : string)
| U_status (v : TaskStatus)
| U_priority (v : TaskPriority)
| U_project_id (v : string)
| U_assignee_id (v : string)
| U_labels (v : list string)
| U_tags (v : list string)
| U_due_date (v : Z)
| U_start_date (v : Z)
| U_estimated_hours (v : Q)
| U_position (v : Q).

(** An [UpdateTaskDto] is the sequence of its own properties in
    [Object.keys] order; a JavaScript object holds each key at most once
    ([dto_wf]). *)
Definition UpdateTaskDto : Type := list UpdateTaskProp.

Definition prop_key (p : UpdateTaskProp) : string :=
  match p with
  | U_title _ => "title"
  | U_description _ => "description"
  | U_status _ => "status"
  | U_priority _ => "priority"
  | U_project_id _ => "project_id"
  | U_assignee_id _ => "assignee_id"
  | U_labels _ => "labels"
  | U_tags _ => "tags"
  | U_due_date _ => "due_date"
  | U_start_date _ => "start_date"
  | U_estimated_hours _ => "estimated_hours"
  | U_position _ => "position"
  end.

Definition prop_value (p : UpdateTaskProp) : value :=
  match p with
  | U_title v => VString v
  | U_description v => VString v
  | U_status v => VString (status_str v)
  | U_priority v => VNumber (inject_Z (priority_num v))
  | U_project_id v => VString v
  | U_assignee_id v => VString v
  | U_labels v => VStrings v
  | U_tags v => VStrings v
  | U_due_date v => VDate v
  | U_start_date v => VDate v
  | U_estimated_hours v => VNumber v
  | U_position v => VNumber v
  end.

Definition dto_wf (dto : UpdateTaskDto) : Prop := NoDup (map prop_key dto).

(** [updateTaskDto.status] and [updateTaskDto.assignee_id]: the value held
    under the key, if the DTO has it. *)
Definition dto_status (dto : UpdateTaskDto) : option TaskStatus :=
  fold_left
    (fun acc p => match p with U_status v => Some v | _ => acc end) dto None.

Definition dto_assignee_id (dto : UpdateTaskDto) : option string :=
  fold_left
    (fun acc p => match p with U_assignee_id v => Some v | _ => acc end)
    dto None.

Module TaskQueryDto.
Record t : Type := mk {
  project_id : option string;
  status : option TaskStatus;
  assignee_id : option string;
  priority : option TaskPriority;
  labels : option string;
  search : option string;
  include_completed : option bool;
  include_deleted : option bool
}.
(** [query: TaskQueryDto = {}]. *)
Definition empty : t := mk None None None None None None None None.
(** A query that sets nothing but the two inclusion flags. *)
Definition flags (include_completed include_deleted : option bool) : t :=
  mk None None None None None None include_completed include_deleted.
End TaskQueryDto.

(** The store's text index: does [$text: { $search }] match the task? *)
Class TextIndex : Type := { text_match : string -> Task -> bool }.

(** ** Reading a field of a loaded task: [(task as any)[key]] *)

Definition opt_value {A} (f : A -> value) (o : option A) : value :=
  match o with Some a => f a | None => VUndefined end.

Definition task_get (t : Task) (key : string) : value :=
  if String.eqb key "title" then VString (title t)
  else if String.eqb key "description" then opt_value VString (description t)
  else if String.eqb key "status" then VString (status_str (status t))
  else if String.eqb key "priority"
  then VNumber (inject_Z (priority_num (priority t)))
  else if String.eqb key "project_id" then opt_value VString (project_id t)
  else if String.eqb key "assignee_id" then opt_value VString (assignee_id t)
  else if String.eqb key "labels" then VStrings (labels t)
  else if String.eqb key "tags" then VStrings (tags t)
  else if String.eqb key "due_date" then opt_value VDate (due_date t)
  else if String.eqb key "start_date" then opt_value VDate (start_date t)
  else if String.eqb key "estimated_hours"
  then opt_value VNumber (estimated_hours t)
  else if String.eqb key "position" then VNumber (position t)
  else VUndefined.

(** [$set] of one property, cast to the schema type of its path: the
    setter [trim: true] of [title] and [description] runs on updates too;
    [project_id] is a [Mixed] path and keeps the string it is given. *)
Definition set_prop (p : UpdateTaskProp) (t : Task) : Task :=
  match p with
  | U_title v => set_title (trim v) t
  | U_description v => set_description (Some (trim v)) t
  | U_status v => set_status v t
  | U_priority v => set_priority v t
  | U_project_id v => set_project_id (Some v) t
  | U_assignee_id v => set_assignee_id (Some v) t
  | U_labels v => set_labels v t
  | U_tags v => set_tags v t
  | U_due_date v => set_due_date (Some v) t
  | U_start_date v => set_start_date (Some v) t
  | U_estimated_hours v => set_estimated_hours (Some v) t
  | U_position v => set_position v t
  end.

(** [$set: { ...updateTaskDto }]; a later key would override an earlier one. *)
Definition set_props (dto : UpdateTaskDto) (t : Task) : Task :=
  fold_left (fun acc p => set_prop p acc) dto t.

(** ** [TasksService] ([tasks.service.ts]) *)

Section TasksService.
Context {OL : ObjectIdLib} {TI : TextIndex}.

Definition default {A} (d : A) (o : option A) : A :=
  match o with Some a => a | None => d end.

(** [new this.taskModel({...createTaskDto, team_id, created_by, position})]
    with the schema defaults filled in and the setters ([trim: true]) of
    [title] and [description] applied. *)
Definition new_task (dto : CreateTaskDto.t) (teamId userId oid : string)
    (now : Z) : Task :=
  mkTask oid
    (trim (CreateTaskDto.title dto))
    (option_map trim (CreateTaskDto.description dto))
    (default TODO (CreateTaskDto.status dto))
    (default MEDIUM (CreateTaskDto.priority dto))
    teamId
    (CreateTaskDto.project_id dto)
    (CreateTaskDto.assignee_id dto)
    userId
    (default [] (CreateTaskDto.labels dto))
    (default [] (CreateTaskDto.tags dto))
    (CreateTaskDto.due_date dto)
    (CreateTaskDto.start_date dto)
    (CreateTaskDto.estimated_hours dto)
    (inject_Z now)
    None [] None None None.

(** [task.save()]: validation, then the hooks, then the insert. *)
Definition create (dto : CreateTaskDto.t) (teamId userId oid : string)
    (now : Z) : M Task Task :=
  let task := new_task dto teamId userId oid now in
  if negb (validate task) then throw ValidationError
  else model_save _id (timestamps_save now (pre_save true false now task)).

(** [{ _id: id, team_id: teamId, deleted_at: null }]; the id is cast to an
    ObjectId. *)
Definition findOne_filter (id teamId : string) (t : Task) : bool :=
  String.eqb (_id t) (toHexString id) && String.eqb (team_id t) teamId
  && is_null (deleted_at t).

Definition findOne (id teamId : string) : M Task Task :=
  if negb (isValid id) then
    throw (NotFoundException "Invalid task ID format")
  else
    o <- model_findOne (findOne_filter id teamId) ;;
    match o with
    | None =>
        throw (NotFoundException
                 "Task not found or you do not have access to it")
    | Some task => ret task
    end.

(** The delta of [update]: one change per key of the DTO whose value is
    defined and not [===] to the loaded task's. *)
Definition track_change (task : Task) (p : UpdateTaskProp)
    : list FieldChange :=
  let newValue := prop_value p in
  let oldValue := task_get task (prop_key p) in
  if negb (strict_eq newValue oldValue) && negb (is_undefined newValue)
  then [mkChange (prop_key p) oldValue newValue]
  else [].

Definition track_changes (task : Task) (dto : UpdateTaskDto)
    : list FieldChange :=
  flat_map (track_change task) dto.

(** [updateTaskDto.status && updateTaskDto.status !== task.status]. *)
Definition status_differs (dto : UpdateTaskDto) (task : Task) : bool :=
  match dto_status dto with
  | Some s => negb (status_eqb s (status task))
  | None => false
  end.

(** [updateTaskDto.assignee_id &&
     updateTaskDto.assignee_id !== task.assignee_id]. *)
Definition assignee_differs (dto : UpdateTaskDto) (task : Task) : bool :=
  truthy_str (dto_assignee_id dto)
  && negb (opt_str_eqb (dto_assignee_id dto) (assignee_id task)).

Definition update_action (dto : UpdateTaskDto) (task : Task) : string :=
  if status_differs dto task then "status_changed"
  else if assignee_differs dto task then "assigned"
  else "updated".

(** [updateTaskDto.status === TaskStatus.DONE && !task.completed_at]. *)
Definition completes (dto : UpdateTaskDto) (task : Task) : bool :=
  match dto_status dto with
  | Some s => status_eqb s DONE && is_null (completed_at task)
  | None => false
  end.

(** The update document of [update], as a function on the stored task;
    [task] is the snapshot loaded by [findOne].  The key [updated_at] of the
    [$set] names no path of the schema and is dropped (strict mode); the
    [timestamps] option stamps [updatedAt]. *)
Definition update_doc (dto : UpdateTaskDto) (task : Task) (userId : string)
    (now : Z) (d : Task) : Task :=
  let d1 := timestamps_update now (set_props dto d) in
  let d2 := if completes dto task then set_completed_at (Some now) d1 else d1 in
  push_history
    (mkEntry (update_action dto task) userId now (track_changes task dto)) d2.

Definition update (id : string) (dto : UpdateTaskDto)
    (teamId userId : string) (now : Z) : M Task Task :=
  task <- findOne id teamId ;;
  updatedTask <- model_findByIdAndUpdate _id (toHexString id)
                   (update_doc dto task userId now) ;;
  match updatedTask with
  | None => throw (NotFoundException "Task not found")
  | Some t => ret t
  end.

Definition remove_doc (userId : string) (now : Z) (d : Task) : Task :=
  push_history
    (mkEntry "deleted" userId now [mkChange "deleted_at" VNull (VDate now)])
    (timestamps_update now (set_deleted_at (Some now) d)).

Definition remove (id teamId userId : string) (now : Z) : M Task unit :=
  task <- findOne id teamId ;;
  model_findByIdAndUpdate _id (toHexString id) (remove_doc userId now) ;;;
  ret tt.

Definition restore_filter (id teamId : string) (t : Task) : bool :=
  String.eqb (_id t) (toHexString id) && String.eqb (team_id t) teamId
  && negb (is_null (deleted_at t)).

Definition restore_doc (task : Task) (userId : string) (now : Z) (d : Task)
    : Task :=
  push_history
    (mkEntry "restored" userId now
       [mkChange "deleted_at" (opt_value VDate (deleted_at task)) VNull])
    (timestamps_update now (set_deleted_at None d)).

Definition restore (id teamId userId : string) (now : Z) : M Task Task :=
  if negb (isValid id) then
    throw (NotFoundException "Invalid task ID format")
  else
    o <- model_findOne (restore_filter id teamId) ;;
    match o with
    | None => throw (NotFoundException "Deleted task not found")
    | Some task =>
        restoredTask <- model_findByIdAndUpdate _id (toHexString id)
                          (restore_doc task userId now) ;;
        match restoredTask with
        | None => throw TypeError
        | Some t => ret t
        end
    end.

Definition position_doc (newPosition : Q) (now : Z) (d : Task) : Task :=
  timestamps_update now (set_position newPosition d).

Definition updatePosition (id : string) (newPosition : Q)
    (teamId userId : string) (now : Z) : M Task Task :=
  task <- findOne id teamId ;;
  updatedTask <- model_findByIdAndUpdate _id (toHexString id)
                   (position_doc newPosition now) ;;
  match updatedTask with
  | None => throw TypeError
  | Some t => ret t
  end.

(** *** Listing *)

(** [filter.project_id = new Types.ObjectId(projectId)]: the filter value
    is an ObjectId and, [project_id] being a [Mixed] path, it is not cast;
    the stored value is the string the DTO carried.  The store compares the
    two as they are, and values of different BSON types are never equal. *)
Definition project_matches (projectId : option string) (t : Task) : bool :=
  if truthy_str projectId
  then same_value (opt_value VString (project_id t))
         (VObjectId (toHexString (default EmptyString projectId)))
  else true.

Definition findAll_filter (teamId : string) (query : TaskQueryDto.t)
    (t : Task) : bool :=
  String.eqb (team_id t) teamId
  && (if negb (truthy_bool (TaskQueryDto.include_deleted query))
      then is_null (deleted_at t) else true)
  && (match TaskQueryDto.status query with
      | Some s => status_eqb (status t) s
      | None =>
          if negb (truthy_bool (TaskQueryDto.include_completed query))
          then negb (status_eqb (status t) DONE) else true
      end)
  && project_matches (TaskQueryDto.project_id query) t
  && (if truthy_str (TaskQueryDto.assignee_id query)
      then opt_str_eqb (assignee_id t) (TaskQueryDto.assignee_id query)
      else true)
  && (match TaskQueryDto.priority query with
      | Some p => priority_eqb (priority t) p
      | None => true
      end)
  && (if truthy_str (TaskQueryDto.labels query)
      then existsb (fun l => mem_str l (labels t))
             (map trim
                (split_on ","
                   (default EmptyString (TaskQueryDto.labels query))))
      else true)
  && (if truthy_str (TaskQueryDto.search query)
      then text_match (default EmptyString (TaskQueryDto.search query)) t
      else true).

Definition position_leb (a b : Task) : bool :=
  Qle_bool (position a) (position b).

(** [{ status: 1, position: 1 }]: by status string, then by position. *)
Definition status_position_leb (a b : Task) : bool :=
  if status_eqb (status a) (status b) then position_leb a b
  else String.leb (status_str (status a)) (status_str (status b)).

Definition findAll_sort (query : TaskQueryDto.t)
    : option (Task -> Task -> bool) :=
  if truthy_str (TaskQueryDto.search query) then None
  else Some status_position_leb.

(** [new Types.ObjectId(projectId)] throws on a string that is not an
    ObjectId. *)
Definition bad_project (projectId : option string) : bool :=
  truthy_str projectId && negb (isValid (default EmptyString projectId)).

Definition findAll (teamId : string) (query : TaskQueryDto.t)
    (coll : list Task) (r : Result (list Task)) : Prop :=
  if bad_project (TaskQueryDto.project_id query) then r = Throw BSONError
  else exists tasks,
      find_sort (findAll_filter teamId query) (findAll_sort query) coll tasks
      /\ r = Ok tasks.

Definition findAll_run (teamId : string) (query : TaskQueryDto.t)
    (coll : list Task) : Result (list Task) :=
  if bad_project (TaskQueryDto.project_id query) then Throw BSONError
  else Ok (find_sort_run (findAll_filter teamId query) (findAll_sort query)
             coll).

Record Board : Type := mkBoard {
  todo : list Task;
  in_progress : list Task;
  done : list Task;
  blocked : list Task
}.

Definition column (s : TaskStatus) (b : Board) : list Task :=
  match s with
  | TODO => todo b
  | IN_PROGRESS => in_progress b
  | DONE => done b
  | BLOCKED => blocked b
  end.

Definition kanban_filter (teamId : string) (projectId : option string)
    (t : Task) : bool :=
  String.eqb (team_id t) teamId && is_null (deleted_at t)
  && project_matches projectId t.

Definition in_column (s : TaskStatus) (t : Task) : bool :=
  status_eqb (status t) s.

Definition board_of (tasks : list Task) : Board :=
  mkBoard (List.filter (in_column TODO) tasks)
          (List.filter (in_column IN_PROGRESS) tasks)
          (List.filter (in_column DONE) tasks)
          (List.filter (in_column BLOCKED) tasks).

Definition getKanbanBoard (teamId : string) (projectId : option string)
    (coll : list Task) (r : Result Board) : Prop :=
  if bad_project projectId then r = Throw BSONError
  else exists tasks,
      find_sort (kanban_filter teamId projectId) (Some position_leb) coll tasks
      /\ r = Ok (board_of tasks).

Definition getKanbanBoard_run (teamId : string) (projectId : option string)
    (coll : list Task) : Result Board :=
  if bad_project projectId then Throw BSONError
  else Ok (board_of (find_sort_run (kanban_filter teamId projectId)
                       (Some position_leb) coll)).

(** *** Statistics *)

Record TaskStats : Type := mkStats {
  total : nat;
  by_status : TaskStatus -> nat;
  by_priority : TaskPriority -> nat;
  overdue : nat;
  completed_today : nat
}.

(** [{ team_id: teamId, deleted_at: null }], narrowed to a project. *)
Definition stats_filter (teamId : string) (projectId : option string)
    (t : Task) : bool :=
  String.eqb (team_id t) teamId && is_null (deleted_at t)
  && project_matches projectId t.

(** [due_date: { $lt: now }, status: { $ne: DONE }]. *)
Definition is_overdue (now : Z) (t : Task) : bool :=
  match due_date t with
  | Some d => Z.ltb d now
  | None => false
  end
  && negb (status_eqb (status t) DONE).

(** [completed_at: { $gte: today, $lt: tomorrow }]. *)
Definition completed_within (today tomorrow : Z) (t : Task) : bool :=
  match completed_at t with
  | Some c => Z.leb today c && Z.ltb c tomorrow
  | None => false
  end.

Context {DL : DateLib}.

Definition getTaskStats (teamId : string) (projectId : option string)
    (now : Z) (coll : list Task) : Result TaskStats :=
  if bad_project projectId then Throw BSONError
  else
    let filter := stats_filter teamId projectId in
    let today := start_of_day now in
    let tomorrow := next_day today in
    Ok (mkStats
          (countDocuments filter coll)
          (counts_of status_eqb
             (aggregate_count status_eqb status filter coll))
          (counts_of priority_eqb
             (aggregate_count priority_eqb priority filter coll))
          (countDocuments (fun t => filter t && is_overdue now t) coll)
          (countDocuments
             (fun t => filter t && completed_within today tomorrow t) coll)).

(** *** Sequences of service calls *)

Inductive Op : Type :=
| OpCreate (dto : CreateTaskDto.t) (teamId userId oid : string) (now : Z)
| OpUpdate (id : string) (dto : UpdateTaskDto) (teamId userId : string)
    (now : Z)
| OpRemove (id teamId userId : string) (now : Z)
| OpRestore (id teamId userId : string) (now : Z)
| OpUpdatePosition (id : string) (newPosition : Q) (teamId userId : string)
    (now : Z).

(** The store a call leaves behind, whether it returns or throws. *)
Definition exec (op : Op) (s : Store Task) : Store Task :=
  match op with
  | OpCreate dto teamId userId oid now =>
      snd (create dto teamId userId oid now s)
  | OpUpdate id dto teamId userId now =>
      snd (update id dto teamId userId now s)
  | OpRemove id teamId userId now => snd (remove id teamId userId now s)
  | OpRestore id teamId userId now => snd (restore id teamId userId now s)
  | OpUpdatePosition id newPosition teamId userId now =>
      snd (updatePosition id newPosition teamId userId now s)
  end.

(** The [_id] a call addresses and the team it is issued for. *)
Definition op_target (op : Op) : string :=
  match op with
  | OpCreate _ _ _ oid _ => oid
  | OpUpdate id _ _ _ _ => toHexString id
  | OpRemove id _ _ _ => toHexString id
  | OpRestore id _ _ _ => toHexString id
  | OpUpdatePosition id _ _ _ _ => toHexString id
  end.

Definition op_team (op : Op) : string :=
  match op with
  | OpCreate _ teamId _ _ _ => teamId
  | OpUpdate _ _ teamId _ _ => teamId
  | OpRemove _ teamId _ _ => teamId
  | OpRestore _ teamId _ _ => teamId
  | OpUpdatePosition _ _ teamId _ _ => teamId
  end.

Definition run (ops : list Op) (s : Store Task) : Store Task :=
  fold_left (fun acc op => exec op acc) ops s.

Definition empty_store : Store Task := mkStore [] 0.



End TasksService.

Definition unique_ids (l : list Task) : Prop := NoDup (map _id l).

(** A task as the setters of the schema leave it: [title] and
    [description] trimmed. *)
Definition is_trimmed (t : Task) : bool :=
  String.eqb (trim (title t)) (title t)
  && match description t with
     | Some d => String.eqb (trim d) d
     | None => true
     end.

End Tasks.

(** * Projects *)

Module Projects.

(** ** Schema ([project.schema.ts]) and DTOs ([project.dto.ts]) *)

Module ProjectSettingsDto.
Record t : Type := mk {
  columns : option (list string);
  visibility : option string;
  color : option string
}.
End ProjectSettingsDto.

Module CreateProjectDto.
Record t : Type := mk {
  name : string;
  description : option string;
  settings : option ProjectSettingsDto.t
}.
End CreateProjectDto.

Module UpdateProjectDto.
Record t : Type := mk {
  name : option string;
  description : option string;
  settings : option ProjectSettingsDto.t
}.
End UpdateProjectDto.

(** A stored project.  [settings] is declared with the class
    [ProjectSettings], which carries no [@Schema]: the path is [Mixed], it
    keeps the object the DTO carries and fills in no default.  [createdAt]
    and [updatedAt] are the two fields of the schema option
    [timestamps: true]; the class declares [created_at] and [updated_at]
    without [@Prop], so they are no paths of the schema. *)
Record Project : Type := mkProject {
  _id : string;
  name : string;
  description : option string;
  team_id : string;
  created_by : string;
  settings : option ProjectSettingsDto.t;
  deleted_at : option Z;
  createdAt : option Z;
  updatedAt : option Z
}.

Definition or_else {A} (d : A) (o : option A) : A :=
  match o with Some a => a | None => d end.

Definition set_name v p :=
  mkProject (_id p) v (description p) (team_id p) (created_by p) (settings p)
    (deleted_at p) (createdAt p) (updatedAt p) .
Definition set_description v p :=
  mkProject (_id p) (name p) v (team_id p) (created_by p) (settings p)
    (deleted_at p) (createdAt p) (updatedAt p) .
Definition set_settings v p :=
  mkProject (_id p) (name p) (description p) (team_id p) (created_by p) v
    (deleted_at p) (createdAt p) (updatedAt p) .
Definition set_deleted_at v p :=
  mkProject (_id p) (name p) (description p) (team_id p) (created_by p)
    (settings p) v (createdAt p) (updatedAt p) .
Definition set_createdAt v p :=
  mkProject (_id p) (name p) (description p) (team_id p) (created_by p)
    (settings p) (deleted_at p) v (updatedAt p) .
Definition set_updatedAt v p :=
  mkProject (_id p) (name p) (description p) (team_id p) (created_by p)
    (settings p) (deleted_at p) (createdAt p) v.

(** [ProjectSchema.pre('save')]: [this.created_at] and [this.updated_at]
    are no paths of the schema, the two assignments reach no stored
    field. *)
Definition pre_save (isNew : bool) (now : Z) (p : Project) : Project := p.

(** Schema option [timestamps: true]. *)
Definition timestamps_save (now : Z) (p : Project) : Project :=
  set_updatedAt (Some now) (set_createdAt (Some now) p).

Definition timestamps_update (now : Z) (p : Project) : Project :=
  set_updatedAt (Some now) p.

(** The validators [save()] runs on a new document; [settings] is a
    [Mixed] path and has none. *)
Definition validate (p : Project) : bool :=
  negb (String.eqb (name p) EmptyString)
  && Nat.leb 1 (js_length (name p)) && Nat.leb (js_length (name p)) 100
  && match description p with
     | Some d => Nat.leb (js_length d) 1000
     | None => true
     end
  && matches_id (team_id p)
  && matches_id (created_by p).

(** [ProjectSchema.index({ team_id: 1, name: 1 }, { unique: true })]: the
    index has no partial filter, soft-deleted projects keep their key. *)
Definition same_key (a b : Project) : bool :=
  String.eqb (team_id a) (team_id b) && String.eqb (name a) (name b).

(** ** [ProjectsService] ([projects.service.ts]) *)

Section ProjectsService.
Context {OL : ObjectIdLib}.

(** [{ name, team_id, deleted_at: null }]; a string compared with the path
    [name] goes through the setter [trim: true] of the path. *)
Definition active_name_filter (nm teamId : string) (p : Project) : bool :=
  String.eqb (name p) (trim nm) && String.eqb (team_id p) teamId
  && is_null (deleted_at p).

(** [new this.projectModel({...createProjectDto, team_id, created_by})]. *)
Definition new_project (dto : CreateProjectDto.t) (teamId userId oid : string)
    : Project :=
  mkProject oid (trim (CreateProjectDto.name dto))
    (option_map trim (CreateProjectDto.description dto)) teamId userId
    (CreateProjectDto.settings dto) None None None.

Definition create (dto : CreateProjectDto.t) (teamId userId oid : string)
    (now : Z) : M Project Project :=
  existingProject <-
    model_findOne (active_name_filter (CreateProjectDto.name dto) teamId) ;;
  match existingProject with
  | Some _ =>
      throw (ConflictException
               "A project with this name already exists in your team")
  | None =>
      let project := new_project dto teamId userId oid in
      if negb (validate project) then throw ValidationError
      else model_save_unique _id same_key
             (timestamps_save now (pre_save true now project))
  end.

Definition findOne_filter (id teamId : string) (p : Project) : bool :=
  String.eqb (_id p) (toHexString id) && String.eqb (team_id p) teamId
  && is_null (deleted_at p).

Definition findOne (id teamId : string) : M Project Project :=
  if negb (isValid id) then
    throw (NotFoundException "Invalid project ID format")
  else
    o <- model_findOne (findOne_filter id teamId) ;;
    match o with
    | None =>
        throw (NotFoundException
                 "Project not found or you do not have access to it")
    | Some project => ret project
    end.

(** [{ name, team_id, _id: { $ne: id }, deleted_at: null }]. *)
Definition rename_conflict_filter (nm teamId id : string) (p : Project)
    : bool :=
  String.eqb (name p) (trim nm) && String.eqb (team_id p) teamId
  && negb (String.eqb (_id p) (toHexString id)) && is_null (deleted_at p).

(** [$set: { ...updateProjectDto, updated_at }]: [name] and [description]
    go through their setter, [updated_at] names no path and is dropped, the
    [timestamps] option stamps [updatedAt]. *)
Definition update_doc (dto : UpdateProjectDto.t) (now : Z) (d : Project)
    : Project :=
  let d1 := match UpdateProjectDto.name dto with
            | Some n => set_name (trim n) d | None => d end in
  let d2 := match UpdateProjectDto.description dto with
            | Some x => set_description (Some (trim x)) d1 | None => d1 end in
  let d3 := match UpdateProjectDto.settings dto with
            | Some s => set_settings (Some s) d2
            | None => d2 end in
  timestamps_update now d3.

Definition update (id : string) (dto : UpdateProjectDto.t)
    (teamId userId : string) (now : Z) : M Project Project :=
  project <- findOne id teamId ;;
  (if truthy_str (UpdateProjectDto.name dto)
      && negb (opt_str_eqb (UpdateProjectDto.name dto) (Some (name project)))
   then
     existingProject <-
       model_findOne
         (rename_conflict_filter
            (or_else EmptyString (UpdateProjectDto.name dto))
            teamId id) ;;
     match existingProject with
     | Some _ =>
         throw (ConflictException
                  "A project with this name already exists in your team")
     | None => ret tt
     end
   else ret tt) ;;;
  updatedProject <- model_findByIdAndUpdate_unique _id same_key
                      (toHexString id) (update_doc dto now) ;;
  match updatedProject with
  | None => throw (NotFoundException "Project not found")
  | Some p => ret p
  end.

Definition remove_doc (now : Z) (d : Project) : Project :=
  timestamps_update now (set_deleted_at (Some now) d).

Definition remove (id teamId userId : string) (now : Z) : M Project unit :=
  project <- findOne id teamId ;;
  model_findByIdAndUpdate_unique _id same_key (toHexString id)
    (remove_doc now) ;;;
  ret tt.

Definition restore_filter (id teamId : string) (p : Project) : bool :=
  String.eqb (_id p) (toHexString id) && String.eqb (team_id p) teamId
  && negb (is_null (deleted_at p)).

Definition restore_doc (now : Z) (d : Project) : Project :=
  timestamps_update now (set_deleted_at None d).

Definition restore (id teamId userId : string) (now : Z)
    : M Project Project :=
  if negb (isValid id) then
    throw (NotFoundException "Invalid project ID format")
  else
    o <- model_findOne (restore_filter id teamId) ;;
    match o with
    | None => throw (NotFoundException "Deleted project not found")
    | Some project =>
        existingProject <-
          model_findOne (active_name_filter (name project) teamId) ;;
        match existingProject with
        | Some _ =>
            throw (ConflictException
                     "Cannot restore: A project with this name already exists in your team")
        | None =>
            restoredProject <-
              model_findByIdAndUpdate_unique _id same_key (toHexString id)
                (restore_doc now) ;;
            match restoredProject with
            | None => throw TypeError
            | Some p => ret p
            end
        end
    end.

(** *** Listing and statistics *)

Definition findAll_filter (teamId : string) (includeDeleted : bool)
    (p : Project) : bool :=
  String.eqb (team_id p) teamId
  && (if negb includeDeleted then is_null (deleted_at p) else true).

(** The sort key of the listing, [created_at], is no path of the schema:
    no stored project carries it. *)
Definition created_at (p : Project) : option Z := None.

(** [{ created_at: -1 }]: newest first; a missing date sorts as the
    smallest value. *)
Definition created_desc_leb (a b : Project) : bool :=
  match created_at a, created_at b with
  | _, None => true
  | None, Some _ => false
  | Some x, Some y => Z.leb y x
  end.

Definition findAll (teamId : string) (includeDeleted : bool)
    (coll result : list Project) : Prop :=
  find_sort (findAll_filter teamId includeDeleted) (Some created_desc_leb)
    coll result.

Definition findAll_run (teamId : string) (includeDeleted : bool)
    (coll : list Project) : list Project :=
  find_sort_run (findAll_filter teamId includeDeleted)
    (Some created_desc_leb) coll.

Record TeamStats : Type := mkTeamStats {
  total_projects : nat;
  active_projects : nat;
  deleted_projects : nat
}.

Definition getTeamStats (teamId : string) (coll : list Project) : TeamStats :=
  mkTeamStats
    (countDocuments (fun p => String.eqb (team_id p) teamId) coll)
    (countDocuments
       (fun p => String.eqb (team_id p) teamId && is_null (deleted_at p))
       coll)
    (countDocuments
       (fun p => String.eqb (team_id p) teamId
                 && negb (is_null (deleted_at p))) coll).

(** *** Sequences of service calls *)

Inductive Op : Type :=
| OpCreate (dto : CreateProjectDto.t) (teamId userId oid : string) (now : Z)
| OpUpdate (id : string) (dto : UpdateProjectDto.t) (teamId userId : string)
    (now : Z)
| OpRemove (id teamId userId : string) (now : Z)
| OpRestore (id teamId userId : string) (now : Z).

(** The store a call leaves behind, whether it returns or throws. *)
Definition exec (op : Op) (s : Store Project) : Store Project :=
  match op with
  | OpCreate dto teamId userId oid now =>
      snd (create dto teamId userId oid now s)
  | OpUpdate id dto teamId userId now =>
      snd (update id dto teamId userId now s)
  | OpRemove id teamId userId now => snd (remove id teamId userId now s)
  | OpRestore id teamId userId now => snd (restore id teamId userId now s)
  end.

Definition run (ops : list Op) (s : Store Project) : Store Project :=
  fold_left (fun acc op => exec op acc) ops s.

Definition empty_store : Store Project := mkStore [] 0.

End ProjectsService.

Definition unique_ids (l : list Project) : Prop := NoDup (map _id l).

(** No two active projects of one team carry the same name. *)
Definition active_names_unique (l : list Project) : Prop :=
  forall p q, In p l -> In q l ->
    deleted_at p = None -> deleted_at q = None ->
    team_id p = team_id q -> name p = name q -> p = q.


(** Every name is as the setter of the path leaves it. *)
Definition names_trimmed (l : list Project) : Prop :=
  forall p, In p l -> trim (name p) = name p.


End Projects.

(** * Authentication guard ([jwt-auth.guard.ts]) *)

Module Auth.

(** The claims of a verified token; any of them may be absent. *)
Record JwtPayload : Type := mkPayload {
  sub : option string;
  email : option string;
  role : option string;
  teamId : option string;
  exp : option Z;
  iat : option Z
}.

(** [request.user]. *)
Record AuthUser : Type := mkUser {
  user_id : option string;
  user_email : option string;
  user_role : option string;
  user_teamId : option string;
  user_exp : option Z;
  user_iat : option Z
}.

(** [jwtService.verifyAsync(token, { secret })] either resolves with the
    payload or rejects with an error of some [name]. *)
Inductive VerifyOutcome : Type :=
| Verified (payload : JwtPayload)
| Rejected (errorName : string).

Class JwtLib : Type := {
  verifyAsync : string -> option string -> VerifyOutcome
}.

Inductive GuardResult : Type :=
| Activated (user : option AuthUser)
| Unauthorized (msg : string).

(** [authHeader.split(' ')], then [type === 'Bearer' ? token : undefined]. *)
Definition extractTokenFromHeader (authorization : option string)
  : option string :=
  if negb (truthy_str authorization) then None
  else
    match split_on " " (Tasks.default EmptyString authorization) with
    | type :: rest =>
        if String.eqb type "Bearer"
        then match rest with
             | token :: _ => Some token
             | [] => None
             end
        else None
    | [] => None
    end.

(** [payload.teamId || payload.sub]. *)
Definition team_scope (payload : JwtPayload) : option string :=
  if truthy_str (teamId payload) then teamId payload else sub payload.

Section Guard.
Context {JL : JwtLib}.

(** [canActivate]; [isPublic] is the route metadata read by the reflector,
    [secret] the configured [JWT_SECRET].  The result carries the user
    attached to the request, if any. *)
Definition canActivate (isPublic : bool) (authorization : option string)
    (secret : option string) : GuardResult :=
  if isPublic then Activated None
  else
    let token := extractTokenFromHeader authorization in
    if negb (truthy_str token) then Unauthorized "Access token is required"
    else
      match verifyAsync (Tasks.default EmptyString token) secret with
      | Verified payload =>
          Activated
            (Some (mkUser (sub payload) (email payload) (role payload)
                     (team_scope payload) (exp payload) (iat payload)))
      | Rejected errorName =>
          if String.eqb errorName "TokenExpiredError"
          then Unauthorized "Access token has expired"
          else if String.eqb errorName "JsonWebTokenError"
          then Unauthorized "Invalid access token"
          else Unauthorized "Authentication failed"
      end.

End Guard.

End Auth.

(** * Sample collaborators and data

    Concrete instances of the external collaborators and a few stores, used
    to run the service on explicit inputs. *)

Module Samples.
Import Tasks.

Definition is_hex (a : ascii) : bool :=
  let n := nat_of_ascii a in
  (Nat.leb 48 n && Nat.leb n 57) || (Nat.leb 97 n && Nat.leb n 102)
  || (Nat.leb 65 n && Nat.leb n 70).

(** A 24-character hexadecimal string. *)
Definition hex24 (s : string) : bool :=
  Nat.eqb (String.length s) 24 && forallb is_hex (list_ascii_of_string s).

(** The digits A..F in lower case. *)
Definition lower_hex (a : ascii) : ascii :=
  let n := nat_of_ascii a in
  if Nat.leb 65 n && Nat.leb n 70 then ascii_of_nat (n + 32) else a.

Fixpoint map_string (f : ascii -> ascii) (s : string) : string :=
  match s with
  | EmptyString => EmptyString
  | String a r => String (f a) (map_string f r)
  end.

(** ObjectIds written as 24 hexadecimal digits of either case. *)
Definition hex_ids : ObjectIdLib :=
  {| isValid := hex24; toHexString := map_string lower_hex |}.

Definition title_index : TextIndex :=
  {| text_match := fun q t => String.eqb q (title t) |}.

Definition id1 : string := "65a000000000000000000001".
Definition id2 : string := "65a000000000000000000002".
Definition id3 : string := "65a000000000000000000003".
(** [id1] spelled with an upper-case digit. *)
Definition ID1 : string := "65A000000000000000000001".
Definition teamA : string := "teama00000000000000000000".
Definition teamB : string := "teamb00000000000000000000".
Definition alice : string := "alice00000000000000000000".
Definition bob : string := "bob0000000000000000000000".

Definition dto_titled (ttl : string) (st : option TaskStatus)
  : CreateTaskDto.t :=
  CreateTaskDto.mk ttl None st None None None None None None None None.

(** [create] followed by 99 updates of the title: a task whose history
    holds 100 entries. *)
Definition fill_ops : list Op :=
  OpCreate (dto_titled "A" None) teamA alice id1 1000
  :: repeat (OpUpdate id1 [U_title "B"] teamA alice 2000) 99.

Definition full_store : Store Task :=
  @run hex_ids fill_ops empty_store.

(** A store holding one freshly created task. *)
Definition one_store : Store Task :=
  @run hex_ids [OpCreate (dto_titled "A" None) teamA alice id1 1000]
    empty_store.

(** A task created directly in status [done]. *)
Definition born_done_ops : list Op :=
  [OpCreate (dto_titled "A" (Some DONE)) teamA alice id1 1000].

(** The task born in status [done], then removed, then restored. *)
Definition done_store : Store Task := @run hex_ids born_done_ops empty_store.

Definition done_removed : Store Task :=
  @run hex_ids (born_done_ops ++ [OpRemove id1 teamA alice 2000])
    empty_store.

Definition done_restored : Store Task :=
  @run hex_ids
    (born_done_ops
     ++ [OpRemove id1 teamA alice 2000; OpRestore id1 teamA alice 3000])
    empty_store.

(** A todo task and a task created in status [done]. *)
Definition mixed_store : Store Task :=
  @run hex_ids
    [OpCreate (dto_titled "A" None) teamA alice id1 1000;
     OpCreate (dto_titled "B" (Some DONE)) teamA alice id2 1001]
    empty_store.

(** The task [create] stores for a titled DTO. *)
Definition created (ttl oid : string) (now : Z) : Task :=
  timestamps_save now
    (pre_save true false now (new_task (dto_titled ttl None) teamA alice oid now)).

(** Two todo tasks created in the same millisecond: equal positions. *)
Definition tie_a : Task := created "A" id1 1000.
Definition tie_b : Task := created "B" id2 1000.
Definition tie_store : Store Task := mkStore [tie_a; tie_b] 2.

(** Three todo tasks inserted with positions 3, 1, 2. *)
Definition pos3 : Task := created "third" id1 3.
Definition pos1 : Task := created "first" id2 1.
Definition pos2 : Task := created "second" id3 2.
Definition store312 : Store Task := mkStore [pos3; pos1; pos2] 3.

Definition store312_ops : list Op :=
  [OpCreate (dto_titled "third" None) teamA alice id1 3;
   OpCreate (dto_titled "first" None) teamA alice id2 1;
   OpCreate (dto_titled "second" None) teamA alice id3 2].

(** Projects: "X" is created and removed, then a second "X" is asked for
    in the same team. *)
Definition project_dto (nm : string) : Projects.CreateProjectDto.t :=
  Projects.CreateProjectDto.mk nm None None.

Definition projX : Projects.Project :=
  Projects.mkProject id1 "X" None teamA alice None
    None (Some 1000) (Some 1000).


(** A store holding the single active project "X". *)
Definition one_project : Store Projects.Project := mkStore [projX] 1.


(** The calls that build the two stores. *)
Definition one_project_ops : list Projects.Op :=
  [Projects.OpCreate (project_dto "X") teamA alice id1 1000].


Definition rename_to (nm : string) : Projects.UpdateProjectDto.t :=
  Projects.UpdateProjectDto.mk (Some nm) None None.

(** One task of team A and one of team B. *)
Definition tasks_of_two_teams : Store Task :=
  @run hex_ids
    [OpCreate (dto_titled "A" None) teamA alice id1 1000;
     OpCreate (dto_titled "B" None) teamB bob id2 1001]
    empty_store.

(** The task of team B in that store. *)
Definition task_of_bob : Task :=
  timestamps_save 1001
    (pre_save true false 1001
       (new_task (dto_titled "B" None) teamB bob id2 1001)).

(** Team A addressing the task of team B. *)
Definition foreign_update : Op :=
  OpUpdate id2 [U_title "stolen"] teamA alice 2000.

(** Days of 86 400 000 ms counted from the epoch. *)
Definition utc_days : DateLib :=
  {| start_of_day := fun n => n - n mod 86400000;
     next_day := fun n => n + 86400000 |}.

End Samples.

(** ** Label lists as a client writes them in a query *)

(** The names joined by a comma and a space. *)
Fixpoint comma_separated (names : list string) : string :=
  match names with
  | [] => EmptyString
  | [n] => n
  | n :: rest =>
      String.append n (String "," (String " " (comma_separated rest)))
  end.

Fixpoint no_comma (s : string) : bool :=
  match s with
  | EmptyString => true
  | String a r => negb (Ascii.eqb a ",") && no_comma r
  end.

(** A label that survives the parsing of the query: not empty, without a
    comma, without white space at either end. *)
Definition plain_label (n : string) : Prop :=
  n <> EmptyString /\ no_comma n = true /\ trim n = n.

(** The string does not contain the character. *)
Fixpoint lacks (c : ascii) (s : string) : bool :=
  match s with
  | EmptyString => true
  | String a r => negb (Ascii.eqb a c) && lacks c r
  end.

(** A token verifier that accepts the single token "good". *)
Definition one_token : Auth.JwtLib :=
  {| Auth.verifyAsync := fun token _ =>
       if String.eqb token "good"
       then Auth.Verified
              (Auth.mkPayload (Some Samples.alice) None None None None None)
       else Auth.Rejected "JsonWebTokenError" |}.

(** Case analysis on the key read by [task_get]. *)
Ltac split_key key :=
  repeat match goal with
         | |- context [String.eqb key ?k] =>
             let E := fresh "E" in
             destruct (String.eqb key k) eqn:E;
             [ apply String.eqb_eq in E; try congruence; try reflexivity | ]
         end.


(** * Properties *)

(** ** The store *)

Section StoreFacts.
Context {D : Type}.
Variable doc_id : D -> string.

Lemma lookup_In (id : string) (l : list D) (d : D) :
  lookup doc_id id l = Some d -> In d l /\ doc_id d = id.
Proof.
  unfold lookup. intros H. apply find_some in H.
  destruct H as [Hin He]. apply String.eqb_eq in He. auto.
Qed.

Lemma lookup_unique (l : list D) (d : D) :
  NoDup (map doc_id l) -> In d l -> lookup doc_id (doc_id d) l = Some d.
Proof.
  unfold lookup. induction l as [|x r IH]; simpl; intros Hnd Hin; [easy|].
  inversion Hnd as [|? ? Hx Hr]; subst.
  destruct Hin as [->|Hin].
  - now rewrite String.eqb_refl.
  - destruct (String.eqb (doc_id x) (doc_id d)) eqn:E.
    + apply String.eqb_eq in E. exfalso. apply Hx. rewrite E.
      now apply in_map.
    + auto.
Qed.

Lemma find_lookup (f : D -> bool) (id : string) (l : list D) (d : D) :
  NoDup (map doc_id l) -> List.find f l = Some d -> doc_id d = id ->
  lookup doc_id id l = Some d.
Proof.
  intros Hnd Hf <-. apply lookup_unique; trivial.
  now apply find_some in Hf.
Qed.

Lemma update_first_fst (id : string) (upd : D -> D) (l : list D) :
  fst (update_first doc_id id upd l) = option_map upd (lookup doc_id id l).
Proof.
  unfold lookup. induction l as [|x r IH]; simpl; trivial.
  destruct (String.eqb (doc_id x) id); simpl; trivial.
  destruct (update_first doc_id id upd r); simpl in *. exact IH.
Qed.

Lemma update_first_none (id : string) (upd : D -> D) (l : list D) :
  lookup doc_id id l = None -> snd (update_first doc_id id upd l) = l.
Proof.
  unfold lookup. induction l as [|x r IH]; simpl; trivial.
  destruct (String.eqb (doc_id x) id); simpl; [discriminate|].
  intros H. specialize (IH H).
  destruct (update_first doc_id id upd r); simpl in *. now f_equal.
Qed.

Section KeepsId.
Variable upd : D -> D.
Hypothesis upd_id : forall d, doc_id (upd d) = doc_id d.

Lemma update_first_ids (id : string) (l : list D) :
  map doc_id (snd (update_first doc_id id upd l)) = map doc_id l.
Proof.
  induction l as [|x r IH]; simpl; trivial.
  destruct (String.eqb (doc_id x) id); simpl.
  - now rewrite upd_id.
  - destruct (update_first doc_id id upd r); simpl in *. now f_equal.
Qed.

Lemma lookup_update_first (id id' : string) (l : list D) :
  lookup doc_id id' (snd (update_first doc_id id upd l)) =
  if String.eqb id' id then option_map upd (lookup doc_id id l)
  else lookup doc_id id' l.
Proof.
  unfold lookup. induction l as [|x r IH]; simpl.
  - now destruct (String.eqb id' id).
  - destruct (String.eqb (doc_id x) id) eqn:E; simpl.
    + rewrite upd_id. apply String.eqb_eq in E. subst id.
      destruct (String.eqb id' (doc_id x)) eqn:E'.
      * apply String.eqb_eq in E'. subst id'.
        now rewrite String.eqb_refl.
      * rewrite String.eqb_sym, E'. trivial.
    + destruct (update_first doc_id id upd r) as [o r']; simpl in *.
      destruct (String.eqb (doc_id x) id') eqn:E'; trivial.
      apply String.eqb_eq in E'. subst id'. now rewrite E.
Qed.
End KeepsId.

Lemma update_first_In (id : string) (upd : D -> D) (l : list D) (x : D) :
  In x (snd (update_first doc_id id upd l)) ->
  In x l \/ exists d, lookup doc_id id l = Some d /\ x = upd d.
Proof.
  unfold lookup. induction l as [|y r IH]; simpl; [tauto|].
  destruct (String.eqb (doc_id y) id); simpl.
  - intros [<-|H]; eauto.
  - destruct (update_first doc_id id upd r) as [o r']; simpl in *.
    intros [<-|H]; auto. destruct (IH H); auto.
Qed.


End StoreFacts.

(** ** Sorted answers of the store *)

Section SortFacts.
Context {D : Type}.
Variable leb : D -> D -> bool.

Lemma insert_by_perm (x : D) (l : list D) :
  Permutation (x :: l) (insert_by leb x l).
Proof.
  induction l as [|y r IH]; simpl; [apply Permutation_refl|].
  destruct (leb y x).
  - eapply perm_trans; [apply perm_swap|]. now apply perm_skip.
  - apply Permutation_refl.
Qed.

Lemma sort_by_perm (l : list D) : Permutation l (sort_by leb l).
Proof.
  unfold sort_by. eapply perm_trans; [apply Permutation_rev|].
  induction (rev l) as [|x r IH]; simpl; [constructor|].
  eapply perm_trans; [apply perm_skip, IH|]. apply insert_by_perm.
Qed.

Lemma filter_perm (f : D -> bool) (l l' : list D) :
  Permutation l l' -> Permutation (List.filter f l) (List.filter f l').
Proof.
  induction 1 as [|x l l' _ IH|x y l|l l' l'' _ IH1 _ IH2]; simpl.
  - constructor.
  - destruct (f x); auto.
  - destruct (f x), (f y); auto using perm_swap, Permutation_refl.
  - eapply perm_trans; eauto.
Qed.

Lemma filter_sorted (f : D -> bool) (l : list D) :
  sorted_by leb l -> sorted_by leb (List.filter f l).
Proof.
  unfold sorted_by. induction 1 as [|x l Hs IH Hx]; simpl; [constructor|].
  destruct (f x); trivial. constructor; trivial.
  rewrite Forall_forall in *. intros y Hy.
  apply filter_In in Hy. now apply Hx.
Qed.

(** Two sorted arrangements of the same documents coincide as soon as the
    order tells any two of them apart. *)
Lemma sorted_perm_unique (l1 l2 : list D) :
  (forall x y, In x l1 -> In y l1 ->
               leb x y = true -> leb y x = true -> x = y) ->
  sorted_by leb l1 -> sorted_by leb l2 -> Permutation l1 l2 -> l1 = l2.
Proof.
  unfold sorted_by. revert l2.
  induction l1 as [|x r IH]; intros l2 Hanti H1 H2 Hp.
  - apply Permutation_nil in Hp. now subst.
  - destruct l2 as [|y r2].
    { apply Permutation_sym, Permutation_nil in Hp. discriminate. }
    inversion H1 as [|? ? Hr Hx]; subst.
    inversion H2 as [|? ? Hr2 Hy]; subst.
    rewrite Forall_forall in Hx, Hy.
    assert (Exy : x = y).
    { assert (Hxin : In x (y :: r2))
        by (eapply Permutation_in; [exact Hp | now left]).
      assert (Hyin : In y (x :: r))
        by (eapply Permutation_in;
            [apply Permutation_sym; exact Hp | now left]).
      destruct Hxin as [->|Hxin]; trivial.
      destruct Hyin as [->|Hyin]; trivial.
      apply Hanti; [now left | now right | now apply Hx | now apply Hy]. }
    subst y. f_equal. apply IH; trivial.
    + intros a b Ha Hb. apply Hanti; now right.
    + now apply Permutation_cons_inv in Hp.
Qed.

Hypothesis leb_total : forall a b, leb a b = true \/ leb b a = true.
Hypothesis leb_trans :
  forall a b c, leb a b = true -> leb b c = true -> leb a c = true.

Lemma insert_by_sorted (x : D) (l : list D) :
  sorted_by leb l -> sorted_by leb (insert_by leb x l).
Proof.
  unfold sorted_by. induction 1 as [|y r Hs IH Hy]; simpl.
  - repeat constructor.
  - destruct (leb y x) eqn:E.
    + constructor; trivial.
      rewrite Forall_forall in *. intros z Hz.
      eapply Permutation_in in Hz;
        [|apply Permutation_sym, insert_by_perm].
      destruct Hz as [<-|Hz]; auto.
    + assert (Hxy : leb x y = true) by (destruct (leb_total x y); congruence).
      constructor; [now constructor|].
      constructor; trivial.
      rewrite Forall_forall in *. intros z Hz. eauto.
Qed.

Lemma sort_by_sorted (l : list D) : sorted_by leb (sort_by leb l).
Proof.
  unfold sort_by. induction (rev l) as [|x r IH]; simpl.
  - constructor.
  - now apply insert_by_sorted.
Qed.

End SortFacts.

Lemma find_sort_run_ok {D} (f : D -> bool) (order : option (D -> D -> bool))
    (coll : list D) :
  (forall leb, order = Some leb ->
     (forall a b, leb a b = true \/ leb b a = true) /\
     (forall a b c, leb a b = true -> leb b c = true -> leb a c = true)) ->
  find_sort f order coll (find_sort_run f order coll).
Proof.
  intros H. unfold find_sort, find_sort_run. destruct order as [leb|].
  - destruct (H leb eq_refl) as [Ht Htr]. split.
    + apply sort_by_perm.
    + now apply sort_by_sorted.
  - split; [apply Permutation_refl | exact I].
Qed.

Lemma find_sort_In {D} (f : D -> bool) order (coll r : list D) (x : D) :
  find_sort f order coll r -> (In x r <-> In x coll /\ f x = true).
Proof.
  intros [Hp _]. rewrite <- filter_In. split; intros H.
  - eapply Permutation_in; [apply Permutation_sym|]; eassumption.
  - eapply Permutation_in; eassumption.
Qed.

(** ** Tasks: orders, lookups and the shape of each call *)

Import Tasks.

Lemma status_eqb_eq (a b : TaskStatus) : status_eqb a b = true <-> a = b.
Proof.
  destruct a, b; simpl; split; intros H; try reflexivity; discriminate.
Qed.

Lemma status_eqb_refl (a : TaskStatus) : status_eqb a a = true.
Proof. now apply status_eqb_eq. Qed.

Lemma status_eqb_neq (a b : TaskStatus) : status_eqb a b = false <-> a <> b.
Proof.
  rewrite <- status_eqb_eq. destruct (status_eqb a b); split; congruence.
Qed.

Lemma priority_eqb_eq (a b : TaskPriority) :
  priority_eqb a b = true <-> a = b.
Proof.
  destruct a, b; simpl; split; intros H; try reflexivity; discriminate.
Qed.

Lemma position_leb_total (a b : Task) :
  position_leb a b = true \/ position_leb b a = true.
Proof.
  unfold position_leb. rewrite !Qle_bool_iff.
  destruct (Qlt_le_dec (position a) (position b)) as [H|H]; auto.
  left. now apply Qlt_le_weak.
Qed.

Lemma position_leb_trans (a b c : Task) :
  position_leb a b = true -> position_leb b c = true ->
  position_leb a c = true.
Proof. unfold position_leb. rewrite !Qle_bool_iff. apply Qle_trans. Qed.

Lemma status_position_leb_total (a b : Task) :
  status_position_leb a b = true \/ status_position_leb b a = true.
Proof.
  unfold status_position_leb.
  destruct (status_eqb (status a) (status b)) eqn:E.
  - apply status_eqb_eq in E. rewrite <- E, status_eqb_refl.
    apply position_leb_total.
  - destruct (status a), (status b); simpl in *; auto; discriminate.
Qed.

Lemma status_position_leb_trans (a b c : Task) :
  status_position_leb a b = true -> status_position_leb b c = true ->
  status_position_leb a c = true.
Proof.
  unfold status_position_leb.
  destruct (status_eqb (status a) (status b)) eqn:Eab.
  - apply status_eqb_eq in Eab. rewrite Eab.
    destruct (status_eqb (status b) (status c)); trivial.
    apply position_leb_trans.
  - destruct (status_eqb (status b) (status c)) eqn:Ebc.
    + apply status_eqb_eq in Ebc. rewrite <- Ebc, Eab. trivial.
    + destruct (status a), (status b), (status c); simpl in *;
        trivial; discriminate.
Qed.

Section TaskFacts.
Context {OL : ObjectIdLib} {TI : TextIndex}.

Lemma findAll_sort_ok (query : TaskQueryDto.t) (leb : Task -> Task -> bool) :
  findAll_sort query = Some leb ->
  (forall a b, leb a b = true \/ leb b a = true) /\
  (forall a b c, leb a b = true -> leb b c = true -> leb a c = true).
Proof.
  unfold findAll_sort. destruct (truthy_str _); [discriminate|].
  intros [= <-]. split.
  - apply status_position_leb_total.
  - apply status_position_leb_trans.
Qed.

(** [findAll] and [getKanbanBoard] always produce an answer. *)
Lemma findAll_run_ok (teamId : string) (query : TaskQueryDto.t)
    (coll : list Task) :
  findAll teamId query coll (findAll_run teamId query coll).
Proof.
  unfold findAll, findAll_run. destruct (bad_project _); trivial.
  eexists. split; [|reflexivity].
  apply find_sort_run_ok. apply findAll_sort_ok.
Qed.

Lemma getKanbanBoard_run_ok (teamId : string) (projectId : option string)
    (coll : list Task) :
  getKanbanBoard teamId projectId coll
    (getKanbanBoard_run teamId projectId coll).
Proof.
  unfold getKanbanBoard, getKanbanBoard_run. destruct (bad_project _); trivial.
  eexists. split; [|reflexivity].
  apply find_sort_run_ok. intros leb [= <-]. split.
  - apply position_leb_total.
  - apply position_leb_trans.
Qed.

(** *** [findOne] *)

Lemma findOne_eq (id teamId : string) (s : Store Task) :
  findOne id teamId s =
  (if negb (isValid id)
   then Throw (NotFoundException "Invalid task ID format")
   else match List.find (findOne_filter id teamId) (docs s) with
        | Some t => Ok t
        | None => Throw (NotFoundException
                           "Task not found or you do not have access to it")
        end, s).
Proof.
  unfold findOne. destruct (negb (isValid id)); trivial.
  unfold bind, model_findOne.
  now destruct (List.find _ _).
Qed.

Lemma findOne_filter_true (id teamId : string) (t : Task) :
  findOne_filter id teamId t = true <->
  _id t = toHexString id /\ team_id t = teamId /\ deleted_at t = None.
Proof.
  unfold findOne_filter. rewrite !andb_true_iff, !String.eqb_eq.
  destruct (deleted_at t); simpl; intuition congruence.
Qed.

Lemma findOne_found (id teamId : string) (s s' : Store Task) (t : Task) :
  findOne id teamId s = (Ok t, s') ->
  s' = s /\ isValid id = true /\ In t (docs s) /\
  _id t = toHexString id /\ team_id t = teamId /\ deleted_at t = None.
Proof.
  rewrite findOne_eq. destruct (isValid id); simpl; [|discriminate].
  destruct (List.find _ _) eqn:E; [|discriminate].
  intros [= -> <-]. apply find_some in E. destruct E as [Hin Hf].
  apply findOne_filter_true in Hf. tauto.
Qed.

Lemma findOne_lookup (id teamId : string) (s s' : Store Task) (t : Task) :
  unique_ids (docs s) -> findOne id teamId s = (Ok t, s') ->
  lookup _id (toHexString id) (docs s) = Some t.
Proof.
  intros Hu H. apply findOne_found in H.
  destruct H as (_ & _ & Hin & <- & _). now apply lookup_unique.
Qed.

Lemma findOne_missing (id teamId : string) (s : Store Task) :
  (forall t, In t (docs s) -> _id t = toHexString id ->
             team_id t <> teamId \/ deleted_at t <> None) ->
  exists msg, findOne id teamId s = (Throw (NotFoundException msg), s).
Proof.
  intros H. rewrite findOne_eq. destruct (isValid id); simpl; eauto.
  destruct (List.find _ _) eqn:E; eauto.
  apply find_some in E. destruct E as [Hin Hf].
  apply findOne_filter_true in Hf. destruct Hf as (Hid & Ht & Hd).
  destruct (H _ Hin Hid); contradiction.
Qed.

Lemma findOne_result (id teamId : string) (s : Store Task) :
  (exists t, findOne id teamId s = (Ok t, s)) \/
  (exists msg, findOne id teamId s = (Throw (NotFoundException msg), s)).
Proof.
  rewrite findOne_eq. destruct (isValid id); simpl; eauto.
  destruct (List.find _ _); eauto.
Qed.

End TaskFacts.

(** *** What [$set: {...updateTaskDto}] leaves alone *)

Lemma set_props_snoc (dto : UpdateTaskDto) (p : UpdateTaskProp) (d : Task) :
  set_props (dto ++ [p]) d = set_prop p (set_props dto d).
Proof. unfold set_props. now rewrite fold_left_app. Qed.

Lemma dto_status_snoc (dto : UpdateTaskDto) (p : UpdateTaskProp) :
  dto_status (dto ++ [p]) =
  match p with U_status v => Some v | _ => dto_status dto end.
Proof. unfold dto_status. now rewrite fold_left_app. Qed.

Lemma dto_assignee_id_snoc (dto : UpdateTaskDto) (p : UpdateTaskProp) :
  dto_assignee_id (dto ++ [p]) =
  match p with U_assignee_id v => Some v | _ => dto_assignee_id dto end.
Proof. unfold dto_assignee_id. now rewrite fold_left_app. Qed.

Lemma set_props_keeps (dto : UpdateTaskDto) (d : Task) :
  _id (set_props dto d) = _id d /\
  team_id (set_props dto d) = team_id d /\
  history (set_props dto d) = history d /\
  completed_at (set_props dto d) = completed_at d /\
  deleted_at (set_props dto d) = deleted_at d.
Proof.
  induction dto as [|p dto IH] using rev_ind; [now simpl|].
  rewrite set_props_snoc. destruct p; simpl; exact IH.
Qed.

Lemma set_props_status (dto : UpdateTaskDto) (d : Task) :
  status (set_props dto d) =
  match dto_status dto with Some v => v | None => status d end.
Proof.
  induction dto as [|p dto IH] using rev_ind; [reflexivity|].
  rewrite set_props_snoc, dto_status_snoc.
  destruct p; simpl; exact IH || reflexivity.
Qed.


Lemma dto_assignee_id_In (dto : UpdateTaskDto) (v : string) :
  dto_wf dto -> In (U_assignee_id v) dto -> dto_assignee_id dto = Some v.
Proof.
  unfold dto_wf. induction dto as [|p dto IH] using rev_ind; [easy|].
  rewrite map_app, dto_assignee_id_snoc. simpl. intros Hnd Hin.
  apply NoDup_remove in Hnd. rewrite app_nil_r in Hnd.
  destruct Hnd as [Hnd Hp].
  apply in_app_or in Hin. destruct Hin as [Hin|[->|[]]]; trivial.
  assert (Hk : In "assignee_id" (map prop_key dto))
    by (change "assignee_id" with (prop_key (U_assignee_id v));
        now apply in_map).
  destruct p; auto. now simpl in Hp.
Qed.

Section CallShapes.
Context {OL : ObjectIdLib} {TI : TextIndex}.

Lemma update_doc_id dto task userId now d :
  _id (update_doc dto task userId now d) = _id d.
Proof.
  unfold update_doc. destruct (completes dto task); simpl;
    apply set_props_keeps.
Qed.

Lemma update_doc_history dto task userId now d :
  history (update_doc dto task userId now d) =
  history d ++
  [mkEntry (update_action dto task) userId now (track_changes task dto)].
Proof.
  unfold update_doc. destruct (completes dto task); simpl;
    f_equal; apply set_props_keeps.
Qed.

Lemma update_doc_completed_at dto task userId now d :
  completed_at (update_doc dto task userId now d) =
  if completes dto task then Some now else completed_at d.
Proof.
  unfold update_doc. destruct (completes dto task); simpl; trivial.
  apply set_props_keeps.
Qed.

Lemma update_doc_status dto task userId now d :
  status (update_doc dto task userId now d) =
  match dto_status dto with Some v => v | None => status d end.
Proof.
  unfold update_doc. destruct (completes dto task); simpl;
    apply set_props_status.
Qed.

Lemma findByIdAndUpdate_eq (id : string) (upd : Task -> Task) (s : Store Task) :
  model_findByIdAndUpdate _id id upd s =
  (Ok (option_map upd (lookup _id id (docs s))), updated _id id upd s).
Proof.
  unfold model_findByIdAndUpdate, updated.
  rewrite <- update_first_fst. now destruct (update_first _ _ _ _).
Qed.

Lemma found_by_id (id teamId : string) (s s' : Store Task) (t : Task) :
  findOne id teamId s = (Ok t, s') ->
  exists d, lookup _id (toHexString id) (docs s) = Some d.
Proof.
  intros H. apply findOne_found in H. destruct H as (_ & _ & Hin & Hid & _).
  unfold lookup. destruct (List.find _ _) eqn:E; eauto.
  eapply find_none in E; [|exact Hin]. simpl in E.
  rewrite Hid, String.eqb_refl in E. discriminate.
Qed.

Lemma update_found id dto teamId userId now (s : Store Task) (t : Task) :
  unique_ids (docs s) -> findOne id teamId s = (Ok t, s) ->
  update id dto teamId userId now s =
  (Ok (update_doc dto t userId now t),
   updated _id (toHexString id) (update_doc dto t userId now) s).
Proof.
  intros Hu H. unfold update, bind. rewrite H, findByIdAndUpdate_eq.
  now rewrite (findOne_lookup _ _ _ _ _ Hu H).
Qed.

Lemma remove_found id teamId userId now (s : Store Task) (t : Task) :
  findOne id teamId s = (Ok t, s) ->
  remove id teamId userId now s =
  (Ok tt, updated _id (toHexString id) (remove_doc userId now) s).
Proof.
  intros H. unfold remove, bind. rewrite H, findByIdAndUpdate_eq. trivial.
Qed.

Lemma updatePosition_found id newPosition teamId userId now
    (s : Store Task) (t : Task) :
  unique_ids (docs s) -> findOne id teamId s = (Ok t, s) ->
  updatePosition id newPosition teamId userId now s =
  (Ok (position_doc newPosition now t),
   updated _id (toHexString id) (position_doc newPosition now) s).
Proof.
  intros Hu H. unfold updatePosition, bind. rewrite H, findByIdAndUpdate_eq.
  now rewrite (findOne_lookup _ _ _ _ _ Hu H).
Qed.

Lemma restore_filter_true (id teamId : string) (t : Task) :
  restore_filter id teamId t = true <->
  _id t = toHexString id /\ team_id t = teamId /\ deleted_at t <> None.
Proof.
  unfold restore_filter. rewrite !andb_true_iff, !String.eqb_eq.
  destruct (deleted_at t); simpl; intuition congruence.
Qed.

Lemma restore_eq id teamId userId now (s : Store Task) :
  restore id teamId userId now s =
  if negb (isValid id)
  then (Throw (NotFoundException "Invalid task ID format"), s)
  else match List.find (restore_filter id teamId) (docs s) with
       | None => (Throw (NotFoundException "Deleted task not found"), s)
       | Some task =>
           (match lookup _id (toHexString id) (docs s) with
            | Some d => Ok (restore_doc task userId now d)
            | None => Throw TypeError
            end, updated _id (toHexString id) (restore_doc task userId now) s)
       end.
Proof.
  unfold restore. destruct (negb (isValid id)); trivial.
  unfold bind, model_findOne. destruct (List.find _ _); trivial.
  rewrite findByIdAndUpdate_eq. now destruct (lookup _ _ _).
Qed.

Lemma lookup_updated (id id' : string) (upd : Task -> Task) (s : Store Task) :
  (forall d, _id (upd d) = _id d) ->
  lookup _id id' (docs (updated _id id upd s)) =
  if String.eqb id' id then option_map upd (lookup _id id (docs s))
  else lookup _id id' (docs s).
Proof. intros H. simpl. now apply lookup_update_first. Qed.

Lemma updated_unique (id : string) (upd : Task -> Task) (s : Store Task) :
  (forall d, _id (upd d) = _id d) ->
  unique_ids (docs s) -> unique_ids (docs (updated _id id upd s)).
Proof.
  unfold unique_ids. intros H Hu. simpl. now rewrite update_first_ids.
Qed.

End CallShapes.

(** ** C1: the cap of the embedded history *)

(** The schema method does keep the last 100 entries. *)
Lemma addHistoryEntry_cap act userId chg now (t : Task) :
  List.length (history t) = 100%nat ->
  history (addHistoryEntry act userId chg now t) =
    tl (history t) ++ [mkEntry act userId now chg] /\
  List.length (history (addHistoryEntry act userId chg now t)) = 100%nat.
Proof.
  intros H. unfold addHistoryEntry.
  rewrite length_app, H. simpl.
  destruct (history t) as [|e h]; [discriminate|]. simpl in *.
  split; trivial. rewrite length_app. simpl. lia.
Qed.

Lemma addHistoryEntry_bounded act userId chg now (t : Task) :
  (List.length (history t) <= 100)%nat ->
  (List.length (history (addHistoryEntry act userId chg now t)) <= 100)%nat.
Proof.
  intros H. unfold addHistoryEntry.
  destruct (Nat.ltb 100 _) eqn:E; simpl.
  - rewrite length_skipn. apply Nat.ltb_lt in E. lia.
  - apply Nat.ltb_ge in E. exact E.
Qed.

Section HistoryCap.
Context {OL : ObjectIdLib} {TI : TextIndex}.

(** C1 (code does not cap): on a task whose history holds 100 entries,
    [update] and [remove] both leave a stored history of 101 entries; the
    [$push] of the service bypasses the eviction of [addHistoryEntry]. *)
Theorem push_exceeds_history_cap id dto teamId userId now
    (s : Store Task) (t : Task) :
  unique_ids (docs s) ->
  findOne id teamId s = (Ok t, s) ->
  List.length (history t) = 100%nat ->
  (exists t',
      fst (update id dto teamId userId now s) = Ok t' /\
      lookup _id (toHexString id) (docs (snd (update id dto teamId userId now s)))
        = Some t' /\
      List.length (history t') = 101%nat) /\
  (exists t',
      lookup _id (toHexString id) (docs (snd (remove id teamId userId now s))) = Some t' /\
      List.length (history t') = 101%nat).
Proof.
  intros Hu Hf Hlen.
  pose proof (findOne_lookup _ _ _ _ _ Hu Hf) as Hl.
  split.
  - exists (update_doc dto t userId now t).
    rewrite (update_found _ _ _ _ _ _ _ Hu Hf). simpl fst. simpl snd.
    rewrite lookup_updated by (intros; apply update_doc_id).
    rewrite String.eqb_refl, Hl. cbn [option_map]. repeat split.
    rewrite update_doc_history, length_app, Hlen. reflexivity.
  - exists (remove_doc userId now t).
    rewrite (remove_found _ _ _ _ _ _ Hf). simpl snd.
    rewrite lookup_updated by reflexivity.
    rewrite String.eqb_refl, Hl. simpl. split; trivial.
    rewrite length_app, Hlen. reflexivity.
Qed.

(** [restore] pushes without eviction as well. *)
Lemma restore_exceeds_history_cap id teamId userId now
    (s : Store Task) (t : Task) :
  unique_ids (docs s) -> isValid id = true ->
  List.find (restore_filter id teamId) (docs s) = Some t ->
  List.length (history t) = 100%nat ->
  exists t',
    fst (restore id teamId userId now s) = Ok t' /\
    List.length (history t') = 101%nat.
Proof.
  intros Hu Hv Hf Hlen. rewrite restore_eq, Hv, Hf. simpl.
  assert (Hl : lookup _id (toHexString id) (docs s) = Some t).
  { apply find_lookup with (f := restore_filter id teamId); trivial.
    apply find_some in Hf. destruct Hf as [_ Hf].
    now apply restore_filter_true in Hf. }
  rewrite Hl. eexists. split; [reflexivity|].
  simpl. rewrite length_app, Hlen. reflexivity.
Qed.

End HistoryCap.

Lemma full_store_task :
  exists t, @findOne Samples.hex_ids Samples.id1 Samples.teamA
              Samples.full_store = (Ok t, Samples.full_store)
            /\ List.length (history t) = 100%nat.
Proof. eexists. split; vm_compute; reflexivity. Qed.

Lemma push_exceeds_history_cap_witness :
  exists t',
    lookup _id Samples.id1
      (docs (snd (@update Samples.hex_ids Samples.id1 [U_title "C"]
                    Samples.teamA Samples.alice 3000 Samples.full_store)))
    = Some t' /\ List.length (history t') = 101%nat.
Proof.
  destruct full_store_task as (t & Hf & Hlen).
  destruct (@push_exceeds_history_cap Samples.hex_ids Samples.id1
              [U_title "C"] Samples.teamA Samples.alice 3000
              Samples.full_store t) as [(t' & _ & Hl & Hn) _].
  - unfold unique_ids. vm_compute. repeat constructor. intros [].
  - exact Hf.
  - exact Hlen.
  - exists t'. split; assumption.
Defined.

(** ** C2: one entry for a patch touching status, priority and assignee *)




(** The label of an entry: status first, then assignee, then the rest.  An
    empty-string assignee is falsy and does not count as an assignment. *)
Lemma update_action_precedence (dto : UpdateTaskDto) (t : Task) :
  (forall st, dto_status dto = Some st -> st <> status t ->
     update_action dto t = "status_changed")
  /\ (forall a,
        (dto_status dto = None \/ dto_status dto = Some (status t)) ->
        dto_assignee_id dto = Some a -> a <> EmptyString ->
        assignee_id t <> Some a ->
        update_action dto t = "assigned")
  /\ ((dto_status dto = None \/ dto_status dto = Some (status t)) ->
      (dto_assignee_id dto = None \/ dto_assignee_id dto = Some EmptyString
       \/ dto_assignee_id dto = assignee_id t) ->
      update_action dto t = "updated").
Proof.
  unfold update_action, status_differs, assignee_differs.
  split; [|split].
  - intros st -> Hs. apply status_eqb_neq in Hs. now rewrite Hs.
  - intros a Hst -> Ha Hne.
    assert (E : match dto_status dto with
                | Some s => negb (status_eqb s (status t))
                | None => false
                end = false)
      by (destruct Hst as [-> | ->]; trivial; now rewrite status_eqb_refl).
    rewrite E. simpl.
    destruct (String.eqb a EmptyString) eqn:E1;
      [apply String.eqb_eq in E1; contradiction|].
    simpl. destruct (assignee_id t) as [b|]; simpl; trivial.
    destruct (String.eqb a b) eqn:E2; trivial.
    apply String.eqb_eq in E2. congruence.
  - intros Hst Has.
    assert (E : match dto_status dto with
                | Some s => negb (status_eqb s (status t))
                | None => false
                end = false)
      by (destruct Hst as [-> | ->]; trivial; now rewrite status_eqb_refl).
    rewrite E.
    destruct Has as [-> | [-> | ->]]; simpl; trivial.
    destruct (assignee_id t) as [b|]; simpl; trivial.
    rewrite String.eqb_refl. simpl. now rewrite andb_false_r.
Qed.

Section SingleEntry.
Context {OL : ObjectIdLib} {TI : TextIndex}.


End SingleEntry.

Lemma one_store_task :
  exists t, @findOne Samples.hex_ids Samples.id1 Samples.teamA
              Samples.one_store = (Ok t, Samples.one_store)
            /\ status t = TODO /\ priority t = MEDIUM
            /\ assignee_id t = None /\ List.length (history t) = 1%nat.
Proof. eexists. repeat split; vm_compute; reflexivity. Qed.

Lemma one_store_unique : unique_ids (docs Samples.one_store).
Proof. unfold unique_ids. vm_compute. repeat constructor. intros []. Qed.


(** ** C4: which mutations are recorded, and what the entry lists *)

Lemma same_value_refl (v : value) : same_value v v = true.
Proof.
  destruct v; simpl; trivial.
  - apply String.eqb_refl.
  - apply Qeq_bool_iff. reflexivity.
  - apply Z.eqb_refl.
  - now destruct (list_eq_dec string_dec l l).
  - apply String.eqb_refl.
Qed.

(** [$set] of one key leaves every other key of the task alone. *)
Lemma task_get_set_other (p : UpdateTaskProp) (x : Task) (key : string) :
  prop_key p <> key -> task_get (set_prop p x) key = task_get x key.
Proof.
  intros H. destruct p; simpl in H; unfold task_get;
    split_key key; reflexivity.
Qed.

Lemma is_trimmed_true (t : Task) :
  is_trimmed t = true ->
  trim (title t) = title t
  /\ forall d, description t = Some d -> trim d = d.
Proof.
  unfold is_trimmed. rewrite andb_true_iff, String.eqb_eq. intros [H1 H2].
  split; trivial. intros d E. rewrite E in H2. now apply String.eqb_eq.
Qed.

(** A key whose new value is [===] to the loaded one keeps its value, the
    loaded task being as the setters of the schema leave it. *)
Lemma task_get_set_same (p : UpdateTaskProp) (t x : Task) :
  is_trimmed t = true ->
  strict_eq (prop_value p) (task_get t (prop_key p)) = true ->
  same_value (task_get (set_prop p x) (prop_key p))
             (task_get t (prop_key p)) = true.
Proof.
  intros Htr. apply is_trimmed_true in Htr. destruct Htr as [Ht Hd].
  destruct p; cbn; trivial; try discriminate.
  - intros E. apply String.eqb_eq in E. subst v. rewrite Ht.
    apply String.eqb_refl.
  - destruct (description t) as [d|]; cbn; [|discriminate].
    intros E. apply String.eqb_eq in E. subst v. rewrite (Hd d eq_refl).
    apply String.eqb_refl.
Qed.

Lemma untracked_key_unchanged (t : Task) (dto : UpdateTaskDto) (key : string) :
  is_trimmed t = true ->
  ~ In key (map field (track_changes t dto)) ->
  same_value (task_get (set_props dto t) key) (task_get t key) = true.
Proof.
  intros Htr.
  induction dto as [|p dto IH] using rev_ind; intros Hn.
  - apply same_value_refl.
  - unfold track_changes in *. rewrite flat_map_app, map_app in Hn.
    rewrite set_props_snoc.
    destruct (string_dec (prop_key p) key) as [<-|Hk].
    + apply task_get_set_same; trivial.
      cbn in Hn. unfold track_change in Hn. rewrite app_nil_r in Hn.
      destruct (strict_eq _ _); trivial.
      exfalso. apply Hn. apply in_or_app. right.
      destruct (is_undefined (prop_value p)) eqn:E.
      * now destruct p.
      * cbn. now left.
    + rewrite task_get_set_other by exact Hk.
      apply IH. intros Hin. apply Hn. apply in_or_app. now left.
Qed.

Lemma update_doc_get dto task userId now (d : Task) (key : string) :
  task_get (update_doc dto task userId now d) key =
  task_get (set_props dto d) key.
Proof. unfold update_doc. now destruct (completes dto task). Qed.

Section Recorded.
Context {OL : ObjectIdLib} {TI : TextIndex}.

Lemma findOne_of_lookup id teamId (s : Store Task) (t : Task) :
  unique_ids (docs s) -> isValid id = true ->
  lookup _id (toHexString id) (docs s) = Some t ->
  team_id t = teamId -> deleted_at t = None ->
  findOne id teamId s = (Ok t, s).
Proof.
  intros Hu Hv Hl Ht Hd. rewrite findOne_eq, Hv. simpl.
  apply lookup_In in Hl. destruct Hl as [Hin Hid].
  destruct (List.find _ _) as [t'|] eqn:E.
  - apply find_some in E. destruct E as [Hin' Hf].
    apply findOne_filter_true in Hf. destruct Hf as (Hid' & _).
    pose proof (lookup_unique _id _ _ Hu Hin) as H1.
    pose proof (lookup_unique _id _ _ Hu Hin') as H2.
    rewrite Hid in H1. rewrite Hid' in H2. congruence.
  - eapply find_none in E; [|exact Hin].
    assert (findOne_filter id teamId t = true)
      by (apply findOne_filter_true; auto).
    congruence.
Qed.

Lemma restore_of_lookup id teamId userId now (s : Store Task) (t : Task) :
  unique_ids (docs s) -> isValid id = true ->
  lookup _id (toHexString id) (docs s) = Some t ->
  team_id t = teamId -> deleted_at t <> None ->
  restore id teamId userId now s =
  (Ok (restore_doc t userId now t),
   updated _id (toHexString id) (restore_doc t userId now) s).
Proof.
  intros Hu Hv Hl Ht Hd. rewrite restore_eq, Hv. simpl.
  pose proof (lookup_In _ _ _ _ Hl) as [Hin Hid].
  destruct (List.find _ _) as [t'|] eqn:E.
  - apply find_some in E. destruct E as [Hin' Hf].
    apply restore_filter_true in Hf. destruct Hf as (Hid' & _).
    pose proof (lookup_unique _id _ _ Hu Hin') as H2.
    rewrite Hid' in H2. assert (t' = t) by congruence. subst t'.
    now rewrite Hl.
  - eapply find_none in E; [|exact Hin].
    assert (restore_filter id teamId t = true)
      by (apply restore_filter_true; auto).
    congruence.
Qed.

(** C4 (as the code has it): [update], [remove] and [restore] each append
    exactly one history entry.  The entry of [update] lists every key of the
    patch whose stored value changed, for a task whose title and description
    are stored trimmed, as the setters of the schema leave every task the
    service stores; the entries of [remove] and [restore] list [deleted_at],
    the one field they change besides [updatedAt].  [updatePosition] appends
    no entry at all. *)
Theorem one_entry_per_recorded_mutation id teamId userId now
    (s : Store Task) (t : Task) :
  unique_ids (docs s) -> isValid id = true ->
  lookup _id (toHexString id) (docs s) = Some t -> team_id t = teamId ->
  (deleted_at t = None ->
     (forall dto, exists t' e,
         fst (update id dto teamId userId now s) = Ok t' /\
         lookup _id (toHexString id) (docs (snd (update id dto teamId userId now s)))
           = Some t' /\
         history t' = history t ++ [e] /\
         changes e = track_changes t dto /\
         (is_trimmed t = true ->
          forall key,
            same_value (task_get t' key) (task_get t key) = false ->
            In key (map field (changes e)))) /\
     (exists t' e,
         lookup _id (toHexString id) (docs (snd (remove id teamId userId now s))) = Some t' /\
         history t' = history t ++ [e] /\
         map field (changes e) = ["deleted_at"] /\
         deleted_at t' = Some now /\
         forall key, task_get t' key = task_get t key) /\
     (forall p, exists t',
         fst (updatePosition id p teamId userId now s) = Ok t' /\
         lookup _id (toHexString id)
           (docs (snd (updatePosition id p teamId userId now s))) = Some t' /\
         position t' = p /\
         history t' = history t)) /\
  (deleted_at t <> None ->
     exists t' e,
       fst (restore id teamId userId now s) = Ok t' /\
       lookup _id (toHexString id) (docs (snd (restore id teamId userId now s))) = Some t' /\
       history t' = history t ++ [e] /\
       map field (changes e) = ["deleted_at"] /\
       deleted_at t' = None /\
       forall key, task_get t' key = task_get t key).
Proof.
  intros Hu Hv Hl Ht. split.
  - intros Hd.
    pose proof (findOne_of_lookup _ _ _ _ Hu Hv Hl Ht Hd) as Hf.
    split; [|split].
    + intros dto. exists (update_doc dto t userId now t).
      exists (mkEntry (update_action dto t) userId now (track_changes t dto)).
      rewrite (update_found _ _ _ _ _ _ _ Hu Hf). simpl fst. simpl snd.
      rewrite lookup_updated by (intros; apply update_doc_id).
      rewrite String.eqb_refl, Hl. cbn [option_map changes].
      repeat split; trivial.
      * apply update_doc_history.
      * intros Htr key Hk. rewrite update_doc_get in Hk.
        destruct (in_dec string_dec key (map field (track_changes t dto)))
          as [Hin|Hn]; trivial.
        apply (untracked_key_unchanged t dto key Htr) in Hn. congruence.
    + exists (remove_doc userId now t). eexists.
      rewrite (remove_found _ _ _ _ _ _ Hf). simpl snd.
      rewrite lookup_updated by reflexivity.
      rewrite String.eqb_refl, Hl. cbn [option_map].
      repeat split; reflexivity.
    + intros p. exists (position_doc p now t).
      rewrite (updatePosition_found _ _ _ _ _ _ _ Hu Hf).
      simpl fst. simpl snd.
      rewrite lookup_updated by reflexivity.
      rewrite String.eqb_refl, Hl. cbn [option_map].
      repeat split; reflexivity.
  - intros Hd. exists (restore_doc t userId now t). eexists.
    rewrite (restore_of_lookup _ _ _ _ _ _ Hu Hv Hl Ht Hd).
    simpl fst. simpl snd.
    rewrite lookup_updated by reflexivity.
    rewrite String.eqb_refl, Hl. cbn [option_map].
    repeat split; reflexivity.
Qed.

End Recorded.

(** C4 as stated fails: moving a task changes its position and records
    nothing. *)
Lemma updatePosition_records_nothing :
  exists t t',
    @findOne Samples.hex_ids Samples.id1 Samples.teamA Samples.one_store
      = (Ok t, Samples.one_store) /\
    fst (@updatePosition Samples.hex_ids Samples.id1 (5 # 2) Samples.teamA
           Samples.alice 3000 Samples.one_store) = Ok t' /\
    Qeq_bool (position t') (position t) = false /\
    history t' = history t.
Proof. do 2 eexists. repeat split; vm_compute; reflexivity. Qed.

Lemma one_entry_per_recorded_mutation_witness :
  exists t' e,
    fst (@update Samples.hex_ids Samples.id1 [U_title "B"; U_priority LOW]
           Samples.teamA Samples.alice 3000 Samples.one_store) = Ok t' /\
    List.length (history t') = 2%nat /\
    changes e = [mkChange "title" (VString "A") (VString "B");
                 mkChange "priority" (VNumber (3 # 1)) (VNumber (4 # 1))].
Proof.
  destruct one_store_task as (t & Hf & _ & _ & _ & Hh).
  assert (Hl : lookup _id Samples.id1 (docs Samples.one_store) = Some t)
    by (apply (@findOne_lookup Samples.hex_ids) with (1 := one_store_unique)
          (2 := Hf)).
  destruct (@one_entry_per_recorded_mutation Samples.hex_ids Samples.id1
              Samples.teamA Samples.alice 3000 Samples.one_store t)
    as [Hact _].
  - exact one_store_unique.
  - vm_compute. reflexivity.
  - exact Hl.
  - now apply (@findOne_found Samples.hex_ids) in Hf.
  - destruct Hact as [Hupd _].
    + now apply (@findOne_found Samples.hex_ids) in Hf.
    + destruct (Hupd [U_title "B"; U_priority LOW])
        as (t' & e & Hr & _ & Hh' & Hc & _).
      exists t', e. repeat split; trivial.
      * rewrite Hh', length_app, Hh. reflexivity.
      * rewrite Hc. clear - Hf. rewrite (@findOne_eq Samples.hex_ids) in Hf.
        vm_compute in Hf. injection Hf as <-. vm_compute. reflexivity.
Defined.

(** ** C3: the completion timestamp *)

Section Completion.
Context {OL : ObjectIdLib} {TI : TextIndex}.

Lemma create_eq dto teamId userId oid now (s : Store Task) :
  create dto teamId userId oid now s =
  let task := new_task dto teamId userId oid now in
  let d := timestamps_save now (pre_save true false now task) in
  if negb (validate task) then (Throw ValidationError, s)
  else if existsb (fun x => String.eqb (_id x) oid) (docs s)
  then (Throw MongoServerError, mkStore (docs s) (S (writes s)))
  else (Ok d, mkStore (docs s ++ [d]) (S (writes s))).
Proof.
  unfold create. cbv zeta. now destruct (negb (validate _)).
Qed.

Lemma completes_done dto (t : Task) :
  completes dto t = true ->
  dto_status dto = Some DONE /\ completed_at t = None.
Proof.
  unfold completes. destruct (dto_status dto) as [v|]; [|discriminate].
  rewrite andb_true_iff, status_eqb_eq. intros [-> H].
  split; trivial. now destruct (completed_at t).
Qed.

(** How one call transforms the collection. *)
Lemma exec_shape (op : Op) (s : Store Task) :
  unique_ids (docs s) ->
  docs (exec op s) = docs s
  \/ (exists d, docs (exec op s) = docs s ++ [d]
                /\ existsb (fun x => String.eqb (_id x) (_id d)) (docs s)
                   = false
                /\ completed_at d = None)
  \/ (exists id upd t,
         lookup _id id (docs s) = Some t
         /\ docs (exec op s) = docs (updated _id id upd s)
         /\ (forall d, _id (upd d) = _id d)
         /\ (completed_at (upd t) = completed_at t
             \/ (completed_at t = None /\ status (upd t) = DONE))).
Proof.
  intros Hu. destruct op as [dto teamId userId oid now
                            |id dto teamId userId now
                            |id teamId userId now
                            |id teamId userId now
                            |id p teamId userId now]; simpl.
  - rewrite create_eq. cbv zeta.
    destruct (negb (validate _)); auto.
    destruct (existsb _ (docs s)) eqn:E; simpl; auto.
    right; left. eexists. split; [reflexivity|]. split; trivial.
  - destruct (findOne_result id teamId s) as [[t Hf]|[msg Hf]].
    + right; right. exists (toHexString id), (update_doc dto t userId now), t.
      rewrite (update_found _ _ _ _ _ _ _ Hu Hf). simpl snd.
      split; [eapply findOne_lookup; eauto|]. split; trivial.
      split; [intros; apply update_doc_id|].
      rewrite update_doc_completed_at, update_doc_status.
      destruct (completes dto t) eqn:E; auto.
      apply completes_done in E. destruct E as [-> ->]. auto.
    + left. unfold update, bind. now rewrite Hf.
  - destruct (findOne_result id teamId s) as [[t Hf]|[msg Hf]].
    + right; right. exists (toHexString id), (remove_doc userId now), t.
      rewrite (remove_found _ _ _ _ _ _ Hf). simpl snd.
      split; [eapply findOne_lookup; eauto|]. auto.
    + left. unfold remove, bind. now rewrite Hf.
  - rewrite restore_eq. destruct (negb (isValid id)); auto.
    destruct (List.find _ _) as [t|] eqn:E; auto.
    right; right. exists (toHexString id), (restore_doc t userId now), t. simpl.
    split; auto.
    apply find_lookup with (f := restore_filter id teamId); trivial.
    apply find_some in E. destruct E as [_ E].
    now apply restore_filter_true in E.
  - destruct (findOne_result id teamId s) as [[t Hf]|[msg Hf]].
    + right; right. exists (toHexString id), (position_doc p now), t.
      rewrite (updatePosition_found _ _ _ _ _ _ _ Hu Hf). simpl snd.
      split; [eapply findOne_lookup; eauto|]. auto.
    + left. unfold updatePosition, bind. now rewrite Hf.
Qed.

Lemma exec_unique (op : Op) (s : Store Task) :
  unique_ids (docs s) -> unique_ids (docs (exec op s)).
Proof.
  intros Hu.
  destruct (exec_shape op s Hu)
    as [->|[(d & -> & Hfresh & _)|(id & upd & t & _ & -> & Hid & _)]];
    trivial.
  - unfold unique_ids in *. rewrite map_app. simpl.
    apply NoDup_app; trivial; [repeat constructor; intros [] | ].
    intros x Hx [<-|[]]. apply in_map_iff in Hx.
    destruct Hx as (y & Hy & Hin).
    assert (existsb (fun x => String.eqb (_id x) (_id d)) (docs s) = true).
    { apply existsb_exists. exists y. split; trivial.
      now apply String.eqb_eq. }
    congruence.
  - now apply updated_unique.
Qed.







Lemma run_app (ops ops' : list Op) (s : Store Task) :
  run (ops ++ ops') s = run ops' (run ops s).
Proof. unfold run. now rewrite fold_left_app. Qed.

Lemma exec_run_unique (ops : list Op) (s : Store Task) :
  unique_ids (docs s) -> unique_ids (docs (run ops s)).
Proof.
  revert s. induction ops as [|op ops IH]; intros s Hu; trivial.
  apply IH. now apply exec_unique.
Qed.







End Completion.



(** ** C10 and C5: what [findAll] lists *)

Section Listing.
Context {OL : ObjectIdLib} {TI : TextIndex}.

Lemma findAll_Ok_In teamId query coll r (t : Task) :
  findAll teamId query coll (Ok r) ->
  (In t r <-> In t coll /\ findAll_filter teamId query t = true).
Proof.
  unfold findAll. destruct (bad_project _); [discriminate|].
  intros (tasks & Hfs & [= ->]). eapply find_sort_In. exact Hfs.
Qed.

Lemma findAll_filter_parts teamId query (t : Task) :
  findAll_filter teamId query t = true ->
  team_id t = teamId
  /\ (truthy_bool (TaskQueryDto.include_deleted query) = false ->
      deleted_at t = None)
  /\ match TaskQueryDto.status query with
     | Some st => status t = st
     | None => truthy_bool (TaskQueryDto.include_completed query) = false ->
               status t <> DONE
     end.
Proof.
  unfold findAll_filter. rewrite !andb_true_iff.
  intros (((((((Ht & Hd) & Hs) & _) & _) & _) & _) & _).
  apply String.eqb_eq in Ht. split; trivial. split.
  - intros E. rewrite E in Hd. simpl in Hd. now destruct (deleted_at t).
  - destruct (TaskQueryDto.status query) as [st|].
    + now apply status_eqb_eq.
    + intros E. rewrite E in Hs. simpl in Hs.
      apply status_eqb_neq. now destruct (status_eqb (status t) DONE).
Qed.

(** C10: with no status filter and [include_completed] unset, [findAll]
    returns no task in status [done] (and, unless [include_deleted] is set,
    no soft-deleted task); a task in status [done] is listed only when
    [include_completed] is true or the status filter asks for [done]. *)
Theorem findAll_default_hides_done teamId query coll r :
  findAll teamId query coll (Ok r) ->
  (TaskQueryDto.status query = None ->
   truthy_bool (TaskQueryDto.include_completed query) = false ->
   forall t, In t r ->
     status t <> DONE /\
     (truthy_bool (TaskQueryDto.include_deleted query) = false ->
      deleted_at t = None))
  /\ (forall t, In t r -> status t = DONE ->
        TaskQueryDto.include_completed query = Some true
        \/ TaskQueryDto.status query = Some DONE).
Proof.
  intros Hr. split.
  - intros Hs Hc t Hin.
    apply (findAll_Ok_In _ _ _ _ t Hr) in Hin. destruct Hin as [_ Hf].
    apply findAll_filter_parts in Hf. destruct Hf as (_ & Hd & Hst).
    rewrite Hs in Hst. auto.
  - intros t Hin Hdone.
    apply (findAll_Ok_In _ _ _ _ t Hr) in Hin. destruct Hin as [_ Hf].
    apply findAll_filter_parts in Hf. destruct Hf as (_ & _ & Hst).
    destruct (TaskQueryDto.status query) as [st|].
    + right. congruence.
    + left. destruct (TaskQueryDto.include_completed query) as [[|]|];
        trivial; exfalso; now apply Hst.
Qed.

Lemma listing_filter (ic idel : option bool) teamId (t : Task) :
  findAll_filter teamId (TaskQueryDto.flags ic idel) t =
  String.eqb (team_id t) teamId
  && (if negb (truthy_bool idel) then is_null (deleted_at t) else true)
  && (if negb (truthy_bool ic) then negb (status_eqb (status t) DONE)
      else true).
Proof.
  unfold findAll_filter, TaskQueryDto.flags. simpl.
  now rewrite !andb_true_r.
Qed.

Lemma listing_exists (ic idel : option bool) teamId coll :
  exists r, findAll teamId (TaskQueryDto.flags ic idel) coll (Ok r).
Proof.
  pose proof (findAll_run_ok teamId (TaskQueryDto.flags ic idel) coll) as H.
  unfold findAll_run in H. simpl in H. eauto.
Qed.

Lemma shown_if_not_done (ic : option bool) (t : Task) :
  status t <> DONE \/ ic = Some true ->
  (if negb (truthy_bool ic) then negb (status_eqb (status t) DONE) else true)
  = true.
Proof.
  intros [H| ->]; [|reflexivity].
  apply status_eqb_neq in H. rewrite H. now destruct (negb _).
Qed.

(** C5 (as the code has it): for an active task that is not in status
    [done], or when the query also sets [include_completed]: after
    [remove] the default listing excludes the task, the listing with
    [include_deleted] includes it, and after [restore] the default listing
    includes it again. *)
Theorem soft_delete_listing id teamId userId now now'
    (s : Store Task) (t : Task) (ic : option bool) :
  unique_ids (docs s) ->
  findOne id teamId s = (Ok t, s) ->
  status t <> DONE \/ ic = Some true ->
  let s1 := snd (remove id teamId userId now s) in
  let s2 := snd (restore id teamId userId now' s1) in
  (exists r, findAll teamId (TaskQueryDto.flags ic None) (docs s1) (Ok r))
  /\ (forall r, findAll teamId (TaskQueryDto.flags ic None) (docs s1) (Ok r) ->
                forall x, In x r -> _id x <> toHexString id)
  /\ (exists r,
         findAll teamId (TaskQueryDto.flags ic (Some true)) (docs s1) (Ok r))
  /\ (forall r,
         findAll teamId (TaskQueryDto.flags ic (Some true)) (docs s1) (Ok r) ->
         exists x, In x r /\ _id x = toHexString id)
  /\ (exists t', fst (restore id teamId userId now' s1) = Ok t')
  /\ (exists r, findAll teamId (TaskQueryDto.flags ic None) (docs s2) (Ok r))
  /\ (forall r, findAll teamId (TaskQueryDto.flags ic None) (docs s2) (Ok r) ->
                exists x, In x r /\ _id x = toHexString id).
Proof.
  intros Hu Hf Hshow s1 s2.
  pose proof (findOne_lookup _ _ _ _ _ Hu Hf) as Hl.
  pose proof (findOne_found _ _ _ _ _ Hf) as (_ & Hv & _ & Hid & Ht & Hd).
  assert (E1 : s1 = updated _id (toHexString id) (remove_doc userId now) s)
    by (unfold s1; now rewrite (remove_found _ _ _ _ _ _ Hf)).
  assert (Hu1 : unique_ids (docs s1))
    by (rewrite E1; now apply updated_unique).
  assert (Hl1 : lookup _id (toHexString id) (docs s1) = Some (remove_doc userId now t)).
  { rewrite E1, lookup_updated by reflexivity.
    now rewrite String.eqb_refl, Hl. }
  assert (E2 : s2 = updated _id (toHexString id)
                      (restore_doc (remove_doc userId now t) userId now') s1).
  { unfold s2. rewrite (restore_of_lookup id teamId userId now' s1
                          (remove_doc userId now t)); trivial.
    discriminate. }
  assert (Hl2 : lookup _id (toHexString id) (docs s2) =
                Some (restore_doc (remove_doc userId now t) userId now'
                        (remove_doc userId now t))).
  { rewrite E2, lookup_updated by reflexivity.
    now rewrite String.eqb_refl, Hl1. }
  split; [apply listing_exists|]. split.
  { intros r Hr x Hx Hxid.
    apply (findAll_Ok_In _ _ _ _ x Hr) in Hx. destruct Hx as [Hin Hfx].
    pose proof (lookup_unique _id _ _ Hu1 Hin) as Hx.
    rewrite Hxid, Hl1 in Hx. injection Hx as <-.
    rewrite listing_filter in Hfx. simpl in Hfx.
    rewrite andb_false_r in Hfx. discriminate. }
  split; [apply listing_exists|]. split.
  { intros r Hr. exists (remove_doc userId now t). split; [|exact Hid].
    apply (findAll_Ok_In _ _ _ _ _ Hr). split.
    - now apply lookup_In in Hl1.
    - rewrite listing_filter. cbn -[String.eqb status_eqb].
      rewrite Ht, String.eqb_refl. simpl.
      now apply shown_if_not_done. }
  split.
  { eexists. unfold s2.
    rewrite (restore_of_lookup id teamId userId now' s1
               (remove_doc userId now t)); trivial;
      [reflexivity|discriminate]. }
  split; [apply listing_exists|].
  intros r Hr.
  exists (restore_doc (remove_doc userId now t) userId now'
            (remove_doc userId now t)).
  split; [|exact Hid].
  apply (findAll_Ok_In _ _ _ _ _ Hr). split.
  - apply lookup_In in Hl2. destruct Hl2 as [Hin _]. exact Hin.
  - rewrite listing_filter. cbn -[String.eqb status_eqb].
    rewrite Ht, String.eqb_refl. simpl.
    now apply shown_if_not_done.
Qed.

End Listing.

Lemma mixed_store_listing :
  @findAll_run Samples.hex_ids Samples.title_index Samples.teamA
    TaskQueryDto.empty (docs Samples.mixed_store)
  = Ok (List.filter (fun t => negb (status_eqb (status t) DONE))
          (docs Samples.mixed_store)).
Proof. vm_compute. reflexivity. Qed.

Lemma findAll_default_hides_done_witness :
  Forall (fun t => status t <> DONE)
    (List.filter (fun t => negb (status_eqb (status t) DONE))
       (docs Samples.mixed_store)).
Proof.
  assert (H : @findAll Samples.hex_ids Samples.title_index Samples.teamA
                TaskQueryDto.empty (docs Samples.mixed_store)
                (Ok (List.filter
                       (fun t => negb (status_eqb (status t) DONE))
                       (docs Samples.mixed_store)))).
  { rewrite <- mixed_store_listing. apply findAll_run_ok. }
  destruct (@findAll_default_hides_done Samples.hex_ids Samples.title_index
              Samples.teamA TaskQueryDto.empty (docs Samples.mixed_store)
              _ H) as [Hdef _].
  apply Forall_forall. intros t Hin.
  apply (Hdef eq_refl eq_refl t Hin).
Defined.

(** C5 as stated fails for a task in status [done]: once removed it is
    absent from the listing that sets [include_deleted], and once restored
    it is still absent from the default listing. *)
Lemma done_task_never_listed :
  (exists t,
      @findOne Samples.hex_ids Samples.id1 Samples.teamA Samples.done_store
      = (Ok t, Samples.done_store))
  /\ (exists t,
         lookup _id Samples.id1 (docs Samples.done_removed) = Some t
         /\ deleted_at t = Some 2000)
  /\ (forall r,
         @findAll Samples.hex_ids Samples.title_index Samples.teamA
           (TaskQueryDto.flags None (Some true))
           (docs Samples.done_removed) (Ok r) -> r = [])
  /\ (exists t,
         lookup _id Samples.id1 (docs Samples.done_restored) = Some t
         /\ deleted_at t = None)
  /\ (forall r,
         @findAll Samples.hex_ids Samples.title_index Samples.teamA
           (TaskQueryDto.flags None None)
           (docs Samples.done_restored) (Ok r) -> r = []).
Proof.
  split; [|split; [|split; [|split]]].
  - eexists. vm_compute. reflexivity.
  - eexists. split; vm_compute; reflexivity.
  - intros r (tasks & [Hp _] & [= ->]).
    vm_compute in Hp. now apply Permutation_nil in Hp.
  - eexists. split; vm_compute; reflexivity.
  - intros r (tasks & [Hp _] & [= ->]).
    vm_compute in Hp. now apply Permutation_nil in Hp.
Qed.

Lemma soft_delete_listing_witness :
  exists r x,
    @findAll Samples.hex_ids Samples.title_index Samples.teamA
      (TaskQueryDto.flags None (Some true))
      (docs (snd (@remove Samples.hex_ids Samples.id1 Samples.teamA
                    Samples.alice 2000 Samples.one_store))) (Ok r)
    /\ In x r /\ _id x = Samples.id1.
Proof.
  destruct one_store_task as (t & Hf & Hs & _).
  destruct (@soft_delete_listing Samples.hex_ids Samples.title_index
              Samples.id1 Samples.teamA Samples.alice 2000 3000
              Samples.one_store t None one_store_unique Hf)
    as (_ & _ & [r Hr] & H & _).
  - left. rewrite Hs. discriminate.
  - destruct (H r Hr) as (x & Hx & Hid). exists r, x. auto.
Defined.

(** ** C7: the Kanban board *)

Section BoardOrder.
Context {OL : ObjectIdLib} {TI : TextIndex}.

Lemma column_board_of (st : TaskStatus) (tasks : list Task) :
  column st (board_of tasks) = List.filter (in_column st) tasks.
Proof. now destruct st. Qed.

Lemma three_sorted (a b c : Task) :
  position a == 1 -> position b == 2 -> position c == 3 ->
  sorted_by position_leb [a; b; c] /\
  (forall x y, In x [a; b; c] -> In y [a; b; c] ->
               position_leb x y = true -> position_leb y x = true -> x = y).
Proof.
  intros Ha Hb Hc. unfold sorted_by, position_leb. split.
  - repeat constructor; apply Qle_bool_iff; rewrite ?Ha, ?Hb, ?Hc;
      discriminate.
  - intros x y Hx Hy. rewrite !Qle_bool_iff.
    simpl in Hx, Hy.
    destruct Hx as [<-|[<-|[<-|[]]]], Hy as [<-|[<-|[<-|[]]]];
      trivial; rewrite ?Ha, ?Hb, ?Hc; intros H1 H2; exfalso;
      (now apply H1) || (now apply H2).
Qed.

Lemma filter_filter_and {D} (f g : D -> bool) (l : list D) :
  List.filter f (List.filter g l) = List.filter (fun x => g x && f x) l.
Proof.
  induction l as [|x r IH]; simpl; trivial.
  destruct (g x); simpl; [|exact IH]. destruct (f x); now rewrite IH.
Qed.

(** The tasks of a column of the team board: the team's active tasks of
    that status. *)
Lemma team_column_filter teamId projectId (st : TaskStatus)
    (coll : list Task) :
  truthy_str projectId = false ->
  List.filter (in_column st) (List.filter (kanban_filter teamId projectId) coll)
  = List.filter
      (fun t => String.eqb (team_id t) teamId && is_null (deleted_at t)
                && status_eqb (status t) st) coll.
Proof.
  intros Hp. rewrite filter_filter_and. apply filter_ext. intros t.
  unfold kanban_filter, project_matches, in_column. rewrite Hp.
  now rewrite andb_true_r.
Qed.

Lemma team_board_exists (projectId : option string) :
  truthy_str projectId = false -> bad_project projectId = false.
Proof. unfold bad_project. now intros ->. Qed.

(** C7 (as the code has it): the board of a team always exists; each of its
    four columns holds exactly the team's active tasks of that status in
    ascending order of position; the sort key is the position alone, so
    tasks with pairwise different positions have one possible order: three
    todo tasks stored with positions 3, 1, 2 in any insertion order come
    back as 1, 2, 3. *)
Theorem board_by_position teamId projectId (coll : list Task) :
  truthy_str projectId = false ->
  (exists b, getKanbanBoard teamId projectId coll (Ok b))
  /\ (forall r, getKanbanBoard teamId projectId coll r ->
        exists b, r = Ok b /\
          forall st,
            Permutation
              (List.filter
                 (fun t => String.eqb (team_id t) teamId
                           && is_null (deleted_at t)
                           && status_eqb (status t) st) coll)
              (column st b)
            /\ sorted_by position_leb (column st b))
  /\ (forall (a b c : Task) brd,
        Permutation
          (List.filter
             (fun t => String.eqb (team_id t) teamId
                       && is_null (deleted_at t)
                       && status_eqb (status t) TODO) coll)
          [c; a; b] ->
        position a == 1 -> position b == 2 -> position c == 3 ->
        getKanbanBoard teamId projectId coll (Ok brd) ->
        todo brd = [a; b; c]).
Proof.
  intros Hteam.
  pose proof (team_board_exists projectId Hteam) as Hbad.
  assert (Hcols : forall r, getKanbanBoard teamId projectId coll r ->
            exists b, r = Ok b /\
              forall st,
                Permutation
                  (List.filter
                     (fun t => String.eqb (team_id t) teamId
                               && is_null (deleted_at t)
                               && status_eqb (status t) st) coll)
                  (column st b)
                /\ sorted_by position_leb (column st b)).
  { intros r Hr. unfold getKanbanBoard in Hr. rewrite Hbad in Hr.
    destruct Hr as (tasks & [Hp Hs] & ->).
    exists (board_of tasks). split; trivial. intros st.
    rewrite column_board_of, <- (team_column_filter _ projectId) by exact Hteam.
    split.
    - now apply filter_perm.
    - now apply filter_sorted. }
  split; [|split; [exact Hcols|]].
  - pose proof (getKanbanBoard_run_ok teamId projectId coll) as H.
    unfold getKanbanBoard_run in H. rewrite Hbad in H. eauto.
  - intros a b c brd Hp Ha Hb Hc Hr.
    destruct (Hcols _ Hr) as (b0 & [= <-] & Hcol).
    destruct (Hcol TODO) as [Hperm Hsorted]. simpl in Hperm, Hsorted.
    destruct (three_sorted a b c Ha Hb Hc) as [Hs3 Hanti].
    symmetry. apply (sorted_perm_unique position_leb); trivial.
    eapply perm_trans; [|exact Hperm].
    eapply perm_trans; [|apply Permutation_sym; exact Hp].
    eapply perm_trans; [apply perm_skip, perm_swap|]. apply perm_swap.
Qed.

End BoardOrder.

(** C7 as stated fails on the tie-break: for two todo tasks with the same
    position both orders are answers of the sort on position alone. *)
Lemma tie_order_unspecified :
  exists b1 b2,
    @getKanbanBoard Samples.hex_ids Samples.teamA None
      (docs Samples.tie_store) (Ok b1) /\
    @getKanbanBoard Samples.hex_ids Samples.teamA None
      (docs Samples.tie_store) (Ok b2) /\
    todo b1 = [Samples.tie_a; Samples.tie_b] /\
    todo b2 = [Samples.tie_b; Samples.tie_a] /\
    todo b1 <> todo b2.
Proof.
  exists (board_of [Samples.tie_a; Samples.tie_b]),
         (board_of [Samples.tie_b; Samples.tie_a]).
  split; [|split; [|split; [|split]]].
  - exists [Samples.tie_a; Samples.tie_b]. split; [|reflexivity]. split.
    + apply Permutation_refl.
    + repeat constructor.
  - exists [Samples.tie_b; Samples.tie_a]. split; [|reflexivity]. split.
    + apply perm_swap.
    + repeat constructor.
  - reflexivity.
  - reflexivity.
  - vm_compute. discriminate.
Qed.

Lemma tie_store_reachable :
  @run Samples.hex_ids
    [OpCreate (Samples.dto_titled "A" None) Samples.teamA Samples.alice
       Samples.id1 1000;
     OpCreate (Samples.dto_titled "B" None) Samples.teamA Samples.alice
       Samples.id2 1000] empty_store = Samples.tie_store.
Proof. vm_compute. reflexivity. Qed.

Lemma store312_reachable :
  @run Samples.hex_ids Samples.store312_ops empty_store = Samples.store312.
Proof. vm_compute. reflexivity. Qed.

Lemma board_by_position_witness :
  exists brd,
    @getKanbanBoard Samples.hex_ids Samples.teamA None
      (docs Samples.store312) (Ok brd)
    /\ todo brd = [Samples.pos1; Samples.pos2; Samples.pos3].
Proof.
  destruct (@board_by_position Samples.hex_ids Samples.teamA None
              (docs Samples.store312) eq_refl) as ([brd Hb] & _ & H).
  exists brd. split; [exact Hb|].
  apply (H Samples.pos1 Samples.pos2 Samples.pos3 brd).
  - apply Permutation_refl.
  - reflexivity.
  - reflexivity.
  - reflexivity.
  - exact Hb.
Defined.

(** ** C8: unknown, foreign and soft-deleted ids *)

Section NotFound.
Context {OL : ObjectIdLib} {TI : TextIndex}.

(** C8: when no active task of the team is stored under the ObjectId the
    id denotes (the id is unknown, belongs to another team, or is
    soft-deleted), [findOne] and [updatePosition] throw [NotFound] and leave
    the store as it was; in particular a task created under one team is
    [NotFound] for every other team, under every spelling of its id. *)
Theorem missing_task_is_NotFound :
  (forall id teamId (s : Store Task),
      (forall t, In t (docs s) -> _id t = toHexString id ->
                 team_id t <> teamId \/ deleted_at t <> None) ->
      (exists msg, findOne id teamId s = (Throw (NotFoundException msg), s))
      /\ (forall p userId now, exists msg,
             updatePosition id p teamId userId now s
             = (Throw (NotFoundException msg), s)))
  /\ (forall dto teamA teamB userId oid now (s s' : Store Task) (t : Task),
         create dto teamB userId oid now s = (Ok t, s') ->
         teamA <> teamB ->
         forall id, toHexString id = _id t ->
           exists msg,
             findOne id teamA s' = (Throw (NotFoundException msg), s')).
Proof.
  split.
  - intros id teamId s H.
    destruct (findOne_missing id teamId s H) as [msg Hf].
    split; [eauto|]. intros p userId now. exists msg.
    unfold updatePosition, bind. now rewrite Hf.
  - intros dto teamA teamB userId oid now s s' t Hc Hne id Hid0.
    rewrite create_eq in Hc. cbv zeta in Hc.
    destruct (negb (validate _)); [discriminate|].
    destruct (existsb _ (docs s)) eqn:E; [discriminate|].
    injection Hc as <- <-. apply findOne_missing.
    simpl. intros x Hin Hid. rewrite Hid0 in Hid. simpl in Hid.
    apply in_app_or in Hin.
    destruct Hin as [Hin|[<-|[]]].
    + exfalso.
      assert (existsb (fun y => String.eqb (_id y) oid) (docs s) = true).
      { apply existsb_exists. exists x. split; trivial.
        now apply String.eqb_eq. }
      congruence.
    + left. simpl. congruence.
Qed.

End NotFound.

Lemma missing_task_is_NotFound_witness :
  exists msg,
    @findOne Samples.hex_ids Samples.id1 Samples.teamB Samples.one_store
    = (Throw (NotFoundException msg), Samples.one_store).
Proof.
  destruct (@missing_task_is_NotFound Samples.hex_ids) as [H _].
  destruct (H Samples.id1 Samples.teamB Samples.one_store) as [Hf _].
  - intros t Hin Hid. left. vm_compute in Hin.
    destruct Hin as [<-|[]]. vm_compute. discriminate.
  - exact Hf.
Defined.

(** ** C9: a rejected call writes nothing (tasks) *)

Section TaskRejections.
Context {OL : ObjectIdLib} {TI : TextIndex}.

Lemma task_findOne_rejected id teamId (s : Store Task) :
  snd (findOne id teamId s) = s.
Proof. now rewrite findOne_eq. Qed.

Lemma task_update_rejected id dto teamId userId now (s : Store Task) :
  rejected (fst (update id dto teamId userId now s)) = true ->
  snd (update id dto teamId userId now s) = s.
Proof.
  unfold update, bind.
  destruct (findOne_result id teamId s) as [[t Hf]|[msg Hf]]; rewrite Hf;
    trivial.
  rewrite findByIdAndUpdate_eq.
  destruct (found_by_id _ _ _ _ _ Hf) as [d ->]. discriminate.
Qed.

Lemma task_remove_rejected id teamId userId now (s : Store Task) :
  rejected (fst (remove id teamId userId now s)) = true ->
  snd (remove id teamId userId now s) = s.
Proof.
  unfold remove, bind.
  destruct (findOne_result id teamId s) as [[t Hf]|[msg Hf]]; rewrite Hf;
    trivial.
  rewrite findByIdAndUpdate_eq. discriminate.
Qed.

Lemma task_restore_rejected id teamId userId now (s : Store Task) :
  rejected (fst (restore id teamId userId now s)) = true ->
  snd (restore id teamId userId now s) = s.
Proof.
  rewrite restore_eq. destruct (negb (isValid id)); trivial.
  destruct (List.find _ _); trivial.
  destruct (lookup _ _ _); discriminate.
Qed.

Lemma task_updatePosition_rejected id p teamId userId now (s : Store Task) :
  rejected (fst (updatePosition id p teamId userId now s)) = true ->
  snd (updatePosition id p teamId userId now s) = s.
Proof.
  unfold updatePosition, bind.
  destruct (findOne_result id teamId s) as [[t Hf]|[msg Hf]]; rewrite Hf;
    trivial.
  rewrite findByIdAndUpdate_eq.
  destruct (lookup _ _ _); discriminate.
Qed.

End TaskRejections.

(** ** Projects *)

Section UniqueStoreFacts.
Context {D : Type}.
Variable doc_id : D -> string.

Lemma find_by_unique_id (f : D -> bool) (l : list D) (d : D) :
  NoDup (map doc_id l) -> In d l -> f d = true ->
  (forall x, f x = true -> doc_id x = doc_id d) ->
  List.find f l = Some d.
Proof.
  intros Hu Hin Hf Hid. destruct (List.find f l) as [x|] eqn:E.
  - apply find_some in E. destruct E as [Hx Hfx].
    pose proof (lookup_unique doc_id _ _ Hu Hx) as H1.
    pose proof (lookup_unique doc_id _ _ Hu Hin) as H2.
    rewrite (Hid _ Hfx) in H1. congruence.
  - eapply find_none in E; [|exact Hin]. congruence.
Qed.

Lemma find_has_id (f : D -> bool) (id : string) (l : list D) (d : D) :
  List.find f l = Some d -> doc_id d = id ->
  exists d', lookup doc_id id l = Some d'.
Proof.
  intros Hf Hid. apply find_some in Hf. destruct Hf as [Hin _].
  unfold lookup. destruct (List.find _ l) eqn:E; eauto.
  eapply find_none in E; [|exact Hin]. simpl in E.
  rewrite Hid, String.eqb_refl in E. discriminate.
Qed.

Lemma updated_In (id : string) (upd : D -> D) (s : Store D) (x : D) :
  NoDup (map doc_id (docs s)) ->
  In x (docs (updated doc_id id upd s)) ->
  (In x (docs s) /\ doc_id x <> id)
  \/ (exists d, lookup doc_id id (docs s) = Some d /\ x = upd d).
Proof.
  unfold updated, lookup. simpl.
  induction (docs s) as [|y r IH]; simpl; [tauto|].
  intros Hu. inversion Hu as [|? ? Hy Hr]; subst.
  destruct (String.eqb (doc_id y) id) eqn:E; simpl.
  - apply String.eqb_eq in E. intros [<-|H]; eauto.
    left. split; auto. intros Hx. apply Hy. rewrite E, <- Hx.
    now apply in_map.
  - destruct (update_first doc_id id upd r) as [o r']; simpl in *.
    intros [<-|H].
    + left. split; auto. intros Hx. rewrite Hx, String.eqb_refl in E.
      discriminate.
    + destruct (IH Hr H) as [[Hin Hne]|Hex]; auto.
Qed.

Lemma lookup_in_updated (id id' : string) (upd : D -> D) (s : Store D) :
  (forall d, doc_id (upd d) = doc_id d) ->
  lookup doc_id id' (docs (updated doc_id id upd s)) =
  if String.eqb id' id then option_map upd (lookup doc_id id (docs s))
  else lookup doc_id id' (docs s).
Proof. intros H. unfold updated. simpl. now apply lookup_update_first. Qed.

End UniqueStoreFacts.

(** *** Trimming *)

Lemma trim_start_fix (s : string) :
  starts_white s = false -> trim_start s = s.
Proof.
  destruct s as [|a r]; trivial. simpl.
  destruct (is_space a); [discriminate|]. simpl.
  destruct r as [|b r2]; trivial.
  destruct (is_space2 a b); [discriminate|]. simpl.
  destruct r2 as [|c r3]; trivial.
  now destruct (is_space3 a b c).
Qed.

Lemma trim_start_clean_n (n : nat) (s : string) :
  (String.length s <= n)%nat -> starts_white (trim_start s) = false.
Proof.
  revert s. induction n as [|n IH]; intros s Hn.
  - destruct s; [reflexivity|simpl in Hn; lia].
  - destruct s as [|a r]; [reflexivity|]. simpl in Hn.
    cbn [trim_start].
    destruct (is_space a) eqn:Ea; [apply IH; lia|].
    destruct r as [|b r2]; [simpl; now rewrite Ea|].
    simpl in Hn.
    destruct (is_space2 a b) eqn:Eb; [apply IH; lia|].
    destruct r2 as [|c r3]; [simpl; now rewrite Ea, Eb|].
    simpl in Hn.
    destruct (is_space3 a b c) eqn:Ec; [apply IH; lia|].
    simpl. now rewrite Ea, Eb, Ec.
Qed.

Lemma trim_start_clean (s : string) : starts_white (trim_start s) = false.
Proof. now apply (trim_start_clean_n (String.length s)). Qed.

Lemma trim_end_idem (s : string) : trim_end (trim_end s) = trim_end s.
Proof.
  induction s as [|a r IH]; trivial.
  cbn [trim_end]. cbv zeta.
  destruct (is_white (String a (trim_end r))) eqn:E; trivial.
  cbn [trim_end]. cbv zeta. now rewrite IH, E.
Qed.

Lemma trim_end_head (s : string) :
  trim_end s = EmptyString
  \/ exists a r, s = String a r /\ trim_end s = String a (trim_end r).
Proof.
  destruct s as [|a r]; auto. cbn [trim_end]. cbv zeta.
  destruct (is_white _); eauto.
Qed.

Lemma trim_end_clean (s : string) :
  starts_white s = false -> starts_white (trim_end s) = false.
Proof.
  intros H.
  destruct (trim_end_head s) as [->|(a & r & -> & ->)]; trivial.
  simpl in H. apply orb_false_iff in H. destruct H as [Ha H].
  simpl. rewrite Ha. simpl.
  destruct (trim_end_head r) as [->|(b & r2 & -> & ->)]; trivial.
  apply orb_false_iff in H. destruct H as [Hb H]. rewrite Hb. simpl.
  destruct (trim_end_head r2) as [->|(c & r3 & -> & ->)]; trivial.
Qed.

(** [trim] is idempotent: what a setter stored is left alone by the next
    one. *)
Lemma trim_idem (s : string) : trim (trim s) = trim s.
Proof.
  unfold trim.
  rewrite (trim_start_fix (trim_end (trim_start s))).
  - apply trim_end_idem.
  - apply trim_end_clean, trim_start_clean.
Qed.

(** *** Writes under a unique index *)

Section UniqueIndexFacts.
Context {D : Type}.
Variable doc_id : D -> string.
Variable same_key : D -> D -> bool.

Lemma findByIdAndUpdate_plain_eq (id : string) (upd : D -> D) (s : Store D) :
  model_findByIdAndUpdate doc_id id upd s =
  (Ok (option_map upd (lookup doc_id id (docs s))), updated doc_id id upd s).
Proof.
  unfold model_findByIdAndUpdate, updated.
  rewrite <- update_first_fst. now destruct (update_first _ _ _ _).
Qed.

Lemma findByIdAndUpdate_unique_eq (id : string) (upd : D -> D)
    (s : Store D) :
  model_findByIdAndUpdate_unique doc_id same_key id upd s =
  match lookup doc_id id (docs s) with
  | Some d =>
      if negb (same_key d (upd d))
         && duplicate_key doc_id same_key (upd d) (docs s)
      then (Throw MongoServerError, mkStore (docs s) (S (writes s)))
      else (Ok (Some (upd d)), updated doc_id id upd s)
  | None => (Ok None, updated doc_id id upd s)
  end.
Proof.
  unfold model_findByIdAndUpdate_unique.
  destruct (lookup doc_id id (docs s)) as [d|] eqn:E.
  - destruct (_ && _); trivial.
    now rewrite findByIdAndUpdate_plain_eq, E.
  - now rewrite findByIdAndUpdate_plain_eq, E.
Qed.

(** An update that keeps the key goes through. *)
Lemma findByIdAndUpdate_same_key (id : string) (upd : D -> D) (s : Store D) :
  (forall d, same_key d (upd d) = true) ->
  model_findByIdAndUpdate_unique doc_id same_key id upd s =
  (Ok (option_map upd (lookup doc_id id (docs s))), updated doc_id id upd s).
Proof.
  intros H. rewrite findByIdAndUpdate_unique_eq.
  destruct (lookup doc_id id (docs s)) as [d|]; trivial.
  now rewrite H.
Qed.

Lemma duplicate_key_false (d : D) (l : list D) :
  duplicate_key doc_id same_key d l = false ->
  forall x, In x l -> doc_id x <> doc_id d -> same_key x d = false.
Proof.
  unfold duplicate_key. intros H x Hin Hne.
  destruct (same_key x d) eqn:E; trivial.
  assert (Hex : existsb
                  (fun x => negb (String.eqb (doc_id x) (doc_id d))
                            && same_key x d) l = true).
  { apply existsb_exists. exists x. split; trivial. rewrite E.
    destruct (String.eqb (doc_id x) (doc_id d)) eqn:Ex; trivial.
    apply String.eqb_eq in Ex. contradiction. }
  congruence.
Qed.

Lemma duplicate_key_true (d x : D) (l : list D) :
  In x l -> doc_id x <> doc_id d -> same_key x d = true ->
  duplicate_key doc_id same_key d l = true.
Proof.
  intros Hin Hne Hk. unfold duplicate_key. apply existsb_exists.
  exists x. split; trivial. rewrite Hk.
  destruct (String.eqb (doc_id x) (doc_id d)) eqn:E; trivial.
  apply String.eqb_eq in E. contradiction.
Qed.

End UniqueIndexFacts.

Section ProjectFacts.
Context {OL : ObjectIdLib}.

Lemma project_findOne_eq id teamId (s : Store Projects.Project) :
  Projects.findOne id teamId s =
  (if negb (isValid id)
   then Throw (NotFoundException "Invalid project ID format")
   else match List.find (Projects.findOne_filter id teamId) (docs s) with
        | Some p => Ok p
        | None => Throw (NotFoundException
                    "Project not found or you do not have access to it")
        end, s).
Proof.
  unfold Projects.findOne. destruct (negb (isValid id)); trivial.
  unfold bind, model_findOne. now destruct (List.find _ _).
Qed.

Lemma project_findOne_result id teamId (s : Store Projects.Project) :
  (exists p, Projects.findOne id teamId s = (Ok p, s)
             /\ List.find (Projects.findOne_filter id teamId) (docs s)
                = Some p
             /\ isValid id = true)
  \/ (exists msg,
         Projects.findOne id teamId s = (Throw (NotFoundException msg), s)).
Proof.
  rewrite project_findOne_eq. destruct (isValid id); simpl; eauto.
  destruct (List.find _ _); eauto.
Qed.

Lemma project_findOne_filter_true id teamId (p : Projects.Project) :
  Projects.findOne_filter id teamId p = true <->
  Projects._id p = toHexString id /\ Projects.team_id p = teamId
  /\ Projects.deleted_at p = None.
Proof.
  unfold Projects.findOne_filter. rewrite !andb_true_iff, !String.eqb_eq.
  destruct (Projects.deleted_at p); simpl; intuition congruence.
Qed.

Lemma project_restore_filter_true id teamId (p : Projects.Project) :
  Projects.restore_filter id teamId p = true <->
  Projects._id p = toHexString id /\ Projects.team_id p = teamId
  /\ Projects.deleted_at p <> None.
Proof.
  unfold Projects.restore_filter. rewrite !andb_true_iff, !String.eqb_eq.
  destruct (Projects.deleted_at p); simpl; intuition congruence.
Qed.

Lemma active_name_filter_true nm teamId (p : Projects.Project) :
  Projects.active_name_filter nm teamId p = true <->
  Projects.name p = trim nm /\ Projects.team_id p = teamId
  /\ Projects.deleted_at p = None.
Proof.
  unfold Projects.active_name_filter.
  rewrite !andb_true_iff, !String.eqb_eq.
  destruct (Projects.deleted_at p); simpl; intuition congruence.
Qed.

Lemma rename_conflict_filter_true nm teamId id (p : Projects.Project) :
  Projects.rename_conflict_filter nm teamId id p = true <->
  Projects.name p = trim nm /\ Projects.team_id p = teamId
  /\ Projects._id p <> toHexString id /\ Projects.deleted_at p = None.
Proof.
  unfold Projects.rename_conflict_filter.
  rewrite !andb_true_iff, negb_true_iff, !String.eqb_eq.
  rewrite String.eqb_neq.
  destruct (Projects.deleted_at p); simpl; intuition congruence.
Qed.

Lemma same_key_true (a b : Projects.Project) :
  Projects.same_key a b = true <->
  Projects.team_id a = Projects.team_id b
  /\ Projects.name a = Projects.name b.
Proof.
  unfold Projects.same_key. now rewrite andb_true_iff, !String.eqb_eq.
Qed.

Lemma same_key_remove_doc now (d : Projects.Project) :
  Projects.same_key d (Projects.remove_doc now d) = true.
Proof. apply same_key_true. now split. Qed.

Lemma same_key_restore_doc now (d : Projects.Project) :
  Projects.same_key d (Projects.restore_doc now d) = true.
Proof. apply same_key_true. now split. Qed.

Lemma project_update_doc_id dto now (p : Projects.Project) :
  Projects._id (Projects.update_doc dto now p) = Projects._id p.
Proof.
  unfold Projects.update_doc.
  now destruct (Projects.UpdateProjectDto.name dto),
    (Projects.UpdateProjectDto.description dto),
    (Projects.UpdateProjectDto.settings dto).
Qed.

Lemma project_update_doc_keeps dto now (p : Projects.Project) :
  Projects.team_id (Projects.update_doc dto now p) = Projects.team_id p
  /\ Projects.deleted_at (Projects.update_doc dto now p)
     = Projects.deleted_at p
  /\ Projects.created_by (Projects.update_doc dto now p)
     = Projects.created_by p.
Proof.
  unfold Projects.update_doc.
  now destruct (Projects.UpdateProjectDto.name dto),
    (Projects.UpdateProjectDto.description dto),
    (Projects.UpdateProjectDto.settings dto).
Qed.

Lemma project_update_doc_name dto now (p : Projects.Project) :
  Projects.name (Projects.update_doc dto now p) =
  match Projects.UpdateProjectDto.name dto with
  | Some nm => trim nm
  | None => Projects.name p
  end.
Proof.
  unfold Projects.update_doc.
  now destruct (Projects.UpdateProjectDto.name dto),
    (Projects.UpdateProjectDto.description dto),
    (Projects.UpdateProjectDto.settings dto).
Qed.

Lemma project_create_eq dto teamId userId oid now
    (s : Store Projects.Project) :
  Projects.create dto teamId userId oid now s =
  let project := Projects.new_project dto teamId userId oid in
  let d := Projects.timestamps_save now project in
  match List.find
          (Projects.active_name_filter (Projects.CreateProjectDto.name dto)
             teamId) (docs s) with
  | Some _ =>
      (Throw (ConflictException
                "A project with this name already exists in your team"), s)
  | None =>
      if negb (Projects.validate project) then (Throw ValidationError, s)
      else if duplicate_key Projects._id Projects.same_key d (docs s)
              || existsb (fun x => String.eqb (Projects._id x) oid) (docs s)
      then (Throw MongoServerError, mkStore (docs s) (S (writes s)))
      else (Ok d, mkStore (docs s ++ [d]) (S (writes s)))
  end.
Proof.
  unfold Projects.create, bind, model_findOne. cbv zeta.
  destruct (List.find _ _); trivial.
  destruct (negb (Projects.validate _)); trivial.
  unfold model_save_unique, Projects.pre_save.
  destruct (duplicate_key _ _ _ _); trivial.
Qed.

Lemma project_remove_eq id teamId userId now (s : Store Projects.Project) :
  Projects.remove id teamId userId now s =
  match Projects.findOne id teamId s with
  | (Throw e, s') => (Throw e, s')
  | (Ok _, s') =>
      (Ok tt, updated Projects._id (toHexString id)
                (Projects.remove_doc now) s')
  end.
Proof.
  unfold Projects.remove, bind.
  destruct (Projects.findOne id teamId s) as [[p|e] s']; trivial.
  rewrite findByIdAndUpdate_same_key; trivial.
  intros; apply same_key_remove_doc.
Qed.

Lemma project_restore_eq id teamId userId now (s : Store Projects.Project) :
  Projects.restore id teamId userId now s =
  if negb (isValid id)
  then (Throw (NotFoundException "Invalid project ID format"), s)
  else match List.find (Projects.restore_filter id teamId) (docs s) with
       | None => (Throw (NotFoundException "Deleted project not found"), s)
       | Some project =>
           match List.find
                   (Projects.active_name_filter (Projects.name project) teamId)
                   (docs s) with
           | Some _ =>
               (Throw (ConflictException
                  "Cannot restore: A project with this name already exists in your team"),
                s)
           | None =>
               (match lookup Projects._id (toHexString id) (docs s) with
                | Some d => Ok (Projects.restore_doc now d)
                | None => Throw TypeError
                end,
                updated Projects._id (toHexString id)
                  (Projects.restore_doc now) s)
           end
       end.
Proof.
  unfold Projects.restore. destruct (negb (isValid id)); trivial.
  unfold bind, model_findOne. destruct (List.find _ _); trivial.
  destruct (List.find _ _); trivial.
  rewrite findByIdAndUpdate_same_key
    by (intros; apply same_key_restore_doc).
  now destruct (lookup _ _ _).
Qed.

Lemma project_update_eq id dto teamId userId now
    (s : Store Projects.Project) :
  Projects.update id dto teamId userId now s =
  match Projects.findOne id teamId s with
  | (Throw e, s') => (Throw e, s')
  | (Ok project, s') =>
      if truthy_str (Projects.UpdateProjectDto.name dto)
         && negb (opt_str_eqb (Projects.UpdateProjectDto.name dto)
                    (Some (Projects.name project)))
         && negb (is_null
                    (List.find
                       (Projects.rename_conflict_filter
                          (Projects.or_else EmptyString
                             (Projects.UpdateProjectDto.name dto))
                          teamId id) (docs s')))
      then (Throw (ConflictException
                     "A project with this name already exists in your team"),
            s')
      else
        match lookup Projects._id (toHexString id) (docs s') with
        | Some d =>
            if negb (Projects.same_key d (Projects.update_doc dto now d))
               && duplicate_key Projects._id Projects.same_key
                    (Projects.update_doc dto now d) (docs s')
            then (Throw MongoServerError,
                  mkStore (docs s') (S (writes s')))
            else (Ok (Projects.update_doc dto now d),
                  updated Projects._id (toHexString id)
                    (Projects.update_doc dto now) s')
        | None =>
            (Throw (NotFoundException "Project not found"),
             updated Projects._id (toHexString id)
               (Projects.update_doc dto now) s')
        end
  end.
Proof.
  unfold Projects.update, bind.
  destruct (Projects.findOne id teamId s) as [[project|e] s']; trivial.
  destruct (truthy_str _ && _); simpl.
  - unfold model_findOne. destruct (List.find _ _); simpl; trivial.
    rewrite findByIdAndUpdate_unique_eq.
    destruct (lookup _ _ _); trivial. now destruct (_ && _).
  - rewrite findByIdAndUpdate_unique_eq.
    destruct (lookup _ _ _); trivial. now destruct (_ && _).
Qed.

(** *** C9, projects *)

Lemma project_create_rejected dto teamId userId oid now
    (s : Store Projects.Project) :
  rejected (fst (Projects.create dto teamId userId oid now s)) = true ->
  snd (Projects.create dto teamId userId oid now s) = s.
Proof.
  rewrite project_create_eq. cbv zeta.
  destruct (List.find _ _); trivial.
  destruct (negb (Projects.validate _)); trivial.
  destruct (_ || _); discriminate.
Qed.

Lemma project_update_rejected id dto teamId userId now
    (s : Store Projects.Project) :
  rejected (fst (Projects.update id dto teamId userId now s)) = true ->
  snd (Projects.update id dto teamId userId now s) = s.
Proof.
  rewrite project_update_eq.
  destruct (project_findOne_result id teamId s)
    as [(p & Hf & Hfind & _)|[msg Hf]]; rewrite Hf; trivial.
  destruct (_ && _ && _); trivial.
  destruct (find_has_id Projects._id _ (toHexString id) _ _ Hfind)
    as [d ->].
  - apply find_some in Hfind. destruct Hfind as [_ Hp].
    now apply project_findOne_filter_true in Hp.
  - destruct (_ && _); discriminate.
Qed.

Lemma project_remove_rejected id teamId userId now
    (s : Store Projects.Project) :
  rejected (fst (Projects.remove id teamId userId now s)) = true ->
  snd (Projects.remove id teamId userId now s) = s.
Proof.
  rewrite project_remove_eq.
  destruct (project_findOne_result id teamId s)
    as [(p & Hf & _)|[msg Hf]]; rewrite Hf; trivial.
  discriminate.
Qed.

Lemma project_restore_rejected id teamId userId now
    (s : Store Projects.Project) :
  rejected (fst (Projects.restore id teamId userId now s)) = true ->
  snd (Projects.restore id teamId userId now s) = s.
Proof.
  rewrite project_restore_eq. destruct (negb (isValid id)); trivial.
  destruct (List.find _ _); trivial.
  destruct (List.find _ _); trivial.
  destruct (lookup _ _ _); discriminate.
Qed.

End ProjectFacts.

(** ** C9: rejected calls *)

Section Rejections.
Context {OL : ObjectIdLib} {TI : TextIndex}.

(** C9: whenever a call of [TasksService] or [ProjectsService] is rejected
    with [NotFound] or [Conflict], the store it leaves is the store it
    found: same documents, and not one mutating store call issued. *)
Theorem rejected_calls_write_nothing :
  (forall id teamId (s : Store Task),
      rejected (fst (findOne id teamId s)) = true ->
      snd (findOne id teamId s) = s)
  /\ (forall id dto teamId userId now (s : Store Task),
         rejected (fst (update id dto teamId userId now s)) = true ->
         snd (update id dto teamId userId now s) = s)
  /\ (forall id teamId userId now (s : Store Task),
         rejected (fst (remove id teamId userId now s)) = true ->
         snd (remove id teamId userId now s) = s)
  /\ (forall id teamId userId now (s : Store Task),
         rejected (fst (restore id teamId userId now s)) = true ->
         snd (restore id teamId userId now s) = s)
  /\ (forall id p teamId userId now (s : Store Task),
         rejected (fst (updatePosition id p teamId userId now s)) = true ->
         snd (updatePosition id p teamId userId now s) = s)
  /\ (forall dto teamId userId oid now (s : Store Projects.Project),
         rejected (fst (Projects.create dto teamId userId oid now s)) = true ->
         snd (Projects.create dto teamId userId oid now s) = s)
  /\ (forall id teamId (s : Store Projects.Project),
         rejected (fst (Projects.findOne id teamId s)) = true ->
         snd (Projects.findOne id teamId s) = s)
  /\ (forall id dto teamId userId now (s : Store Projects.Project),
         rejected (fst (Projects.update id dto teamId userId now s)) = true ->
         snd (Projects.update id dto teamId userId now s) = s)
  /\ (forall id teamId userId now (s : Store Projects.Project),
         rejected (fst (Projects.remove id teamId userId now s)) = true ->
         snd (Projects.remove id teamId userId now s) = s)
  /\ (forall id teamId userId now (s : Store Projects.Project),
         rejected (fst (Projects.restore id teamId userId now s)) = true ->
         snd (Projects.restore id teamId userId now s) = s).
Proof.
  repeat split.
  - intros. apply task_findOne_rejected.
  - intros *. apply task_update_rejected.
  - intros *. apply task_remove_rejected.
  - intros *. apply task_restore_rejected.
  - intros *. apply task_updatePosition_rejected.
  - intros *. apply project_create_rejected.
  - intros. now rewrite project_findOne_eq.
  - intros *. apply project_update_rejected.
  - intros *. apply project_remove_rejected.
  - intros *. apply project_restore_rejected.
Qed.

End Rejections.

Lemma rejected_calls_write_nothing_witness :
  rejected (fst (Projects.create (Samples.project_dto "X") Samples.teamA
                   Samples.bob Samples.id2 4000 Samples.one_project)) = true
  /\ snd (Projects.create (Samples.project_dto "X") Samples.teamA
            Samples.bob Samples.id2 4000 Samples.one_project)
     = Samples.one_project.
Proof.
  assert (H : rejected
                (fst (Projects.create (Samples.project_dto "X")
                        Samples.teamA Samples.bob Samples.id2 4000
                        Samples.one_project)) = true)
    by (vm_compute; reflexivity).
  split; [exact H|].
  destruct (@rejected_calls_write_nothing Samples.hex_ids)
    as (_ & _ & _ & _ & _ & Hr & _).
  apply Hr. exact H.
Defined.

(** ** C6: restoring under a name taken meanwhile *)

Section ProjectInvariants.
Context {OL : ObjectIdLib}.

Lemma project_updated_In (id : string)
    (upd : Projects.Project -> Projects.Project)
    (s : Store Projects.Project) (x : Projects.Project) :
  Projects.unique_ids (docs s) ->
  In x (docs (updated Projects._id id upd s)) ->
  (In x (docs s) /\ Projects._id x <> id)
  \/ (exists d, lookup Projects._id id (docs s) = Some d /\ x = upd d).
Proof. apply updated_In. Qed.

(** How one call transforms the collection of projects. *)
Lemma project_exec_shape (op : Projects.Op) (s : Store Projects.Project) :
  docs (Projects.exec op s) = docs s
  \/ (exists d,
         docs (Projects.exec op s) = docs s ++ [d]
         /\ existsb (fun x => String.eqb (Projects._id x) (Projects._id d))
              (docs s) = false
         /\ duplicate_key Projects._id Projects.same_key d (docs s) = false
         /\ trim (Projects.name d) = Projects.name d)
  \/ (exists id upd d,
         lookup Projects._id id (docs s) = Some d
         /\ docs (Projects.exec op s) = docs (updated Projects._id id upd s)
         /\ (forall x, Projects._id (upd x) = Projects._id x)
         /\ (Projects.same_key d (upd d) = true
             \/ duplicate_key Projects._id Projects.same_key (upd d) (docs s)
                = false)
         /\ (trim (Projects.name d) = Projects.name d ->
             trim (Projects.name (upd d)) = Projects.name (upd d))).
Proof.
  destruct op as [dto teamId userId oid now
                 |id dto teamId userId now
                 |id teamId userId now
                 |id teamId userId now]; simpl.
  - rewrite project_create_eq. cbv zeta.
    destruct (List.find _ _); auto.
    destruct (negb (Projects.validate _)); auto.
    destruct (duplicate_key _ _ _ _) eqn:Ed; simpl; auto.
    destruct (existsb _ (docs s)) eqn:Ee; simpl; auto.
    right; left. eexists. split; [reflexivity|]. simpl.
    repeat split; trivial. apply trim_idem.
  - rewrite project_update_eq.
    destruct (project_findOne_result id teamId s)
      as [(p & Hf & Hfind & _)|[msg Hf]]; rewrite Hf; auto.
    destruct (_ && _ && _); auto.
    destruct (lookup Projects._id (toHexString id) (docs s)) as [d|] eqn:El.
    + destruct (negb (Projects.same_key d _)) eqn:Ek; simpl.
      * destruct (duplicate_key _ _ _ _) eqn:Ed; simpl; auto.
        right; right.
        exists (toHexString id), (Projects.update_doc dto now), d.
        repeat split; auto.
        -- intros; apply project_update_doc_id.
        -- intros Ht. rewrite project_update_doc_name.
           destruct (Projects.UpdateProjectDto.name dto); trivial.
           apply trim_idem.
      * right; right.
        exists (toHexString id), (Projects.update_doc dto now), d.
        apply negb_false_iff in Ek. repeat split; auto.
        -- intros; apply project_update_doc_id.
        -- intros Ht. rewrite project_update_doc_name.
           destruct (Projects.UpdateProjectDto.name dto); trivial.
           apply trim_idem.
    + left. simpl. unfold updated. simpl.
      now rewrite update_first_none.
  - rewrite project_remove_eq.
    destruct (project_findOne_result id teamId s)
      as [(p & Hf & Hfind & _)|[msg Hf]]; rewrite Hf; auto.
    destruct (find_has_id Projects._id _ (toHexString id) _ _ Hfind)
      as [d Hd].
    { apply find_some in Hfind. destruct Hfind as [_ Hp].
      now apply project_findOne_filter_true in Hp. }
    right; right. exists (toHexString id), (Projects.remove_doc now), d.
    repeat split; auto. left. apply same_key_remove_doc.
  - rewrite project_restore_eq. destruct (negb (isValid id)); auto.
    destruct (List.find _ _) as [p|] eqn:Ef; auto.
    destruct (List.find (Projects.active_name_filter _ _) _); auto.
    destruct (find_has_id Projects._id _ (toHexString id) _ _ Ef)
      as [d Hd].
    { apply find_some in Ef. destruct Ef as [_ Hp].
      now apply project_restore_filter_true in Hp. }
    right; right. exists (toHexString id), (Projects.restore_doc now), d.
    repeat split; auto. left. apply same_key_restore_doc.
Qed.

Lemma same_key_sym (a b : Projects.Project) :
  Projects.same_key a b = Projects.same_key b a.
Proof.
  unfold Projects.same_key.
  now rewrite (String.eqb_sym (Projects.team_id a)),
    (String.eqb_sym (Projects.name a)).
Qed.







End ProjectInvariants.

Section RestoreUniqueness.
Context {OL : ObjectIdLib} {TI : TextIndex}.


End RestoreUniqueness.

(** The two sample collections of projects are built by the service. *)
Lemma one_project_reachable :
  @Projects.run Samples.hex_ids Samples.one_project_ops Projects.empty_store
  = Samples.one_project.
Proof. vm_compute. reflexivity. Qed.



(** * Further properties of the services *)

(** ** Tasks: creation *)

Lemma find_app_none {D} (f : D -> bool) (l1 l2 : list D) :
  List.find f l1 = None -> List.find f (l1 ++ l2) = List.find f l2.
Proof.
  induction l1 as [|x r IH]; simpl; trivial.
  destruct (f x); [discriminate|exact IH].
Qed.

Section Creation.
Context {OL : ObjectIdLib} {TI : TextIndex}.

(** X1: a successful [create] stores a task that [findOne] of the same team
    returns at once, under every spelling of its id; it carries the trimmed
    title, the schema defaults, the creation instant as its position and as
    its two timestamps, no completion or deletion date, and a history made
    of the single [created] entry. *)
Theorem create_then_findOne dto teamId userId oid now
    (s s' : Store Task) (t : Task) :
  create dto teamId userId oid now s = (Ok t, s') ->
  (forall id, isValid id = true -> toHexString id = oid ->
     findOne id teamId s' = (Ok t, s'))
  /\ _id t = oid /\ team_id t = teamId /\ created_by t = userId
  /\ title t = trim (CreateTaskDto.title dto)
  /\ status t = default TODO (CreateTaskDto.status dto)
  /\ priority t = default MEDIUM (CreateTaskDto.priority dto)
  /\ position t = inject_Z now
  /\ completed_at t = None /\ deleted_at t = None
  /\ createdAt t = Some now /\ updatedAt t = Some now
  /\ history t =
       [mkEntry "created" userId now
          [mkChange "status" VNull (VString (status_str (status t)))]]
  /\ docs s' = docs s ++ [t].
Proof.
  intros Hc. rewrite create_eq in Hc. cbv zeta in Hc.
  destruct (negb (validate _)); [discriminate|].
  destruct (existsb _ (docs s)) eqn:E; [discriminate|].
  injection Hc as <- <-. simpl.
  repeat split.
  intros id Hv Hid.
  rewrite findOne_eq, Hv. simpl.
  rewrite find_app_none.
  - simpl. unfold findOne_filter. simpl.
    now rewrite Hid, !String.eqb_refl.
  - destruct (List.find _ (docs s)) as [x|] eqn:Ef; trivial.
    apply find_some in Ef. destruct Ef as [Hin Hf].
    apply findOne_filter_true in Hf. destruct Hf as (Hxid & _).
    assert (existsb (fun y => String.eqb (_id y) oid) (docs s) = true).
    { apply existsb_exists. exists x. split; trivial.
      apply String.eqb_eq. congruence. }
    congruence.
Qed.

End Creation.

Lemma create_then_findOne_witness :
  exists t,
    @findOne Samples.hex_ids Samples.ID1 Samples.teamA Samples.one_store
      = (Ok t, Samples.one_store)
    /\ status t = TODO /\ priority t = MEDIUM
    /\ List.length (history t) = 1%nat.
Proof.
  destruct (@create_then_findOne Samples.hex_ids
              (Samples.dto_titled "A" None) Samples.teamA Samples.alice
              Samples.id1 1000 empty_store Samples.one_store
              (Samples.created "A" Samples.id1 1000))
    as (Hf & _ & _ & _ & _ & Hs & Hp & _ & _ & _ & _ & _ & Hh & _).
  - vm_compute. reflexivity.
  - exists (Samples.created "A" Samples.id1 1000).
    split; [apply Hf; vm_compute; reflexivity|].
    split; [exact Hs|]. split; [exact Hp|].
    now rewrite Hh.
Defined.

(** ** Tasks: the soft-delete state *)

Lemma restore_remove_doc userId now userId' now' (t : Task) :
  deleted_at t = None ->
  restore_doc (remove_doc userId now t) userId' now'
    (remove_doc userId now t)
  = set_updatedAt (Some now')
      (set_history
         (history t ++
          [mkEntry "deleted" userId now
             [mkChange "deleted_at" VNull (VDate now)];
           mkEntry "restored" userId' now'
             [mkChange "deleted_at" (VDate now) VNull]]) t).
Proof.
  intros Hd. destruct t. cbn in Hd. subst.
  cbv [restore_doc remove_doc push_history timestamps_update set_updatedAt
       set_history
       set_deleted_at opt_value _id title description status priority
       team_id project_id assignee_id created_by labels tags due_date
       start_date estimated_hours position completed_at history deleted_at
       createdAt updatedAt].
  now rewrite <- app_assoc.
Qed.

Section SoftDelete.
Context {OL : ObjectIdLib} {TI : TextIndex}.

Lemma all_throw_after_findOne_throws id teamId (s : Store Task) msg :
  findOne id teamId s = (Throw (NotFoundException msg), s) ->
  (forall dto userId now,
      update id dto teamId userId now s = (Throw (NotFoundException msg), s))
  /\ (forall userId now,
         remove id teamId userId now s = (Throw (NotFoundException msg), s))
  /\ (forall p userId now,
         updatePosition id p teamId userId now s
         = (Throw (NotFoundException msg), s)).
Proof.
  intros Hf. repeat split; intros;
    unfold update, remove, updatePosition, bind; now rewrite Hf.
Qed.

(** X2: once [remove] has succeeded the task keeps its status and position
    and carries the deletion instant; for its team it is gone: [findOne],
    [update], [updatePosition] and a second [remove] all throw [NotFound]
    and write nothing. *)
Theorem remove_hides_task id teamId userId now (s : Store Task) (t : Task) :
  unique_ids (docs s) ->
  findOne id teamId s = (Ok t, s) ->
  let s1 := snd (remove id teamId userId now s) in
  fst (remove id teamId userId now s) = Ok tt
  /\ (exists t1, lookup _id (toHexString id) (docs s1) = Some t1
                 /\ deleted_at t1 = Some now
                 /\ status t1 = status t /\ position t1 = position t)
  /\ exists msg,
       findOne id teamId s1 = (Throw (NotFoundException msg), s1)
       /\ (forall dto userId' now',
              update id dto teamId userId' now' s1
              = (Throw (NotFoundException msg), s1))
       /\ (forall userId' now',
              remove id teamId userId' now' s1
              = (Throw (NotFoundException msg), s1))
       /\ (forall p userId' now',
              updatePosition id p teamId userId' now' s1
              = (Throw (NotFoundException msg), s1)).
Proof.
  intros Hu Hf s1.
  pose proof (findOne_lookup _ _ _ _ _ Hu Hf) as Hl.
  assert (E1 : s1 = updated _id (toHexString id) (remove_doc userId now) s)
    by (unfold s1; now rewrite (remove_found _ _ _ _ _ _ Hf)).
  assert (Hu1 : unique_ids (docs s1))
    by (rewrite E1; now apply updated_unique).
  assert (Hl1 : lookup _id (toHexString id) (docs s1) = Some (remove_doc userId now t)).
  { rewrite E1, lookup_updated by reflexivity.
    now rewrite String.eqb_refl, Hl. }
  split; [now rewrite (remove_found _ _ _ _ _ _ Hf)|].
  split; [eexists; split; [exact Hl1|]; repeat split|].
  destruct (findOne_missing id teamId s1) as [msg Hm].
  - intros x Hin Hid. right.
    pose proof (lookup_unique _id _ _ Hu1 Hin) as Hx.
    rewrite Hid, Hl1 in Hx. injection Hx as <-. discriminate.
  - exists msg. split; [exact Hm|].
    now apply all_throw_after_findOne_throws.
Qed.

(** X3: [restore] after [remove] gives the task back as it was, except for
    [updatedAt] and for the two entries ([deleted], [restored]) appended
    to its history; [findOne] returns it again. *)
Theorem remove_restore_roundtrip id teamId userId now userId' now'
    (s : Store Task) (t : Task) :
  unique_ids (docs s) ->
  findOne id teamId s = (Ok t, s) ->
  let s1 := snd (remove id teamId userId now s) in
  let s2 := snd (restore id teamId userId' now' s1) in
  let t2 :=
    set_updatedAt (Some now')
      (set_history
         (history t ++
          [mkEntry "deleted" userId now
             [mkChange "deleted_at" VNull (VDate now)];
           mkEntry "restored" userId' now'
             [mkChange "deleted_at" (VDate now) VNull]]) t) in
  fst (restore id teamId userId' now' s1) = Ok t2
  /\ findOne id teamId s2 = (Ok t2, s2).
Proof.
  intros Hu Hf s1 s2 t2.
  pose proof (findOne_lookup _ _ _ _ _ Hu Hf) as Hl.
  pose proof (findOne_found _ _ _ _ _ Hf) as (_ & Hv & _ & Hid & Ht & Hd).
  assert (E1 : s1 = updated _id (toHexString id) (remove_doc userId now) s)
    by (unfold s1; now rewrite (remove_found _ _ _ _ _ _ Hf)).
  assert (Hu1 : unique_ids (docs s1))
    by (rewrite E1; now apply updated_unique).
  assert (Hl1 : lookup _id (toHexString id) (docs s1) = Some (remove_doc userId now t)).
  { rewrite E1, lookup_updated by reflexivity.
    now rewrite String.eqb_refl, Hl. }
  assert (Et : restore_doc (remove_doc userId now t) userId' now'
                 (remove_doc userId now t) = t2).
  { unfold t2. now apply restore_remove_doc. }
  assert (Hr : restore id teamId userId' now' s1 =
               (Ok t2, updated _id (toHexString id)
                         (restore_doc (remove_doc userId now t) userId' now')
                         s1)).
  { rewrite (restore_of_lookup id teamId userId' now' s1
               (remove_doc userId now t)); trivial; [|discriminate].
    now rewrite Et. }
  split; [now rewrite Hr|].
  unfold s2. rewrite Hr. simpl snd.
  apply findOne_of_lookup; trivial.
  - now apply updated_unique.
  - rewrite lookup_updated by reflexivity.
    now rewrite String.eqb_refl, Hl1, <- Et.
Qed.

(** X4: [restore] needs a soft-deleted task of the team: when the ObjectId
    the id denotes is unknown, foreign or that of an active task, it throws
    [NotFound] and writes nothing. *)
Theorem restore_requires_deleted id teamId userId now (s : Store Task) :
  (forall t, In t (docs s) -> _id t = toHexString id ->
             team_id t = teamId -> deleted_at t = None) ->
  exists msg,
    restore id teamId userId now s = (Throw (NotFoundException msg), s).
Proof.
  intros H. rewrite restore_eq. destruct (negb (isValid id)); eauto.
  destruct (List.find _ _) as [t|] eqn:E; eauto.
  apply find_some in E. destruct E as [Hin Hf].
  apply restore_filter_true in Hf. destruct Hf as (Hid & Ht & Hd).
  exfalso. apply Hd. now apply H.
Qed.

End SoftDelete.

Lemma remove_hides_task_witness :
  exists msg,
    @findOne Samples.hex_ids Samples.id1 Samples.teamA
      (snd (@remove Samples.hex_ids Samples.id1 Samples.teamA Samples.alice
              2000 Samples.one_store))
    = (Throw (NotFoundException msg),
       snd (@remove Samples.hex_ids Samples.id1 Samples.teamA Samples.alice
              2000 Samples.one_store)).
Proof.
  destruct one_store_task as (t & Hf & _).
  destruct (@remove_hides_task Samples.hex_ids Samples.id1 Samples.teamA
              Samples.alice 2000 Samples.one_store t one_store_unique Hf)
    as (_ & _ & msg & Hm & _).
  exists msg. exact Hm.
Defined.

Lemma remove_restore_roundtrip_witness :
  exists t2,
    fst (@restore Samples.hex_ids Samples.id1 Samples.teamA Samples.bob 3000
           (snd (@remove Samples.hex_ids Samples.id1 Samples.teamA
                   Samples.alice 2000 Samples.one_store))) = Ok t2
    /\ deleted_at t2 = None /\ List.length (history t2) = 3%nat.
Proof.
  destruct one_store_task as (t & Hf & _ & _ & _ & Hh).
  destruct (@remove_restore_roundtrip Samples.hex_ids Samples.id1
              Samples.teamA Samples.alice 2000 Samples.bob 3000
              Samples.one_store t one_store_unique Hf) as [Hr _].
  eexists. split; [exact Hr|]. split.
  - simpl. now apply (@findOne_found Samples.hex_ids) in Hf.
  - simpl. rewrite length_app, Hh. reflexivity.
Defined.

Lemma restore_requires_deleted_witness :
  exists msg,
    @restore Samples.hex_ids Samples.id1 Samples.teamA Samples.alice 2000
      Samples.one_store
    = (Throw (NotFoundException msg), Samples.one_store).
Proof.
  apply (@restore_requires_deleted Samples.hex_ids).
  intros t Hin _ _. vm_compute in Hin. destruct Hin as [<-|[]].
  reflexivity.
Defined.

(** ** Tasks: what a call can and cannot touch *)

Lemma set_props_keeps_origin (dto : UpdateTaskDto) (d : Task) :
  created_by (set_props dto d) = created_by d /\
  createdAt (set_props dto d) = createdAt d /\
  updatedAt (set_props dto d) = updatedAt d.
Proof.
  induction dto as [|p dto IH] using rev_ind; [now simpl|].
  rewrite set_props_snoc. destruct p; simpl; exact IH.
Qed.

Section Frames.
Context {OL : ObjectIdLib} {TI : TextIndex}.

(** The update a call applies to the document it addresses. *)
Lemma exec_cases (op : Op) (s : Store Task) :
  docs (exec op s) = docs s
  \/ (exists d, docs (exec op s) = docs s ++ [d] /\ _id d = op_target op
                /\ team_id d = op_team op
                /\ lookup _id (op_target op) (docs s) = None)
  \/ (exists upd task,
         docs (exec op s) = docs (updated _id (op_target op) upd s)
         /\ In task (docs s) /\ _id task = op_target op
         /\ team_id task = op_team op
         /\ ((exists dto userId now, upd = update_doc dto task userId now)
             \/ (exists userId now, upd = remove_doc userId now)
             \/ (exists userId now, upd = restore_doc task userId now)
             \/ (exists p now, upd = position_doc p now))).
Proof.
  destruct op as [dto teamId userId oid now
                 |id dto teamId userId now
                 |id teamId userId now
                 |id teamId userId now
                 |id p teamId userId now]; simpl.
  - rewrite create_eq. cbv zeta.
    destruct (negb (validate _)); auto.
    destruct (existsb _ (docs s)) eqn:E; simpl; auto.
    right; left. eexists. split; [reflexivity|]. repeat split.
    unfold lookup. destruct (List.find _ _) as [x|] eqn:Ef; trivial.
    apply find_some in Ef.
    assert (existsb (fun y => String.eqb (_id y) oid) (docs s) = true)
      by (apply existsb_exists; eauto).
    congruence.
  - destruct (findOne_result id teamId s) as [[t Hf]|[msg Hf]].
    + right; right. exists (update_doc dto t userId now), t.
      pose proof (findOne_found _ _ _ _ _ Hf) as (_ & _ & Hin & Hid & Ht & _).
      repeat split; trivial; [|eauto 6].
      unfold update, bind. rewrite Hf, findByIdAndUpdate_eq.
      now destruct (lookup _ _ _).
    + left. unfold update, bind. now rewrite Hf.
  - destruct (findOne_result id teamId s) as [[t Hf]|[msg Hf]].
    + right; right. exists (remove_doc userId now), t.
      pose proof (findOne_found _ _ _ _ _ Hf) as (_ & _ & Hin & Hid & Ht & _).
      rewrite (remove_found _ _ _ _ _ _ Hf).
      repeat split; trivial. eauto 6.
    + left. unfold remove, bind. now rewrite Hf.
  - rewrite restore_eq. destruct (negb (isValid id)); auto.
    destruct (List.find _ _) as [t|] eqn:E; auto.
    right; right. exists (restore_doc t userId now), t.
    apply find_some in E. destruct E as [Hin Hf].
    apply restore_filter_true in Hf. destruct Hf as (Hid & Ht & _).
    repeat split; trivial. eauto 6.
  - destruct (findOne_result id teamId s) as [[t Hf]|[msg Hf]].
    + right; right. exists (position_doc p now), t.
      pose proof (findOne_found _ _ _ _ _ Hf) as (_ & _ & Hin & Hid & Ht & _).
      repeat split; trivial; [|eauto 6].
      unfold updatePosition, bind. rewrite Hf, findByIdAndUpdate_eq.
      now destruct (lookup _ _ _).
    + left. unfold updatePosition, bind. now rewrite Hf.
Qed.

Lemma service_update_keeps (upd : Task -> Task) (task : Task) :
  (exists dto userId now, upd = update_doc dto task userId now)
  \/ (exists userId now, upd = remove_doc userId now)
  \/ (exists userId now, upd = restore_doc task userId now)
  \/ (exists p now, upd = position_doc p now) ->
  forall d,
    _id (upd d) = _id d /\ team_id (upd d) = team_id d
    /\ created_by (upd d) = created_by d
    /\ createdAt (upd d) = createdAt d
    /\ exists suffix, history (upd d) = history d ++ suffix
                      /\ (List.length suffix <= 1)%nat.
Proof.
  intros [(dto & u & n & ->)|[(u & n & ->)|[(u & n & ->)|(p & n & ->)]]] d.
  - rewrite update_doc_history.
    unfold update_doc. destruct (completes dto task); simpl;
      (repeat split; [apply set_props_keeps | apply set_props_keeps
                     | apply set_props_keeps_origin
                     | apply set_props_keeps_origin | eauto ]).
  - simpl. repeat split. eauto.
  - simpl. repeat split. eauto.
  - simpl. repeat split. exists []. rewrite app_nil_r. auto.
Qed.

Lemma set_prop_trimmed p t :
  is_trimmed t = true -> is_trimmed (set_prop p t) = true.
Proof.
  unfold is_trimmed. rewrite !andb_true_iff. intros [H1 H2].
  destruct p; cbn; auto.
  - split; trivial. now rewrite trim_idem, String.eqb_refl.
  - split; trivial. now rewrite trim_idem, String.eqb_refl.
Qed.

Lemma set_props_trimmed dto t :
  is_trimmed t = true -> is_trimmed (set_props dto t) = true.
Proof.
  unfold set_props. revert t.
  induction dto as [|p r IH]; simpl; intros t H; trivial.
  apply IH. now apply set_prop_trimmed.
Qed.

Lemma service_update_trimmed (upd : Task -> Task) (task : Task) :
  (exists dto userId now, upd = update_doc dto task userId now)
  \/ (exists userId now, upd = remove_doc userId now)
  \/ (exists userId now, upd = restore_doc task userId now)
  \/ (exists p now, upd = position_doc p now) ->
  forall d, is_trimmed d = true -> is_trimmed (upd d) = true.
Proof.
  intros [(dto & u & n & ->)|[(u & n & ->)|[(u & n & ->)|(p & n & ->)]]] d H;
    trivial.
  unfold update_doc. apply (set_props_trimmed dto) in H.
  destruct (completes dto task); exact H.
Qed.

Lemma updated_In_any (id : string) (upd : Task -> Task) (s : Store Task)
    (x : Task) :
  In x (docs (updated _id id upd s)) ->
  In x (docs s) \/ exists d, In d (docs s) /\ x = upd d.
Proof.
  unfold updated. simpl.
  induction (docs s) as [|y r IH]; simpl; [tauto|].
  destruct (String.eqb (_id y) id); simpl.
  - intros [<-|H]; eauto.
  - destruct (update_first _id id upd r) as [o r']; simpl in *.
    intros [<-|H]; auto.
    destruct (IH H) as [Hin|(d & Hd & ->)]; eauto.
Qed.

Lemma exec_trimmed (op : Op) (s : Store Task) :
  (forall t, In t (docs s) -> is_trimmed t = true) ->
  forall t, In t (docs (exec op s)) -> is_trimmed t = true.
Proof.
  intros Hs t.
  assert (Hupd : forall upd task id,
             (exists dto userId now, upd = update_doc dto task userId now)
             \/ (exists userId now, upd = remove_doc userId now)
             \/ (exists userId now, upd = restore_doc task userId now)
             \/ (exists p now, upd = position_doc p now) ->
             In t (docs (updated _id id upd s)) -> is_trimmed t = true).
  { intros upd task id Hu Ht.
    apply updated_In_any in Ht. destruct Ht as [Ht|(d & Hd & ->)]; auto.
    apply (service_update_trimmed upd task Hu). auto. }
  destruct op as [dto teamId userId oid now
                 |id dto teamId userId now
                 |id teamId userId now
                 |id teamId userId now
                 |id p teamId userId now]; simpl.
  - rewrite create_eq. cbv zeta.
    destruct (negb (validate _)); [auto|].
    destruct (existsb _ (docs s)); [auto|]. simpl. intros Ht.
    apply in_app_or in Ht. destruct Ht as [Ht|[<-|[]]]; auto.
    unfold is_trimmed. cbn. rewrite trim_idem, String.eqb_refl.
    destruct (CreateTaskDto.description dto); cbn; trivial.
    now rewrite trim_idem, String.eqb_refl.
  - destruct (findOne_result id teamId s) as [[t0 Hf]|[msg Hf]].
    + unfold update, bind. rewrite Hf, findByIdAndUpdate_eq.
      destruct (lookup _ _ _); simpl; apply (Hupd _ t0); eauto 6.
    + unfold update, bind. rewrite Hf. auto.
  - destruct (findOne_result id teamId s) as [[t0 Hf]|[msg Hf]].
    + rewrite (remove_found _ _ _ _ _ _ Hf). simpl.
      apply (Hupd _ t0); eauto 6.
    + unfold remove, bind. rewrite Hf. auto.
  - rewrite restore_eq. destruct (negb (isValid id)); auto.
    destruct (List.find _ _) as [t0|] eqn:E; auto.
    destruct (lookup _ _ _); simpl; apply (Hupd _ t0); eauto 6.
  - destruct (findOne_result id teamId s) as [[t0 Hf]|[msg Hf]].
    + unfold updatePosition, bind. rewrite Hf, findByIdAndUpdate_eq.
      destruct (lookup _ _ _); simpl; apply (Hupd _ t0); eauto 6.
    + unfold updatePosition, bind. rewrite Hf. auto.
Qed.

(** Every task the service stores has its title and description trimmed,
    as the setters of the schema leave them. *)
Lemma stored_tasks_trimmed (ops : list Op) (t : Task) :
  In t (docs (run ops empty_store)) -> is_trimmed t = true.
Proof.
  revert t. induction ops as [|op ops IH] using rev_ind.
  - intros t [].
  - rewrite run_app. simpl. now apply exec_trimmed.
Qed.
Lemma lookup_off_target (op : Op) (s : Store Task) (id' : string) :
  id' <> op_target op ->
  lookup _id id' (docs (exec op s)) = lookup _id id' (docs s).
Proof.
  intros Hne.
  destruct (exec_cases op s)
    as [->|[(d & -> & Hd & _)|(upd & task & -> & _ & _ & _ & Hupd)]];
    trivial.
  - unfold lookup. induction (docs s) as [|x r IH]; simpl.
    + destruct (String.eqb (_id d) id') eqn:E; trivial.
      apply String.eqb_eq in E. congruence.
    + now destruct (String.eqb (_id x) id').
  - rewrite lookup_updated
      by (intros d; apply (service_update_keeps upd task Hupd d)).
    destruct (String.eqb id' (op_target op)) eqn:E; trivial.
    apply String.eqb_eq in E. contradiction.
Qed.

(** X5: a call leaves every task exactly as it was, except the one stored
    under the ObjectId its id denotes ([op_target]: the cast id, whatever
    its spelling). *)
Theorem other_tasks_untouched (op : Op) (s : Store Task) (id' : string) :
  id' <> op_target op ->
  lookup _id id' (docs (exec op s)) = lookup _id id' (docs s).
Proof. apply lookup_off_target. Qed.

(** X6: a call issued for one team never changes a task of another team,
    whatever id it is given. *)
Theorem foreign_team_untouched (op : Op) (s : Store Task) (t : Task) :
  unique_ids (docs s) ->
  In t (docs s) -> team_id t <> op_team op ->
  lookup _id (_id t) (docs (exec op s)) = Some t.
Proof.
  intros Hu Hin Ht.
  pose proof (lookup_unique _id _ _ Hu Hin) as Hl.
  destruct (string_dec (_id t) (op_target op)) as [E|E];
    [|now rewrite lookup_off_target].
  destruct (exec_cases op s)
    as [->|[(d & _ & _ & _ & Hfresh)
           |(upd & task & _ & Hin' & Hid & Hteam & _)]];
    trivial.
  - rewrite E in Hl. congruence.
  - pose proof (lookup_unique _id _ _ Hu Hin') as Hl'.
    rewrite Hid, <- E, Hl in Hl'. injection Hl' as ->. contradiction.
Qed.

(** X7: no call removes a task from the collection or changes its id, its
    team, its creator or its creation date. *)
Theorem tasks_keep_identity (op : Op) (s : Store Task) id (t : Task) :
  lookup _id id (docs s) = Some t ->
  exists t',
    lookup _id id (docs (exec op s)) = Some t'
    /\ _id t' = _id t /\ team_id t' = team_id t
    /\ created_by t' = created_by t /\ createdAt t' = createdAt t.
Proof.
  intros Hl.
  destruct (string_dec id (op_target op)) as [E|E];
    [|rewrite lookup_off_target by exact E; eauto 6].
  destruct (exec_cases op s)
    as [->|[(d & _ & _ & _ & Hfresh)|(upd & task & -> & _ & _ & _ & Hupd)]].
  - eauto 6.
  - rewrite <- E in Hfresh. congruence.
  - rewrite lookup_updated
      by (intros d; apply (service_update_keeps upd task Hupd d)).
    rewrite <- E, String.eqb_refl, Hl. simpl.
    destruct (service_update_keeps upd task Hupd t)
      as (H1 & H2 & H3 & H4 & _).
    eauto 6.
Qed.

(** X8: the history of a task is append-only: a call keeps every recorded
    entry in place and adds at most one entry at the end. *)
Theorem history_append_only (op : Op) (s : Store Task) id (t : Task) :
  lookup _id id (docs s) = Some t ->
  exists t' suffix,
    lookup _id id (docs (exec op s)) = Some t'
    /\ history t' = history t ++ suffix
    /\ (List.length suffix <= 1)%nat.
Proof.
  intros Hl.
  assert (Hsame : exists t' suffix,
             Some t = Some t' /\ history t' = history t ++ suffix
             /\ (List.length suffix <= 1)%nat).
  { exists t, []. rewrite app_nil_r. auto. }
  destruct (string_dec id (op_target op)) as [E|E];
    [|rewrite lookup_off_target by exact E; now rewrite Hl].
  destruct (exec_cases op s)
    as [->|[(d & _ & _ & _ & Hfresh)|(upd & task & -> & _ & _ & _ & Hupd)]].
  - now rewrite Hl.
  - rewrite <- E in Hfresh. congruence.
  - rewrite lookup_updated
      by (intros d; apply (service_update_keeps upd task Hupd d)).
    rewrite <- E, String.eqb_refl, Hl. simpl.
    destruct (service_update_keeps upd task Hupd t)
      as (_ & _ & _ & _ & suffix & Hh & Hn).
    eauto.
Qed.

End Frames.

Lemma other_tasks_untouched_witness :
  lookup _id Samples.id2
    (docs (@exec Samples.hex_ids
             (OpRemove Samples.ID1 Samples.teamA Samples.alice 2000)
             Samples.mixed_store))
  = lookup _id Samples.id2 (docs Samples.mixed_store).
Proof.
  apply (@other_tasks_untouched Samples.hex_ids
           (OpRemove Samples.ID1 Samples.teamA Samples.alice 2000)).
  vm_compute. discriminate.
Defined.

Lemma foreign_team_untouched_witness :
  lookup _id Samples.id2
    (docs (@exec Samples.hex_ids Samples.foreign_update
             Samples.tasks_of_two_teams))
  = Some Samples.task_of_bob.
Proof.
  apply (@foreign_team_untouched Samples.hex_ids Samples.foreign_update
           Samples.tasks_of_two_teams Samples.task_of_bob).
  - unfold unique_ids. vm_compute. repeat constructor; simpl.
    + intros [H|[]]. discriminate.
    + intros [].
  - vm_compute. auto.
  - vm_compute. discriminate.
Defined.

Lemma tasks_keep_identity_witness :
  exists t',
    lookup _id Samples.id1
      (docs (@exec Samples.hex_ids
               (OpRemove Samples.id1 Samples.teamA Samples.alice 2000)
               Samples.one_store)) = Some t'
    /\ team_id t' = Samples.teamA /\ created_by t' = Samples.alice.
Proof.
  destruct (@tasks_keep_identity Samples.hex_ids
              (OpRemove Samples.id1 Samples.teamA Samples.alice 2000)
              Samples.one_store Samples.id1
              (Samples.created "A" Samples.id1 1000))
    as (t' & Hl & _ & Ht & Hc & _).
  - vm_compute. reflexivity.
  - exists t'. split; [exact Hl|]. split; [exact Ht|exact Hc].
Defined.

Lemma history_append_only_witness :
  exists t' suffix,
    lookup _id Samples.id1
      (docs (@exec Samples.hex_ids
               (OpUpdatePosition Samples.id1 (7 # 2) Samples.teamA
                  Samples.alice 2000)
               Samples.one_store)) = Some t'
    /\ history t' = history (Samples.created "A" Samples.id1 1000) ++ suffix
    /\ (List.length suffix <= 1)%nat.
Proof.
  apply (@history_append_only Samples.hex_ids).
  vm_compute. reflexivity.
Defined.

(** ** Tasks: what [update] records *)

Lemma dto_status_Some_In (dto : UpdateTaskDto) (v : TaskStatus) :
  dto_status dto = Some v -> In (U_status v) dto.
Proof.
  induction dto as [|p dto IH] using rev_ind; [discriminate|].
  rewrite dto_status_snoc. intros H. apply in_or_app.
  destruct p; try (left; now apply IH).
  injection H as ->. right. now left.
Qed.

Lemma dto_assignee_id_Some_In (dto : UpdateTaskDto) (v : string) :
  dto_assignee_id dto = Some v -> In (U_assignee_id v) dto.
Proof.
  induction dto as [|p dto IH] using rev_ind; [discriminate|].
  rewrite dto_assignee_id_snoc. intros H. apply in_or_app.
  destruct p; try (left; now apply IH).
  injection H as ->. right. now left.
Qed.

Lemma track_changes_nil (t : Task) (dto : UpdateTaskDto) :
  (forall p, In p dto ->
     strict_eq (prop_value p) (task_get t (prop_key p)) = true) ->
  track_changes t dto = [].
Proof.
  intros H. unfold track_changes.
  induction dto as [|p dto IH]; simpl; trivial.
  rewrite IH by (intros; apply H; now right).
  unfold track_change. rewrite (H p) by now left. reflexivity.
Qed.

Section Recording.
Context {OL : ObjectIdLib} {TI : TextIndex}.

(** X9: a patch that only restates current values (the empty patch
    included) is still written: [update] succeeds, the store stamps
    [updatedAt], and one [updated] entry whose list of changes is empty is
    appended, while every field the patch can address keeps its value (the
    task being stored with trimmed title and description, as the schema
    leaves them); [completed_at] is kept too, unless the task is in status
    [done] without a completion date. *)
Theorem restating_patch_is_recorded id dto teamId userId now
    (s : Store Task) (t : Task) :
  unique_ids (docs s) ->
  findOne id teamId s = (Ok t, s) ->
  is_trimmed t = true ->
  (forall p, In p dto ->
     strict_eq (prop_value p) (task_get t (prop_key p)) = true) ->
  exists t',
    fst (update id dto teamId userId now s) = Ok t'
    /\ lookup _id (toHexString id) (docs (snd (update id dto teamId userId now s)))
       = Some t'
    /\ history t' = history t ++ [mkEntry "updated" userId now []]
    /\ updatedAt t' = Some now
    /\ (completed_at t <> None \/ status t <> DONE ->
        completed_at t' = completed_at t)
    /\ forall key, same_value (task_get t' key) (task_get t key) = true.
Proof.
  intros Hu Hf Htr Hsame.
  pose proof (findOne_lookup _ _ _ _ _ Hu Hf) as Hl.
  assert (Hst : status_differs dto t = false).
  { unfold status_differs. destruct (dto_status dto) as [v|] eqn:E; trivial.
    apply dto_status_Some_In in E. specialize (Hsame _ E). cbn in Hsame.
    unfold status_eqb. now rewrite Hsame. }
  assert (Has : assignee_differs dto t = false).
  { unfold assignee_differs.
    destruct (dto_assignee_id dto) as [v|] eqn:E; trivial.
    apply dto_assignee_id_Some_In in E. specialize (Hsame _ E).
    cbn in Hsame. destruct (assignee_id t) as [b|]; cbn in *;
      [|discriminate].
    rewrite Hsame. now rewrite andb_false_r. }
  assert (Hcomp : completed_at t <> None \/ status t <> DONE ->
                  completes dto t = false).
  { intros Hor. destruct (completes dto t) eqn:Ec; trivial.
    apply completes_done in Ec. destruct Ec as [E Ec].
    unfold status_differs in Hst. rewrite E in Hst.
    apply negb_false_iff, status_eqb_eq in Hst.
    destruct Hor as [H|H]; [now elim H | now elim H]. }
  exists (update_doc dto t userId now t).
  rewrite (update_found _ _ _ _ _ _ _ Hu Hf). simpl fst. simpl snd.
  rewrite lookup_updated by (intros; apply update_doc_id).
  rewrite String.eqb_refl, Hl. cbn [option_map].
  repeat split.
  - rewrite update_doc_history. unfold update_action.
    now rewrite Hst, Has, track_changes_nil.
  - unfold update_doc. now destruct (completes dto t).
  - intros Hor. rewrite update_doc_completed_at. now rewrite Hcomp.
  - intros key. rewrite update_doc_get.
    apply untracked_key_unchanged; trivial.
    now rewrite track_changes_nil.
Qed.

(** X10: a label list, a tag list or a date present in the patch is always
    recorded as a change, even when it equals the stored value: the
    comparison is [!==] and these values are objects.  A project id is a
    string on both sides: it is recorded when it differs from the stored
    one and is not recorded when it restates it. *)
Theorem object_values_always_recorded id dto teamId userId now
    (s : Store Task) (t : Task) :
  unique_ids (docs s) ->
  findOne id teamId s = (Ok t, s) ->
  exists t' e,
    fst (update id dto teamId userId now s) = Ok t'
    /\ history t' = history t ++ [e]
    /\ (forall l, In (U_labels l) dto ->
          In (mkChange "labels" (VStrings (labels t)) (VStrings l))
             (changes e))
    /\ (forall l, In (U_tags l) dto ->
          In (mkChange "tags" (VStrings (tags t)) (VStrings l)) (changes e))
    /\ (forall d, In (U_due_date d) dto ->
          In (mkChange "due_date" (opt_value VDate (due_date t)) (VDate d))
             (changes e))
    /\ (forall d, In (U_start_date d) dto ->
          In (mkChange "start_date" (opt_value VDate (start_date t))
                (VDate d)) (changes e))
    /\ (forall p, In (U_project_id p) dto -> project_id t <> Some p ->
          In (mkChange "project_id" (opt_value VString (project_id t))
                (VString p)) (changes e))
    /\ (forall p, project_id t = Some p ->
          ~ In (mkChange "project_id" (VString p) (VString p)) (changes e)).
Proof.
  intros Hu Hf.
  exists (update_doc dto t userId now t).
  exists (mkEntry (update_action dto t) userId now (track_changes t dto)).
  rewrite (update_found _ _ _ _ _ _ _ Hu Hf). simpl fst.
  split; trivial. split; [apply update_doc_history|].
  cbn [changes]. unfold track_changes.
  split; [|split; [|split; [|split; [|split]]]].
  - intros v Hin. apply in_flat_map. eexists. split; [exact Hin|].
    cbn. now left.
  - intros v Hin. apply in_flat_map. eexists. split; [exact Hin|].
    cbn. now left.
  - intros v Hin. apply in_flat_map. eexists. split; [exact Hin|].
    cbn. destruct (due_date t); cbn; now left.
  - intros v Hin. apply in_flat_map. eexists. split; [exact Hin|].
    cbn. destruct (start_date t); cbn; now left.
  - intros v Hin Hne. apply in_flat_map. eexists. split; [exact Hin|].
    unfold track_change. cbn.
    destruct (project_id t) as [q|]; cbn; [|now left].
    destruct (String.eqb v q) eqn:E; [|now left].
    apply String.eqb_eq in E. congruence.
  - intros v Hp Hin. apply in_flat_map in Hin.
    destruct Hin as (q & _ & Hq). unfold track_change in Hq.
    destruct (negb (strict_eq (prop_value q) (task_get t (prop_key q)))
              && negb (is_undefined (prop_value q))) eqn:E; [|easy].
    destruct Hq as [Hq|[]]. injection Hq as Hk Ho Hn.
    rewrite Hn, Ho in E. cbn in E. now rewrite String.eqb_refl in E.
Qed.

(** X11: the label of the entry [update] appends.  A status in the patch
    that differs from the task's gives [status_changed]; otherwise an
    assignee in the patch gives [assigned] only when it is a non-empty
    string different from the task's assignee; everything else, a patch
    that clears the assignee with the empty string included, gives
    [updated]. *)
Theorem update_entry_label id dto teamId userId now
    (s : Store Task) (t : Task) :
  unique_ids (docs s) ->
  findOne id teamId s = (Ok t, s) ->
  exists t' e,
    fst (update id dto teamId userId now s) = Ok t'
    /\ history t' = history t ++ [e]
    /\ (forall st, dto_status dto = Some st -> st <> status t ->
          action e = "status_changed")
    /\ ((dto_status dto = None \/ dto_status dto = Some (status t)) ->
        (forall a, dto_assignee_id dto = Some a ->
           action e =
             if String.eqb a EmptyString
                || opt_str_eqb (Some a) (assignee_id t)
             then "updated" else "assigned")
        /\ (dto_assignee_id dto = None -> action e = "updated")).
Proof.
  intros Hu Hf.
  exists (update_doc dto t userId now t).
  exists (mkEntry (update_action dto t) userId now (track_changes t dto)).
  rewrite (update_found _ _ _ _ _ _ _ Hu Hf). simpl fst.
  split; trivial. split; [apply update_doc_history|].
  cbn [action]. unfold update_action, status_differs, assignee_differs.
  split.
  - intros st -> Hs. apply status_eqb_neq in Hs. now rewrite Hs.
  - intros Hst.
    assert (E : match dto_status dto with
                | Some s0 => negb (status_eqb s0 (status t))
                | None => false
                end = false)
      by (destruct Hst as [-> | ->]; trivial; now rewrite status_eqb_refl).
    rewrite E. split.
    + intros a ->. cbn [truthy_str].
      destruct (String.eqb a EmptyString); cbn; trivial.
      now destruct (assignee_id t) as [b|]; cbn;
        [destruct (String.eqb a b)|].
    + intros ->. reflexivity.
Qed.

End Recording.

Lemma restating_patch_is_recorded_witness :
  exists t',
    fst (@update Samples.hex_ids Samples.id1 [U_title "A"; U_status TODO]
           Samples.teamA Samples.alice 3000 Samples.one_store) = Ok t'
    /\ history t' =
       history (Samples.created "A" Samples.id1 1000)
       ++ [mkEntry "updated" Samples.alice 3000 []].
Proof.
  destruct (@restating_patch_is_recorded Samples.hex_ids Samples.id1
              [U_title "A"; U_status TODO] Samples.teamA Samples.alice 3000
              Samples.one_store (Samples.created "A" Samples.id1 1000))
    as (t' & Hr & _ & Hh & _).
  - exact one_store_unique.
  - vm_compute. reflexivity.
  - vm_compute. reflexivity.
  - intros p [<-|[<-|[]]]; vm_compute; reflexivity.
  - exists t'. split; [exact Hr|exact Hh].
Defined.

Lemma object_values_always_recorded_witness :
  exists t' e,
    fst (@update Samples.hex_ids Samples.id1 [U_labels []] Samples.teamA
           Samples.alice 3000 Samples.one_store) = Ok t'
    /\ history t' = history (Samples.created "A" Samples.id1 1000) ++ [e]
    /\ In (mkChange "labels" (VStrings []) (VStrings [])) (changes e).
Proof.
  destruct (@object_values_always_recorded Samples.hex_ids Samples.id1
              [U_labels []] Samples.teamA Samples.alice 3000
              Samples.one_store (Samples.created "A" Samples.id1 1000))
    as (t' & e & Hr & Hh & Hl & _).
  - exact one_store_unique.
  - vm_compute. reflexivity.
  - exists t', e. split; [exact Hr|]. split; [exact Hh|].
    apply (Hl []). now left.
Defined.

Lemma update_entry_label_witness :
  exists t' e,
    fst (@update Samples.hex_ids Samples.id1 [U_assignee_id EmptyString]
           Samples.teamA Samples.alice 3000 Samples.one_store) = Ok t'
    /\ history t' = history (Samples.created "A" Samples.id1 1000) ++ [e]
    /\ action e = "updated".
Proof.
  destruct (@update_entry_label Samples.hex_ids Samples.id1
              [U_assignee_id EmptyString] Samples.teamA Samples.alice 3000
              Samples.one_store (Samples.created "A" Samples.id1 1000))
    as (t' & e & Hr & Hh & _ & Hlab).
  - exact one_store_unique.
  - vm_compute. reflexivity.
  - exists t', e. split; [exact Hr|]. split; [exact Hh|].
    destruct Hlab as [Ha _]; [now left|].
    now rewrite (Ha EmptyString eq_refl).
Defined.

(** ** Tasks: the board and the listing *)

Lemma columns_cover (l : list Task) :
  (List.length (List.filter (in_column TODO) l)
   + List.length (List.filter (in_column IN_PROGRESS) l)
   + List.length (List.filter (in_column DONE) l)
   + List.length (List.filter (in_column BLOCKED) l))%nat
  = List.length l.
Proof.
  induction l as [|x r IH]; trivial.
  cbn [List.filter].
  assert (E : forall st, in_column st x = status_eqb (status x) st)
    by reflexivity.
  rewrite !E. destruct (status x); cbn [status_eqb status_str String.eqb
    Ascii.eqb Bool.eqb andb List.length]; lia.
Qed.

Section BoardPartition.
Context {OL : ObjectIdLib} {TI : TextIndex}.

Lemma kanban_filter_true teamId projectId (t : Task) :
  kanban_filter teamId projectId t = true <->
  team_id t = teamId /\ deleted_at t = None
  /\ project_matches projectId t = true.
Proof.
  unfold kanban_filter. rewrite !andb_true_iff, String.eqb_eq.
  destruct (deleted_at t); simpl; intuition congruence.
Qed.

(** A filter on a project matches no task: it compares the stored string
    with an ObjectId. *)
Lemma project_matches_none projectId (t : Task) :
  truthy_str projectId = true -> project_matches projectId t = false.
Proof.
  unfold project_matches. intros ->. now destruct (project_id t).
Qed.

Lemma project_matches_all projectId (t : Task) :
  truthy_str projectId = false -> project_matches projectId t = true.
Proof. unfold project_matches. now intros ->. Qed.

Lemma board_column_In teamId projectId (coll : list Task) (b : Board)
    (st : TaskStatus) (t : Task) :
  getKanbanBoard teamId projectId coll (Ok b) ->
  In t (column st b) <->
  In t coll /\ team_id t = teamId /\ deleted_at t = None
  /\ project_matches projectId t = true /\ status t = st.
Proof.
  unfold getKanbanBoard. destruct (bad_project projectId); [discriminate|].
  intros (tasks & Hfs & [= ->]).
  rewrite column_board_of, filter_In.
  rewrite (find_sort_In _ _ _ _ t Hfs), kanban_filter_true.
  unfold in_column. rewrite status_eqb_eq. tauto.
Qed.

Lemma board_column_sorted teamId projectId (coll : list Task) (b : Board)
    (st : TaskStatus) :
  getKanbanBoard teamId projectId coll (Ok b) ->
  sorted_by position_leb (column st b).
Proof.
  unfold getKanbanBoard. destruct (bad_project projectId); [discriminate|].
  intros (tasks & [_ Hs] & [= ->]).
  rewrite column_board_of. now apply filter_sorted.
Qed.

(** X12: the four columns of the board of a team are a partition of the
    team's active tasks: a task is in a column exactly when it is such a
    task and has that status, and the column sizes add up to the number of
    those tasks.  A board asked for a project is empty, whatever the tasks
    stored: the filter compares the stored string with an ObjectId. *)
Theorem board_partitions_active_tasks teamId projectId
    (coll : list Task) (b : Board) :
  getKanbanBoard teamId projectId coll (Ok b) ->
  (truthy_str projectId = false ->
   (forall st t,
       In t (column st b) <->
       In t coll /\ team_id t = teamId /\ deleted_at t = None
       /\ status t = st)
   /\ (List.length (todo b) + List.length (in_progress b)
       + List.length (done b) + List.length (blocked b))%nat
      = countDocuments
          (fun t => String.eqb (team_id t) teamId && is_null (deleted_at t))
          coll)
  /\ (truthy_str projectId = true -> forall st, column st b = []).
Proof.
  intros Hb. split.
  - intros Hp. split.
    + intros st t. rewrite (board_column_In _ _ _ _ st t Hb).
      rewrite project_matches_all by exact Hp. tauto.
    + revert Hb. unfold getKanbanBoard.
      destruct (bad_project projectId); [discriminate|].
      intros (tasks & [Hperm _] & [= ->]).
      simpl. rewrite columns_cover. unfold countDocuments.
      rewrite <- (Permutation_length Hperm). f_equal.
      apply filter_ext. intros t. unfold kanban_filter.
      rewrite project_matches_all by exact Hp. apply andb_true_r.
  - intros Hp st. destruct (column st b) as [|x l] eqn:E; trivial.
    exfalso.
    assert (Hx : In x (column st b)) by (rewrite E; now left).
    apply (board_column_In _ _ _ _ st x Hb) in Hx.
    destruct Hx as (_ & _ & _ & Hm & _).
    rewrite project_matches_none in Hm by exact Hp. discriminate.
Qed.

(** X13: whatever the query, [findAll] returns as many tasks as the
    collection holds documents matching the filter; a query that names a
    project returns nothing; every returned task belongs to the calling
    team and satisfies the assignee, priority and label filters that the
    query sets (a label filter asks for at least one of the requested
    labels, trimmed). *)
Theorem findAll_is_team_scoped teamId query (coll r : list Task) :
  findAll teamId query coll (Ok r) ->
  List.length r = countDocuments (findAll_filter teamId query) coll
  /\ (truthy_str (TaskQueryDto.project_id query) = true -> r = [])
  /\ forall t, In t r ->
       In t coll /\ team_id t = teamId
       /\ (truthy_str (TaskQueryDto.assignee_id query) = true ->
           assignee_id t = TaskQueryDto.assignee_id query)
       /\ (forall p, TaskQueryDto.priority query = Some p -> priority t = p)
       /\ (forall ls, TaskQueryDto.labels query = Some ls ->
           ls <> EmptyString ->
           exists l, In l (map trim (split_on "," ls)) /\ In l (labels t)).
Proof.
  unfold findAll. destruct (bad_project _); [discriminate|].
  intros (tasks & Hfs & [= ->]). split; [|split].
  - destruct Hfs as [Hp _]. unfold countDocuments. symmetry.
    now apply Permutation_length.
  - intros Hp. destruct tasks as [|x l]; trivial. exfalso.
    assert (Hx : In x (x :: l)) by now left.
    apply (find_sort_In _ _ _ _ x Hfs) in Hx. destruct Hx as [_ Hf].
    unfold findAll_filter in Hf. rewrite !andb_true_iff in Hf.
    destruct Hf as (((((_ & Hpr) & _) & _) & _) & _).
    rewrite project_matches_none in Hpr by exact Hp. discriminate.
  - intros t Hin. apply (find_sort_In _ _ _ _ t Hfs) in Hin.
    destruct Hin as [Hin Hf]. split; trivial.
    unfold findAll_filter in Hf. rewrite !andb_true_iff in Hf.
    destruct Hf as (((((((Ht & _) & _) & Hpr) & Ha) & Hp) & Hl) & _).
    apply String.eqb_eq in Ht. split; trivial. repeat split.
    + intros E. rewrite E in Ha.
      destruct (assignee_id t), (TaskQueryDto.assignee_id query);
        simpl in *; try discriminate.
      apply String.eqb_eq in Ha. now subst.
    + intros p E. rewrite E in Hp. now apply priority_eqb_eq.
    + intros ls E Hne. rewrite E in Hl. simpl in Hl.
      destruct (String.eqb ls EmptyString) eqn:E0;
        [apply String.eqb_eq in E0; contradiction|].
      simpl in Hl. apply existsb_exists in Hl.
      destruct Hl as (l & Hl1 & Hl2). exists l. split; trivial.
      unfold mem_str in Hl2. apply existsb_exists in Hl2.
      destruct Hl2 as (l' & Hl' & El). apply String.eqb_eq in El.
      now subst.
Qed.

End BoardPartition.

Lemma board_partitions_active_tasks_witness :
  exists b,
    @getKanbanBoard Samples.hex_ids Samples.teamA None
      (docs Samples.mixed_store) (Ok b)
    /\ (List.length (todo b) + List.length (in_progress b)
        + List.length (done b) + List.length (blocked b))%nat = 2%nat.
Proof.
  assert (H : @getKanbanBoard Samples.hex_ids Samples.teamA None
                (docs Samples.mixed_store)
                (Ok (board_of
                       (find_sort_run (@kanban_filter Samples.hex_ids Samples.teamA None)
                          (Some position_leb) (docs Samples.mixed_store)))))
    by apply (@getKanbanBoard_run_ok Samples.hex_ids).
  eexists. split; [exact H|].
  destruct (@board_partitions_active_tasks Samples.hex_ids Samples.teamA
              None (docs Samples.mixed_store) _ H) as [Hteam _].
  destruct (Hteam eq_refl) as [_ Hn].
  rewrite Hn. vm_compute. reflexivity.
Defined.

Lemma findAll_is_team_scoped_witness :
  exists r,
    @findAll Samples.hex_ids Samples.title_index Samples.teamA
      TaskQueryDto.empty (docs Samples.tasks_of_two_teams) (Ok r)
    /\ List.length r = 1%nat
    /\ Forall (fun t => team_id t = Samples.teamA) r.
Proof.
  assert (H : @findAll Samples.hex_ids Samples.title_index Samples.teamA
                TaskQueryDto.empty (docs Samples.tasks_of_two_teams)
                (@findAll_run Samples.hex_ids Samples.title_index
                   Samples.teamA TaskQueryDto.empty
                   (docs Samples.tasks_of_two_teams)))
    by apply findAll_run_ok.
  unfold findAll_run in H. simpl bad_project in H. cbv iota in H.
  eexists. split; [exact H|].
  destruct (@findAll_is_team_scoped Samples.hex_ids Samples.title_index
              Samples.teamA TaskQueryDto.empty
              (docs Samples.tasks_of_two_teams) _ H) as (Hn & _ & Hall).
  split.
  - rewrite Hn. vm_compute. reflexivity.
  - apply Forall_forall. intros t Hin. now apply Hall.
Defined.

(** ** Tasks: statistics *)

Section GroupCounts.
Context {K : Type}.
Variable eqb : K -> K -> bool.
Hypothesis eqb_eq : forall a b, eqb a b = true <-> a = b.

Lemma eqb_same (a : K) : eqb a a = true.
Proof. now apply eqb_eq. Qed.

Lemma fold_assign_absent (g : list (K * nat)) (init : K -> nat) (k : K) :
  ~ In k (map fst g) -> fold_left (assign_count eqb) g init k = init k.
Proof.
  revert init. induction g as [|[k' n] r IH]; intros init Hn; trivial.
  simpl. rewrite IH by (intros H; apply Hn; now right).
  unfold assign_count. simpl.
  destruct (eqb k k') eqn:E; trivial.
  apply eqb_eq in E. subst. exfalso. apply Hn. now left.
Qed.

Lemma bump_keys (k0 : K) (g : list (K * nat)) :
  NoDup (map fst g) -> NoDup (map fst (bump eqb k0 g))
  /\ forall k, In k (map fst (bump eqb k0 g)) <-> k = k0 \/ In k (map fst g).
Proof.
  induction g as [|[k' n] r IH]; simpl; intros Hnd.
  - split; [repeat constructor; intros []|]. intros k. intuition.
  - inversion Hnd as [|? ? Hk Hr]; subst.
    destruct (eqb k' k0) eqn:E; simpl.
    + apply eqb_eq in E. subst. split; [exact Hnd|]. intros k. intuition.
    + destruct (IH Hr) as [Hnd' Hin]. split.
      * constructor; trivial. rewrite Hin. intros [->|H]; [|contradiction].
        rewrite eqb_same in E. discriminate.
      * intros k. rewrite Hin. intuition.
Qed.

Lemma fold_assign_bump (k0 k : K) (g : list (K * nat)) (init : K -> nat) :
  NoDup (map fst g) -> (~ In k0 (map fst g) -> init k0 = 0%nat) ->
  fold_left (assign_count eqb) (bump eqb k0 g) init k =
  (fold_left (assign_count eqb) g init k + if eqb k k0 then 1 else 0)%nat.
Proof.
  revert init. induction g as [|[k' n] r IH]; intros init Hnd H0; simpl.
  - unfold assign_count. simpl. destruct (eqb k k0) eqn:E; [|lia].
    apply eqb_eq in E. subst. rewrite H0; [lia|]. intros [].
  - inversion Hnd as [|? ? Hk Hr]; subst.
    destruct (eqb k' k0) eqn:E; simpl.
    + apply eqb_eq in E. subst k'.
      destruct (eqb k k0) eqn:Ek.
      * apply eqb_eq in Ek. subst k.
        rewrite !fold_assign_absent by exact Hk.
        unfold assign_count. simpl. rewrite eqb_same. lia.
      * assert (Hsame : forall init1 init2,
                  init1 k = init2 k ->
                  fold_left (assign_count eqb) r init1 k =
                  fold_left (assign_count eqb) r init2 k).
        { clear. induction r as [|[a m] r IHr]; intros i1 i2 Hi; trivial.
          simpl. apply IHr. unfold assign_count. simpl.
          now destruct (eqb k a). }
        rewrite (Hsame _ (assign_count eqb init (k0, n))); [lia|].
        unfold assign_count. simpl. now rewrite Ek.
    + apply IH; trivial. intros Hn. unfold assign_count. simpl.
      destruct (eqb k0 k') eqn:E'.
      * apply eqb_eq in E'. subst. rewrite eqb_same in E. discriminate.
      * apply H0. simpl. intros [->|H]; [|contradiction].
        rewrite eqb_same in E. discriminate.
Qed.

(** The counters built from a [$group] hold, for each key, the number of
    matching documents with that key. *)
Lemma counts_of_aggregate {D} (key : D -> K) (f : D -> bool)
    (coll : list D) (k : K) :
  counts_of eqb (aggregate_count eqb key f coll) k =
  countDocuments (fun d => f d && eqb (key d) k) coll.
Proof.
  unfold counts_of, aggregate_count, countDocuments.
  assert (H : forall l,
             NoDup (map fst (fold_left
                               (fun groups d => bump eqb (key d) groups)
                               l []))
             /\ fold_left (assign_count eqb)
                  (fold_left (fun groups d => bump eqb (key d) groups) l [])
                  (fun _ => 0%nat) k
                = List.length (List.filter (fun d => eqb (key d) k) l)).
  { induction l as [|x l IH] using rev_ind.
    - split; [constructor|reflexivity].
    - rewrite fold_left_app. simpl. destruct IH as [Hnd Hc]. split.
      + now apply bump_keys.
      + rewrite fold_assign_bump by auto. rewrite Hc.
        rewrite filter_app, length_app. simpl.
        destruct (eqb (key x) k) eqn:E.
        * apply eqb_eq in E. subst. now rewrite eqb_same.
        * destruct (eqb k (key x)) eqn:E'; [|simpl; lia].
          apply eqb_eq in E'. subst. rewrite eqb_same in E. discriminate. }
  destruct (H (List.filter f coll)) as [_ ->].
  clear. induction coll as [|x r IH]; simpl; trivial.
  destruct (f x); simpl; [destruct (eqb (key x) k); simpl|]; auto.
Qed.

End GroupCounts.

Lemma count_split (f g : Task -> bool) (l : list Task) :
  (countDocuments (fun t => f t && g t) l
   + countDocuments (fun t => f t && negb (g t)) l)%nat
  = countDocuments f l.
Proof.
  unfold countDocuments. induction l as [|x r IH]; simpl; trivial.
  destruct (f x), (g x); simpl; lia.
Qed.

Lemma count_le (f g : Task -> bool) (l : list Task) :
  (countDocuments (fun t => f t && g t) l <= countDocuments f l)%nat.
Proof. rewrite <- (count_split f g l). lia. Qed.

Lemma count_mono (f g : Task -> bool) (l : list Task) :
  (forall t, f t = true -> g t = true) ->
  (countDocuments f l <= countDocuments g l)%nat.
Proof.
  intros H. unfold countDocuments. induction l as [|x r IH]; simpl; [lia|].
  destruct (f x) eqn:E.
  - rewrite (H x E). simpl. lia.
  - destruct (g x); simpl; lia.
Qed.

Lemma count_by_status (f : Task -> bool) (l : list Task) :
  (countDocuments (fun t => f t && status_eqb (status t) TODO) l
   + countDocuments (fun t => f t && status_eqb (status t) IN_PROGRESS) l
   + countDocuments (fun t => f t && status_eqb (status t) DONE) l
   + countDocuments (fun t => f t && status_eqb (status t) BLOCKED) l)%nat
  = countDocuments f l.
Proof.
  unfold countDocuments. induction l as [|x r IH]; trivial.
  cbn [List.filter]. destruct (f x); cbn [andb]; [|exact IH].
  destruct (status x); cbn [status_eqb status_str String.eqb Ascii.eqb
    Bool.eqb andb List.length]; lia.
Qed.

Lemma count_by_priority (f : Task -> bool) (l : list Task) :
  (countDocuments (fun t => f t && priority_eqb (priority t) CRITICAL) l
   + countDocuments (fun t => f t && priority_eqb (priority t) HIGH) l
   + countDocuments (fun t => f t && priority_eqb (priority t) MEDIUM) l
   + countDocuments (fun t => f t && priority_eqb (priority t) LOW) l
   + countDocuments (fun t => f t && priority_eqb (priority t) LOWEST) l)%nat
  = countDocuments f l.
Proof.
  unfold countDocuments. induction l as [|x r IH]; trivial.
  cbn [List.filter]. destruct (f x); cbn [andb]; [|exact IH].
  destruct (priority x); cbn [priority_eqb priority_num Z.eqb Pos.eqb
    andb List.length]; lia.
Qed.

Section Stats.
Context {OL : ObjectIdLib} {TI : TextIndex} {DL : DateLib}.

(** X14: the statistics are consistent: the per-status counters and the
    per-priority counters each add up to [total]; overdue tasks are never
    done, so [overdue] plus the [done] counter stays within [total];
    [completed_today] stays within [total]; and each per-status counter is
    the size of the matching column of any board of the same scope. *)
Theorem stats_are_consistent teamId projectId now (coll : list Task)
    (st : TaskStats) :
  getTaskStats teamId projectId now coll = Ok st ->
  total st = (by_status st TODO + by_status st IN_PROGRESS
              + by_status st DONE + by_status st BLOCKED)%nat
  /\ total st = (by_priority st CRITICAL + by_priority st HIGH
                 + by_priority st MEDIUM + by_priority st LOW
                 + by_priority st LOWEST)%nat
  /\ (overdue st + by_status st DONE <= total st)%nat
  /\ (completed_today st <= total st)%nat
  /\ forall b, getKanbanBoard teamId projectId coll (Ok b) ->
       forall s, by_status st s = List.length (column s b).
Proof.
  unfold getTaskStats. destruct (bad_project projectId) eqn:Hbad;
    [discriminate|].
  intros [= <-]. cbn [total by_status by_priority overdue completed_today].
  rewrite !(counts_of_aggregate status_eqb status_eqb_eq).
  rewrite !(counts_of_aggregate priority_eqb priority_eqb_eq).
  split; [symmetry; apply count_by_status|].
  split; [symmetry; apply count_by_priority|].
  split; [|split; [apply count_le|]].
  - pose proof (count_split (stats_filter teamId projectId)
                  (fun t => status_eqb (status t) DONE) coll) as Hsplit.
    assert (Hle : (countDocuments
                     (fun t => stats_filter teamId projectId t
                               && is_overdue now t) coll
                   <= countDocuments
                        (fun t => stats_filter teamId projectId t
                                  && negb (status_eqb (status t) DONE))
                        coll)%nat).
    { apply count_mono. intros t. rewrite !andb_true_iff.
      unfold is_overdue. rewrite andb_true_iff. tauto. }
    lia.
  - intros b Hb s. unfold getKanbanBoard in Hb. rewrite Hbad in Hb.
    destruct Hb as (tasks & [Hp _] & [= ->]).
    rewrite (counts_of_aggregate status_eqb status_eqb_eq).
    rewrite column_board_of. unfold countDocuments.
    rewrite <- (Permutation_length (filter_perm (in_column s) _ _ Hp)).
    clear. unfold in_column.
    induction coll as [|x r IH]; simpl; trivial.
    change (kanban_filter teamId projectId x)
      with (stats_filter teamId projectId x).
    destruct (stats_filter teamId projectId x); simpl; trivial.
    destruct (status_eqb (status x) s); simpl; auto.
Qed.

End Stats.

Lemma count_updated {D} (doc_id : D -> string) (f : D -> bool)
    (id : string) (upd : D -> D) (l : list D) (t : D) :
  lookup doc_id id l = Some t ->
  (countDocuments f (snd (update_first doc_id id upd l))
   + (if f t then 1 else 0))%nat
  = (countDocuments f l + (if f (upd t) then 1 else 0))%nat.
Proof.
  unfold lookup, countDocuments. induction l as [|x r IH]; [discriminate|].
  simpl. destruct (String.eqb (doc_id x) id).
  - intros [= ->]. simpl. destruct (f t), (f (upd t)); simpl; lia.
  - intros H. specialize (IH H).
    destruct (update_first doc_id id upd r) as [o r']. simpl in *.
    destruct (f x); simpl; lia.
Qed.

Section StatsAfterRemove.
Context {OL : ObjectIdLib} {TI : TextIndex} {DL : DateLib}.

(** X15: removing a task takes exactly one unit off [total] and off the
    counter of its status in the statistics of its team (the statistics
    asked without a project). *)
Theorem remove_decrements_stats id teamId userId now projectId now0
    (s : Store Task) (t : Task) :
  unique_ids (docs s) ->
  findOne id teamId s = (Ok t, s) ->
  truthy_str projectId = false ->
  exists st st1,
    getTaskStats teamId projectId now0 (docs s) = Ok st
    /\ getTaskStats teamId projectId now0
         (docs (snd (remove id teamId userId now s))) = Ok st1
    /\ total st = S (total st1)
    /\ by_status st (status t) = S (by_status st1 (status t)).
Proof.
  intros Hu Hf Hteam.
  assert (Hbad : bad_project projectId = false)
    by (unfold bad_project; now rewrite Hteam).
  assert (Hp : project_matches projectId t = true)
    by (unfold project_matches; now rewrite Hteam).
  pose proof (findOne_lookup _ _ _ _ _ Hu Hf) as Hl.
  pose proof (findOne_found _ _ _ _ _ Hf) as (_ & _ & _ & _ & Ht & Hd).
  rewrite (remove_found _ _ _ _ _ _ Hf). simpl snd.
  unfold getTaskStats. rewrite Hbad.
  do 2 eexists. split; [reflexivity|]. split; [reflexivity|].
  cbn [total by_status].
  rewrite !(counts_of_aggregate status_eqb status_eqb_eq).
  assert (Hin : stats_filter teamId projectId t = true).
  { unfold stats_filter. rewrite Ht, String.eqb_refl, Hd, Hp. reflexivity. }
  split.
  - pose proof (count_updated _id (stats_filter teamId projectId)
                  (toHexString id) (remove_doc userId now) (docs s) t Hl)
      as H.
    rewrite Hin in H.
    replace (stats_filter teamId projectId (remove_doc userId now t))
      with false in H
      by (unfold stats_filter; simpl; now rewrite andb_false_r).
    simpl docs. lia.
  - pose proof (count_updated _id
                  (fun d => stats_filter teamId projectId d
                            && status_eqb (status d) (status t))
                  (toHexString id) (remove_doc userId now) (docs s) t Hl)
      as H.
    cbv beta in H. rewrite Hin, status_eqb_refl in H.
    replace (stats_filter teamId projectId (remove_doc userId now t))
      with false in H
      by (unfold stats_filter; simpl; now rewrite andb_false_r).
    simpl in H. simpl docs. lia.
Qed.

End StatsAfterRemove.

Lemma stats_are_consistent_witness :
  exists st,
    @getTaskStats Samples.hex_ids Samples.utc_days Samples.teamA None 5000
      (docs Samples.mixed_store) = Ok st
    /\ total st = 2%nat
    /\ total st = (by_status st TODO + by_status st IN_PROGRESS
                   + by_status st DONE + by_status st BLOCKED)%nat.
Proof.
  eexists. split; [reflexivity|]. split; [vm_compute; reflexivity|].
  apply (@stats_are_consistent Samples.hex_ids Samples.utc_days
           Samples.teamA None 5000 (docs Samples.mixed_store)).
  reflexivity.
Defined.

Lemma remove_decrements_stats_witness :
  exists st st1,
    @getTaskStats Samples.hex_ids Samples.utc_days Samples.teamA None 5000
      (docs Samples.mixed_store) = Ok st
    /\ @getTaskStats Samples.hex_ids Samples.utc_days Samples.teamA None 5000
         (docs (snd (@remove Samples.hex_ids Samples.id1 Samples.teamA
                       Samples.alice 2000 Samples.mixed_store))) = Ok st1
    /\ total st = S (total st1).
Proof.
  destruct (@remove_decrements_stats Samples.hex_ids Samples.utc_days
              Samples.id1 Samples.teamA Samples.alice 2000 None 5000
              Samples.mixed_store (Samples.created "A" Samples.id1 1000))
    as (st & st1 & H1 & H2 & H3 & _).
  - unfold unique_ids. vm_compute. repeat constructor; simpl.
    + intros [H|[]]. discriminate.
    + intros [].
  - vm_compute. reflexivity.
  - reflexivity.
  - exists st, st1. auto.
Defined.

(** ** Tasks: the label filter of a query *)

Lemma split_on_nonempty (c : ascii) (s : string) : split_on c s <> [].
Proof.
  destruct s as [|a r]; simpl; [discriminate|].
  destruct (Ascii.eqb a c); [discriminate|].
  destruct (split_on c r); discriminate.
Qed.

Lemma split_on_plain (n : string) :
  no_comma n = true -> split_on "," n = [n].
Proof.
  induction n as [|a r IH]; simpl; trivial.
  rewrite andb_true_iff, negb_true_iff. intros [Ha Hr].
  now rewrite Ha, (IH Hr).
Qed.

Lemma split_on_first (n rest : string) :
  no_comma n = true ->
  split_on "," (String.append n (String "," rest)) = n :: split_on "," rest.
Proof.
  induction n as [|a r IH]; simpl; trivial.
  rewrite andb_true_iff, negb_true_iff. intros [Ha Hr].
  now rewrite Ha, (IH Hr).
Qed.

Lemma trim_leading_space (s : string) : trim (String " " s) = trim s.
Proof. reflexivity. Qed.

Lemma split_on_after_space (s : string) :
  map trim (split_on "," (String " " s)) = map trim (split_on "," s).
Proof.
  cbn [split_on]. replace (Ascii.eqb " " ",") with false by reflexivity.
  destruct (split_on "," s) as [|h tl] eqn:E.
  - now apply split_on_nonempty in E.
  - cbn [map]. now rewrite trim_leading_space.
Qed.

Lemma comma_separated_parse (names : list string) :
  names <> [] -> Forall plain_label names ->
  map trim (split_on "," (comma_separated names)) = names.
Proof.
  induction names as [|n rest IH]; [congruence|]. intros _ Hall.
  inversion Hall as [|? ? (Hne & Hc & Ht) Hrest]; subst.
  destruct rest as [|m rest'].
  - simpl. rewrite (split_on_plain n Hc). simpl. now rewrite Ht.
  - change (comma_separated (n :: m :: rest'))
      with (String.append n
              (String "," (String " " (comma_separated (m :: rest'))))).
    rewrite (split_on_first _ _ Hc). cbn [map]. rewrite Ht.
    f_equal. rewrite split_on_after_space. apply IH; [discriminate|trivial].
Qed.

Lemma comma_separated_truthy (names : list string) :
  names <> [] -> Forall plain_label names ->
  truthy_str (Some (comma_separated names)) = true.
Proof.
  destruct names as [|n rest]; [congruence|]. intros _ Hall.
  inversion Hall as [|? ? (Hne & _) _]; subst.
  destruct n as [|a r]; [congruence|].
  destruct rest; reflexivity.
Qed.

Section LabelFilter.
Context {OL : ObjectIdLib} {TI : TextIndex}.

(** X16: a list of plain labels written with a comma and a space between
    them is parsed back into the same labels, and a query carrying it
    selects, among the tasks the rest of the query selects, exactly those
    that have at least one of the labels. *)
Theorem label_query_roundtrip (names : list string) :
  names <> [] -> Forall plain_label names ->
  map trim (split_on "," (comma_separated names)) = names
  /\ forall teamId ic idel (t : Task),
       findAll_filter teamId
         (TaskQueryDto.mk None None None None
            (Some (comma_separated names)) None ic idel) t
       = findAll_filter teamId (TaskQueryDto.flags ic idel) t
         && existsb (fun l => mem_str l (labels t)) names.
Proof.
  intros Hne Hall. split; [now apply comma_separated_parse|].
  intros teamId ic idel t. unfold findAll_filter, TaskQueryDto.flags.
  cbn [TaskQueryDto.project_id TaskQueryDto.status TaskQueryDto.assignee_id
       TaskQueryDto.priority TaskQueryDto.labels TaskQueryDto.search
       TaskQueryDto.include_completed TaskQueryDto.include_deleted].
  rewrite (comma_separated_truthy names Hne Hall).
  cbn [default]. rewrite (comma_separated_parse names Hne Hall).
  cbn [truthy_str project_matches]. now rewrite !andb_true_r.
Qed.

End LabelFilter.

Lemma label_query_roundtrip_witness :
  map trim (split_on "," (comma_separated ["bug"; "urgent"]))
  = ["bug"; "urgent"].
Proof.
  apply (@label_query_roundtrip Samples.hex_ids Samples.title_index
           ["bug"; "urgent"]).
  - discriminate.
  - repeat constructor; discriminate.
Defined.

(** ** Projects: names, listing and statistics *)

Section ProjectNames.
Context {OL : ObjectIdLib}.

Lemma project_findOne_found id teamId (s s' : Store Projects.Project)
    (p : Projects.Project) :
  Projects.findOne id teamId s = (Ok p, s') ->
  s' = s /\ isValid id = true /\ In p (docs s)
  /\ Projects._id p = toHexString id /\ Projects.team_id p = teamId
  /\ Projects.deleted_at p = None.
Proof.
  rewrite project_findOne_eq. destruct (isValid id); simpl; [|discriminate].
  destruct (List.find _ _) eqn:E; [|discriminate].
  intros [= -> <-]. apply find_some in E. destruct E as [Hin Hf].
  apply project_findOne_filter_true in Hf. tauto.
Qed.

(** X17: the services keep project names unique among the active projects
    of a team: [create], [update] with any patch and [remove] preserve it,
    and so does [restore] where the stored names are trimmed, as the schema
    leaves them; and every call keeps the stored names trimmed. *)
Theorem project_names_stay_unique (s : Store Projects.Project) :
  Projects.unique_ids (docs s) ->
  Projects.active_names_unique (docs s) ->
  (forall dto teamId userId oid now,
      Projects.active_names_unique
        (docs (snd (Projects.create dto teamId userId oid now s))))
  /\ (forall id dto teamId userId now,
         Projects.active_names_unique
           (docs (snd (Projects.update id dto teamId userId now s))))
  /\ (forall id teamId userId now,
         Projects.active_names_unique
           (docs (snd (Projects.remove id teamId userId now s))))
  /\ (forall id teamId userId now,
         Projects.names_trimmed (docs s) ->
         Projects.active_names_unique
           (docs (snd (Projects.restore id teamId userId now s))))
  /\ (forall op,
         Projects.names_trimmed (docs s) ->
         Projects.names_trimmed (docs (Projects.exec op s))).
Proof.
  intros Hu Hn. split; [|split; [|split; [|split]]].
  - intros dto teamId userId oid now. rewrite project_create_eq. cbv zeta.
    destruct (List.find _ _) eqn:E; trivial.
    destruct (negb (Projects.validate _)); trivial.
    destruct (_ || _); trivial. simpl snd. cbn [docs].
    set (p0 := Projects.timestamps_save _ _).
    assert (Hnew : forall q, In q (docs s) ->
              Projects.deleted_at q = None ->
              Projects.team_id q = Projects.team_id p0 ->
              Projects.name q = Projects.name p0 -> False).
    { intros q Hq Hd Ht Hnm. eapply find_none in E; [|exact Hq].
      assert (Projects.active_name_filter
                (Projects.CreateProjectDto.name dto) teamId q = true)
        by (apply active_name_filter_true; auto).
      congruence. }
    intros p q Hp Hq Hdp Hdq Ht Hnm.
    apply in_app_or in Hp. apply in_app_or in Hq.
    destruct Hp as [Hp|[<-|[]]], Hq as [Hq|[<-|[]]]; trivial.
    + now apply Hn.
    + exfalso. now apply (Hnew p).
    + exfalso. apply (Hnew q); auto.
  - intros id dto teamId userId now. rewrite project_update_eq.
    destruct (project_findOne_result id teamId s)
      as [(p0 & Hf & _)|[msg Hf]]; rewrite Hf; trivial.
    apply project_findOne_found in Hf.
    destruct Hf as (_ & _ & Hin0 & Hid0 & Ht0 & Hd0).
    pose proof (lookup_unique Projects._id _ _ Hu Hin0) as Hl0.
    rewrite Hid0 in Hl0.
    destruct (_ && _ && _) eqn:Echeck; trivial. rewrite Hl0.
    set (upd := Projects.update_doc dto now).
    destruct (negb (Projects.same_key p0 (upd p0))
              && duplicate_key Projects._id Projects.same_key (upd p0)
                   (docs s)) eqn:Eidx; trivial.
    simpl snd.
    assert (Hold : forall q,
              In q (docs (updated Projects._id (toHexString id) upd s)) ->
              (In q (docs s) /\ Projects._id q <> toHexString id)
              \/ q = upd p0).
    { intros q Hq. apply (updated_In Projects._id) in Hq; [|exact Hu].
      destruct Hq as [Hq|(d & Hd & ->)]; auto.
      right. congruence. }
    assert (Hclash : forall q, In q (docs s) ->
              Projects._id q <> toHexString id ->
              Projects.deleted_at q = None ->
              Projects.team_id q = Projects.team_id (upd p0) ->
              Projects.name q = Projects.name (upd p0) -> False).
    { intros q Hq Hqid Hqd Hqt Hqn.
      assert (Hk : Projects.same_key q (upd p0) = true)
        by now apply same_key_true.
      apply andb_false_iff in Eidx. destruct Eidx as [Esame|Edup].
      - apply negb_false_iff, same_key_true in Esame.
        destruct Esame as [S1 S2].
        apply Hqid. rewrite <- Hid0. f_equal.
        apply Hn; trivial; congruence.
      - rewrite (duplicate_key_false _ _ _ _ Edup q Hq) in Hk;
          [discriminate|].
        unfold upd. rewrite project_update_doc_id. congruence. }
    assert (Hdel : Projects.deleted_at (upd p0) = None).
    { unfold upd.
      destruct (project_update_doc_keeps dto now p0) as (_ & -> & _).
      exact Hd0. }
    intros p q Hp Hq Hdp Hdq Ht Hnm.
    destruct (Hold p Hp) as [[Hp' Hpid]| ->],
             (Hold q Hq) as [[Hq' Hqid]| ->]; trivial.
    + now apply Hn.
    + exfalso. now apply (Hclash p).
    + exfalso. apply (Hclash q); auto.
  - intros id teamId userId now. rewrite project_remove_eq.
    destruct (project_findOne_result id teamId s)
      as [(p0 & Hf & _)|[msg Hf]]; rewrite Hf; trivial.
    simpl snd. intros p q Hp Hq Hdp Hdq Ht Hnm.
    apply (updated_In Projects._id) in Hp; [|exact Hu].
    apply (updated_In Projects._id) in Hq; [|exact Hu].
    destruct Hp as [[Hp _]|(d & _ & ->)]; [|discriminate].
    destruct Hq as [[Hq _]|(d & _ & ->)]; [|discriminate].
    now apply Hn.
  - intros id teamId userId now Htrim. rewrite project_restore_eq.
    destruct (negb (isValid id)); trivial.
    destruct (List.find (Projects.restore_filter id teamId) (docs s))
      as [p0|] eqn:E0; trivial.
    destruct (List.find (Projects.active_name_filter _ _) (docs s))
      eqn:E1; trivial.
    simpl snd.
    apply find_some in E0. destruct E0 as [Hin0 Hf0].
    apply project_restore_filter_true in Hf0.
    destruct Hf0 as (Hid0 & Ht0 & Hd0).
    pose proof (lookup_unique Projects._id _ _ Hu Hin0) as Hl0.
    rewrite Hid0 in Hl0.
    assert (Hclash : forall q, In q (docs s) ->
              Projects.deleted_at q = None ->
              Projects.team_id q = Projects.team_id p0 ->
              Projects.name q = Projects.name p0 -> False).
    { intros q Hq Hqd Hqt Hqn. eapply find_none in E1; [|exact Hq].
      assert (Projects.active_name_filter (Projects.name p0) teamId q
              = true).
      { apply active_name_filter_true. rewrite (Htrim p0 Hin0).
        repeat split; congruence. }
      congruence. }
    intros p q Hp Hq Hdp Hdq Ht Hnm.
    apply (updated_In Projects._id) in Hp; [|exact Hu].
    apply (updated_In Projects._id) in Hq; [|exact Hu].
    destruct Hp as [[Hp _]|(d & Hd & ->)], Hq as [[Hq _]|(d' & Hd' & ->)].
    + now apply Hn.
    + exfalso. assert (d' = p0) by congruence. subst d'.
      now apply (Hclash p).
    + exfalso. assert (d = p0) by congruence. subst d.
      apply (Hclash q); auto.
    + congruence.
  - intros op Htrim.
    destruct (project_exec_shape op s)
      as [->|[(d & -> & _ & _ & Htd)
             |(id & upd & d & Hl & -> & _ & _ & Htd)]]; trivial.
    + intros p Hp. apply in_app_or in Hp.
      destruct Hp as [Hp|[<-|[]]]; auto.
    + intros p Hp. apply (project_updated_In _ _ _ _ Hu) in Hp.
      destruct Hp as [[Hp _]|(d1 & Hl1 & ->)]; auto.
      assert (d1 = d) by congruence. subst d1.
      apply Htd, Htrim. now apply lookup_In in Hl.
Qed.

End ProjectNames.

Section ProjectLifecycle.
Context {OL : ObjectIdLib}.

Lemma trim_empty : trim EmptyString = EmptyString.
Proof. reflexivity. Qed.

Lemma no_active_namesake nm teamId (l : list Projects.Project) :
  (forall q, In q l -> Projects.team_id q = teamId ->
             Projects.name q = trim nm -> Projects.deleted_at q <> None) ->
  List.find (Projects.active_name_filter nm teamId) l = None.
Proof.
  intros H. destruct (List.find _ l) as [q|] eqn:E; trivial.
  exfalso. apply find_some in E. destruct E as [Hq Hf].
  apply active_name_filter_true in Hf. destruct Hf as (Hn & Ht & Hd).
  now apply (H q).
Qed.

(** X18: what [create] answers.  It is rejected with [Conflict], writing
    nothing, when an active project of the team carries the trimmed name.
    Otherwise the validators of the schema decide first, and then the
    unique index on team and name: where a soft-deleted project of the team
    carries the trimmed name the store refuses the document with a
    duplicate key; where no project of the team carries it and the id is
    fresh, the project is stored under the trimmed name, active, and
    [findOne] returns it at once under every spelling of its id. *)
Theorem project_create_outcome dto teamId userId oid now
    (s : Store Projects.Project) :
  ((exists q, In q (docs s)
              /\ Projects.name q = trim (Projects.CreateProjectDto.name dto)
              /\ Projects.team_id q = teamId
              /\ Projects.deleted_at q = None) ->
   exists msg,
     Projects.create dto teamId userId oid now s
     = (Throw (ConflictException msg), s))
  /\ ((forall q, In q (docs s) -> Projects.team_id q = teamId ->
         Projects.name q = trim (Projects.CreateProjectDto.name dto) ->
         Projects.deleted_at q <> None) ->
      (Projects.validate (Projects.new_project dto teamId userId oid)
       = false ->
       Projects.create dto teamId userId oid now s
       = (Throw ValidationError, s))
      /\ (Projects.validate (Projects.new_project dto teamId userId oid)
          = true ->
          (exists d, In d (docs s) /\ Projects.team_id d = teamId
                     /\ Projects.name d
                        = trim (Projects.CreateProjectDto.name dto)
                     /\ Projects._id d <> oid) ->
          Projects.create dto teamId userId oid now s
          = (Throw MongoServerError, mkStore (docs s) (S (writes s))))
      /\ (Projects.validate (Projects.new_project dto teamId userId oid)
          = true ->
          (forall q, In q (docs s) -> Projects.team_id q = teamId ->
             Projects.name q
             <> trim (Projects.CreateProjectDto.name dto)) ->
          (forall q, In q (docs s) -> Projects._id q <> oid) ->
          exists p s',
            Projects.create dto teamId userId oid now s = (Ok p, s')
            /\ docs s' = docs s ++ [p]
            /\ Projects.name p = trim (Projects.CreateProjectDto.name dto)
            /\ Projects.team_id p = teamId
            /\ Projects.deleted_at p = None
            /\ (forall id, isValid id = true -> toHexString id = oid ->
                  Projects.findOne id teamId s' = (Ok p, s')))).
Proof.
  rewrite project_create_eq. cbv zeta. split.
  - intros (q & Hq & Hn & Ht & Hd).
    destruct (List.find _ _) eqn:E; [eauto|].
    eapply find_none in E; [|exact Hq].
    assert (Projects.active_name_filter
              (Projects.CreateProjectDto.name dto) teamId q = true)
      by (apply active_name_filter_true; auto).
    congruence.
  - intros Hfree. rewrite (no_active_namesake _ _ _ Hfree).
    split; [|split].
    + now intros ->.
    + intros -> (d & Hd & Hdt & Hdn & Hdi). cbn [negb].
      rewrite (duplicate_key_true Projects._id Projects.same_key _ d);
        trivial.
      apply same_key_true. simpl. auto.
    + intros -> Hname Hfresh. cbn [negb].
      destruct (duplicate_key _ _ _ _) eqn:Ed.
      { exfalso. unfold duplicate_key in Ed.
        apply existsb_exists in Ed. destruct Ed as (q & Hq & Hk).
        apply andb_true_iff in Hk. destruct Hk as [_ Hk].
        apply same_key_true in Hk. simpl in Hk. destruct Hk as [K1 K2].
        now apply (Hname q). }
      destruct (existsb _ _) eqn:Ex.
      { exfalso. apply existsb_exists in Ex. destruct Ex as (q & Hq & Hid).
        apply String.eqb_eq in Hid. now apply (Hfresh q). }
      cbn [orb]. do 2 eexists. split; [reflexivity|].
      cbn [docs]. repeat split.
      intros id Hv Hid. rewrite project_findOne_eq, Hv. cbn [negb docs].
      rewrite find_app_none.
      * simpl. unfold Projects.findOne_filter. simpl.
        now rewrite Hid, !String.eqb_refl.
      * destruct (List.find (Projects.findOne_filter id teamId) (docs s))
          as [q|] eqn:Ef; trivial.
        apply find_some in Ef. destruct Ef as [Hq Hf].
        apply project_findOne_filter_true in Hf. destruct Hf as (Hqid & _).
        exfalso. apply (Hfresh q Hq). congruence.
Qed.

(** X19: soft-deleting a project does not free its name: once an active
    project is removed, asking for a new project of the team under the
    same name, with a valid document, ends in a duplicate key of the
    unique index, and the collection stays as the removal left it. *)
Theorem removed_name_stays_taken id dto teamId userId now userId' oid now'
    (s : Store Projects.Project) (p : Projects.Project) :
  Projects.unique_ids (docs s) ->
  Projects.active_names_unique (docs s) ->
  Projects.findOne id teamId s = (Ok p, s) ->
  trim (Projects.CreateProjectDto.name dto) = Projects.name p ->
  Projects._id p <> oid ->
  Projects.validate (Projects.new_project dto teamId userId' oid) = true ->
  fst (Projects.create dto teamId userId' oid now'
         (snd (Projects.remove id teamId userId now s)))
  = Throw MongoServerError
  /\ docs (snd (Projects.create dto teamId userId' oid now'
                  (snd (Projects.remove id teamId userId now s))))
     = docs (snd (Projects.remove id teamId userId now s))
  /\ lookup Projects._id (toHexString id)
       (docs (snd (Projects.remove id teamId userId now s)))
     = Some (Projects.remove_doc now p).
Proof.
  intros Hu Hn Hf Hname Hne Hv.
  pose proof (project_findOne_found _ _ _ _ _ Hf)
    as (_ & _ & Hin & Hid & Ht & Hd).
  pose proof (lookup_unique Projects._id _ _ Hu Hin) as Hl.
  rewrite Hid in Hl.
  rewrite project_remove_eq, Hf. simpl snd.
  set (s1 := updated Projects._id (toHexString id)
               (Projects.remove_doc now) s).
  assert (Hl1 : lookup Projects._id (toHexString id) (docs s1)
                = Some (Projects.remove_doc now p)).
  { unfold s1. rewrite lookup_in_updated by reflexivity.
    now rewrite String.eqb_refl, Hl. }
  rewrite project_create_eq. cbv zeta.
  rewrite no_active_namesake.
  - rewrite Hv. cbn [negb].
    rewrite (duplicate_key_true Projects._id Projects.same_key _
               (Projects.remove_doc now p)).
    + cbn [orb fst snd docs]. auto.
    + now apply lookup_In in Hl1.
    + simpl. congruence.
    + apply same_key_true. simpl. split; congruence.
  - intros q Hq Hqt Hqn Hqd. unfold s1 in Hq.
    apply (updated_In Projects._id) in Hq; [|exact Hu].
    destruct Hq as [[Hq Hqid]|(d & _ & ->)]; [|discriminate].
    apply Hqid. rewrite <- Hid. f_equal. apply Hn; auto; congruence.
Qed.

(** X20: [restore] after [remove] gives a project back as it was, except
    for [updatedAt], provided names are unique among active projects and
    the name of the project is stored trimmed, as the schema leaves it. *)
Theorem project_remove_restore_roundtrip id teamId userId now userId' now'
    (s : Store Projects.Project) (p : Projects.Project) :
  Projects.unique_ids (docs s) ->
  Projects.active_names_unique (docs s) ->
  Projects.findOne id teamId s = (Ok p, s) ->
  trim (Projects.name p) = Projects.name p ->
  fst (Projects.restore id teamId userId' now'
         (snd (Projects.remove id teamId userId now s)))
  = Ok (Projects.set_updatedAt (Some now') p).
Proof.
  intros Hu Hn Hf Htrim.
  pose proof (project_findOne_found _ _ _ _ _ Hf)
    as (_ & Hv & Hin & Hid & Ht & Hd).
  pose proof (lookup_unique Projects._id _ _ Hu Hin) as Hl.
  rewrite Hid in Hl.
  rewrite project_remove_eq, Hf. simpl snd.
  set (s1 := updated Projects._id (toHexString id)
               (Projects.remove_doc now) s).
  assert (Hu1 : Projects.unique_ids (docs s1)).
  { unfold Projects.unique_ids, s1, updated. simpl.
    now rewrite update_first_ids. }
  assert (Hl1 : lookup Projects._id (toHexString id) (docs s1)
                = Some (Projects.remove_doc now p)).
  { unfold s1. rewrite lookup_in_updated by reflexivity.
    now rewrite String.eqb_refl, Hl. }
  rewrite project_restore_eq, Hv. cbn [negb].
  rewrite (find_by_unique_id Projects._id _ _ (Projects.remove_doc now p)
             Hu1);
    [| now apply lookup_In in Hl1
     | apply project_restore_filter_true; repeat split; auto; discriminate
     | intros x Hx; apply project_restore_filter_true in Hx;
       destruct Hx as (Hx & _); simpl; congruence ].
  rewrite no_active_namesake.
  - rewrite Hl1. simpl fst. f_equal.
    destruct p. simpl in Hd. subst. reflexivity.
  - intros q Hq Hqt Hqn Hqd. unfold s1 in Hq.
    apply (updated_In Projects._id) in Hq; [|exact Hu].
    destruct Hq as [[Hq Hqid]|(d & _ & ->)]; [|discriminate].
    simpl in Hqn. rewrite Htrim in Hqn.
    apply Hqid. rewrite <- Hid. f_equal. apply Hn; auto; congruence.
Qed.

(** X21: a patch whose name is the empty string bypasses the conflict
    check of [update], which then never answers [Conflict], and no
    validator runs on the patch.  The unique index decides: where no other
    project of the team carries the empty name the project is renamed to
    it; where one does, the store refuses the update with a duplicate key
    and the collection is unchanged. *)
Theorem empty_rename_skips_check id dto teamId userId now
    (s : Store Projects.Project) (p : Projects.Project) :
  Projects.unique_ids (docs s) ->
  Projects.findOne id teamId s = (Ok p, s) ->
  Projects.UpdateProjectDto.name dto = Some EmptyString ->
  is_Conflict (fst (Projects.update id dto teamId userId now s)) = false
  /\ ((forall x, In x (docs s) -> Projects.team_id x = teamId ->
         Projects.name x = EmptyString -> Projects._id x = Projects._id p) ->
      exists p',
        fst (Projects.update id dto teamId userId now s) = Ok p'
        /\ Projects.name p' = EmptyString
        /\ Projects.deleted_at p' = None
        /\ lookup Projects._id (toHexString id)
             (docs (snd (Projects.update id dto teamId userId now s)))
           = Some p')
  /\ (forall x, In x (docs s) -> Projects.team_id x = teamId ->
        Projects.name x = EmptyString -> Projects._id x <> Projects._id p ->
        Projects.name p <> EmptyString ->
        fst (Projects.update id dto teamId userId now s)
        = Throw MongoServerError
        /\ docs (snd (Projects.update id dto teamId userId now s))
           = docs s).
Proof.
  intros Hu Hf Hdto.
  pose proof (project_findOne_found _ _ _ _ _ Hf)
    as (_ & _ & Hin & Hid & Ht & Hd).
  pose proof (lookup_unique Projects._id _ _ Hu Hin) as Hl.
  rewrite Hid in Hl.
  rewrite project_update_eq, Hf, Hdto.
  cbn [truthy_str String.eqb negb andb]. rewrite Hl.
  assert (Hname : Projects.name (Projects.update_doc dto now p)
                  = EmptyString).
  { now rewrite project_update_doc_name, Hdto. }
  assert (Hteam : Projects.team_id (Projects.update_doc dto now p) = teamId).
  { destruct (project_update_doc_keeps dto now p) as (-> & _). exact Ht. }
  split; [|split].
  - now destruct (_ && _).
  - intros Hfree.
    assert (Ego : negb (Projects.same_key p (Projects.update_doc dto now p))
                  && duplicate_key Projects._id Projects.same_key
                       (Projects.update_doc dto now p) (docs s) = false).
    { destruct (duplicate_key _ _ _ _) eqn:Ed; [|apply andb_false_r].
      exfalso. unfold duplicate_key in Ed.
      apply existsb_exists in Ed. destruct Ed as (x & Hx & Hk).
      apply andb_true_iff in Hk. destruct Hk as [Hxid Hk].
      apply negb_true_iff, String.eqb_neq in Hxid.
      apply same_key_true in Hk. destruct Hk as [K1 K2].
      apply Hxid. rewrite project_update_doc_id.
      apply Hfree; trivial; congruence. }
    rewrite Ego. exists (Projects.update_doc dto now p).
    cbn [fst snd]. split; trivial. split; trivial. split.
    + destruct (project_update_doc_keeps dto now p) as (_ & -> & _).
      exact Hd.
    + rewrite lookup_in_updated by (intros; apply project_update_doc_id).
      now rewrite String.eqb_refl, Hl.
  - intros x Hx Hxt Hxn Hxid Hpn.
    assert (Ek : Projects.same_key p (Projects.update_doc dto now p)
                 = false).
    { destruct (Projects.same_key _ _) eqn:E; trivial.
      apply same_key_true in E. destruct E as [_ E]. congruence. }
    rewrite Ek. cbn [negb andb].
    rewrite (duplicate_key_true Projects._id Projects.same_key _ x);
      cbn [fst snd docs]; auto.
    + rewrite project_update_doc_id. exact Hxid.
    + apply same_key_true. split; congruence.
Qed.

End ProjectLifecycle.

Lemma project_count_split (f g : Projects.Project -> bool)
    (l : list Projects.Project) :
  (countDocuments (fun t => f t && g t) l
   + countDocuments (fun t => f t && negb (g t)) l)%nat
  = countDocuments f l.
Proof.
  unfold countDocuments. induction l as [|x r IH]; simpl; trivial.
  destruct (f x), (g x); simpl; lia.
Qed.

(** X22: the team statistics add up, and they count what the listing
    shows: [total_projects] is the sum of [active_projects] and
    [deleted_projects]; the default listing has [active_projects] entries
    and the listing that includes deleted projects has [total_projects]. *)
Theorem team_stats_match_listing teamId (coll : list Projects.Project) :
  Projects.total_projects (Projects.getTeamStats teamId coll)
  = (Projects.active_projects (Projects.getTeamStats teamId coll)
     + Projects.deleted_projects (Projects.getTeamStats teamId coll))%nat
  /\ (forall r, Projects.findAll teamId false coll r ->
        List.length r
        = Projects.active_projects (Projects.getTeamStats teamId coll))
  /\ (forall r, Projects.findAll teamId true coll r ->
        List.length r
        = Projects.total_projects (Projects.getTeamStats teamId coll)).
Proof.
  unfold Projects.getTeamStats. simpl. split; [|split].
  - symmetry. apply project_count_split.
  - intros r [Hp _]. rewrite <- (Permutation_length Hp). reflexivity.
  - intros r [Hp _]. rewrite <- (Permutation_length Hp).
    unfold countDocuments. f_equal. apply filter_ext.
    intros p. unfold Projects.findAll_filter. simpl.
    now rewrite andb_true_r.
Qed.

Lemma one_project_facts :
  Projects.unique_ids (docs Samples.one_project)
  /\ Projects.active_names_unique (docs Samples.one_project)
  /\ @Projects.findOne Samples.hex_ids Samples.id1 Samples.teamA
       Samples.one_project = (Ok Samples.projX, Samples.one_project).
Proof.
  split; [|split].
  - unfold Projects.unique_ids. simpl. repeat constructor. intros [].
  - intros p q [<-|[]] [<-|[]] _ _ _ _. reflexivity.
  - vm_compute. reflexivity.
Qed.

Lemma project_names_stay_unique_witness :
  Projects.active_names_unique
    (docs (snd (Projects.create (Samples.project_dto "Y") Samples.teamA
                  Samples.bob Samples.id2 2000 Samples.one_project))).
Proof.
  destruct one_project_facts as (Hu & Hn & _).
  destruct (@project_names_stay_unique Samples.hex_ids Samples.one_project
              Hu Hn) as [Hc _].
  apply Hc.
Defined.

Lemma project_create_outcome_witness :
  exists msg,
    Projects.create (Samples.project_dto " X ") Samples.teamA Samples.bob
      Samples.id2 2000 Samples.one_project
    = (Throw (ConflictException msg), Samples.one_project).
Proof.
  destruct (@project_create_outcome Samples.hex_ids
              (Samples.project_dto " X ") Samples.teamA Samples.bob
              Samples.id2 2000 Samples.one_project) as [Hconflict _].
  apply Hconflict. exists Samples.projX. simpl. auto.
Defined.

Lemma removed_name_stays_taken_witness :
  fst (Projects.create (Samples.project_dto "X") Samples.teamA Samples.bob
         Samples.id2 3000
         (snd (@Projects.remove Samples.hex_ids Samples.id1 Samples.teamA
                 Samples.alice 2000 Samples.one_project)))
  = Throw MongoServerError.
Proof.
  destruct one_project_facts as (Hu & Hn & Hf).
  apply (@removed_name_stays_taken Samples.hex_ids Samples.id1
           (Samples.project_dto "X") Samples.teamA Samples.alice 2000
           Samples.bob Samples.id2 3000 Samples.one_project Samples.projX);
    trivial.
  discriminate.
Defined.

Lemma project_remove_restore_roundtrip_witness :
  fst (@Projects.restore Samples.hex_ids Samples.id1 Samples.teamA
         Samples.bob 3000
         (snd (@Projects.remove Samples.hex_ids Samples.id1 Samples.teamA
                 Samples.alice 2000 Samples.one_project)))
  = Ok (Projects.set_updatedAt (Some 3000) Samples.projX).
Proof.
  destruct one_project_facts as (Hu & Hn & Hf).
  now apply (@project_remove_restore_roundtrip Samples.hex_ids).
Defined.

Lemma empty_rename_skips_check_witness :
  exists p',
    fst (@Projects.update Samples.hex_ids Samples.ID1
           (Samples.rename_to EmptyString) Samples.teamA Samples.alice 2000
           Samples.one_project) = Ok p'
    /\ Projects.name p' = EmptyString.
Proof.
  destruct one_project_facts as (Hu & _ & _).
  destruct (@empty_rename_skips_check Samples.hex_ids Samples.ID1
              (Samples.rename_to EmptyString) Samples.teamA Samples.alice
              2000 Samples.one_project Samples.projX Hu eq_refl eq_refl)
    as (_ & Hgo & _).
  destruct Hgo as (p' & Hr & Hn & _).
  - intros x [<-|[]] _ _. reflexivity.
  - exists p'. auto.
Defined.

Lemma team_stats_match_listing_witness :
  exists r,
    Projects.findAll Samples.teamA false (docs Samples.one_project) r
    /\ List.length r = 1%nat.
Proof.
  assert (H : Projects.findAll Samples.teamA false
                (docs Samples.one_project)
                (Projects.findAll_run Samples.teamA false
                   (docs Samples.one_project))).
  { vm_compute. split; [apply Permutation_refl|repeat constructor]. }
  eexists. split; [exact H|].
  destruct (team_stats_match_listing Samples.teamA
              (docs Samples.one_project)) as (_ & Hactive & _).
  rewrite (Hactive _ H). vm_compute. reflexivity.
Defined.

Lemma created_desc_leb_total (a b : Projects.Project) :
  Projects.created_desc_leb a b = true \/ Projects.created_desc_leb b a = true.
Proof. now left. Qed.

Lemma created_desc_leb_trans (a b c : Projects.Project) :
  Projects.created_desc_leb a b = true ->
  Projects.created_desc_leb b c = true ->
  Projects.created_desc_leb a c = true.
Proof. reflexivity. Qed.

(** The listing of projects always produces an answer. *)
Lemma project_findAll_run_ok teamId includeDeleted
    (coll : list Projects.Project) :
  Projects.findAll teamId includeDeleted coll
    (Projects.findAll_run teamId includeDeleted coll).
Proof.
  apply find_sort_run_ok. intros leb [= <-]. split.
  - apply created_desc_leb_total.
  - apply created_desc_leb_trans.
Qed.

(** ** The schema method [addHistoryEntry] *)

(** X23: [addHistoryEntry] always leaves a history of at most 100 entries,
    whatever the length it starts from: the new entry comes last, and the
    result is the longest suffix of the extended history that fits, so only
    the oldest entries are dropped. *)
Theorem addHistoryEntry_keeps_latest act userId chg now (t : Task) :
  let e := mkEntry act userId now chg in
  let h' := history (addHistoryEntry act userId chg now t) in
  List.length h' = Nat.min 100 (S (List.length (history t)))
  /\ (exists kept, h' = kept ++ [e])
  /\ exists dropped,
       history t ++ [e] = dropped ++ h'
       /\ List.length dropped = (S (List.length (history t)) - 100)%nat.
Proof.
  cbv zeta. unfold addHistoryEntry.
  set (e := mkEntry act userId now chg).
  assert (Hlen : List.length (history t ++ [e])
                 = S (List.length (history t)))
    by (rewrite length_app; simpl; lia).
  rewrite Hlen.
  destruct (Nat.ltb 100 (S (List.length (history t)))) eqn:E;
    unfold set_history; cbn [history].
  - apply Nat.ltb_lt in E. split; [|split].
    + rewrite length_skipn, Hlen. lia.
    + exists (skipn (S (List.length (history t)) - 100) (history t)).
      rewrite skipn_app.
      replace (S (List.length (history t)) - 100
               - List.length (history t))%nat with 0%nat by lia.
      reflexivity.
    + exists (firstn (S (List.length (history t)) - 100) (history t ++ [e])).
      split; [now rewrite firstn_skipn|].
      rewrite length_firstn, Hlen. lia.
  - apply Nat.ltb_ge in E. split; [|split].
    + rewrite Hlen. lia.
    + now exists (history t).
    + exists []. split; trivial. cbn [List.length]. lia.
Qed.

(** ** The authentication guard *)

Lemma split_on_lacking (c : ascii) (n : string) :
  lacks c n = true -> split_on c n = [n].
Proof.
  induction n as [|a r IH]; simpl; trivial.
  rewrite andb_true_iff, negb_true_iff. intros [Ha Hr].
  now rewrite Ha, (IH Hr).
Qed.

Lemma split_on_head (c : ascii) (n rest : string) :
  lacks c n = true ->
  split_on c (String.append n (String c rest)) = n :: split_on c rest.
Proof.
  induction n as [|a r IH]; simpl.
  - now rewrite Ascii.eqb_refl.
  - rewrite andb_true_iff, negb_true_iff. intros [Ha Hr].
    now rewrite Ha, (IH Hr).
Qed.

(** What a first segment says about the string that was split. *)
Lemma split_on_inv (c : ascii) (s h : string) (tl : list string) :
  split_on c s = h :: tl ->
  (tl = [] /\ s = h)
  \/ exists rest, s = String.append h (String c rest)
                  /\ split_on c rest = tl.
Proof.
  revert h tl. induction s as [|a r IH]; simpl; intros h tl.
  - intros [= <- <-]. now left.
  - destruct (Ascii.eqb a c) eqn:E.
    + apply Ascii.eqb_eq in E. subst a. intros [= <- <-].
      right. exists r. split; reflexivity.
    + destruct (split_on c r) as [|h0 tl0] eqn:Er.
      * now apply split_on_nonempty in Er.
      * intros [= <- <-].
        destruct (IH h0 tl0 eq_refl) as [[-> ->]|(rest & -> & Hrest)].
        -- now left.
        -- right. exists rest. split; trivial.
Qed.

Lemma string_append_empty (s : string) : String.append s EmptyString = s.
Proof. induction s as [|a r IH]; simpl; congruence. Qed.

(** X24: the guard takes a token from the [authorization] header exactly
    when the header is the scheme [Bearer], one space, and a token without
    a space, possibly followed by a space and more text that is ignored:
    every header of that shape yields its token, and only such a header
    yields one. *)
Theorem bearer_token_extraction :
  (forall token rest, lacks " " token = true ->
     rest = EmptyString \/ (exists more, rest = String " " more) ->
     Auth.extractTokenFromHeader
       (Some (String.append "Bearer " (String.append token rest)))
     = Some token)
  /\ (forall header token,
        Auth.extractTokenFromHeader (Some header) = Some token ->
        lacks " " token = true
        /\ exists rest,
             header = String.append "Bearer " (String.append token rest)
             /\ (rest = EmptyString
                 \/ exists more, rest = String " " more))
  /\ Auth.extractTokenFromHeader None = None.
Proof.
  split; [|split; [|reflexivity]].
  - intros token rest Hl Hrest. unfold Auth.extractTokenFromHeader.
    change (String.append "Bearer " (String.append token rest))
      with (String.append "Bearer"
              (String " " (String.append token rest))).
    assert (Hne : truthy_str
                    (Some (String.append "Bearer"
                             (String " " (String.append token rest))))
                  = true) by reflexivity.
    rewrite Hne. cbn [negb Tasks.default].
    rewrite split_on_head by reflexivity.
    destruct Hrest as [->|[more ->]].
    + rewrite string_append_empty, (split_on_lacking " " token Hl).
      reflexivity.
    + rewrite (split_on_head " " token more Hl). reflexivity.
  - intros header token. unfold Auth.extractTokenFromHeader.
    destruct (negb (truthy_str (Some header))); [discriminate|].
    cbn [Tasks.default].
    destruct (split_on " " header) as [|type rest] eqn:E; [discriminate|].
    destruct (String.eqb type "Bearer") eqn:Et; [|discriminate].
    apply String.eqb_eq in Et. subst type.
    destruct rest as [|tok tl]; [discriminate|]. intros [= ->].
    apply split_on_inv in E.
    destruct E as [[E _]|(r1 & -> & E1)]; [discriminate|].
    assert (Hl : forall r tk tl0,
               split_on " " r = tk :: tl0 -> lacks " " tk = true).
    { clear. induction r as [|a r IH]; simpl; intros tk tl0.
      - now intros [= <- <-].
      - destruct (Ascii.eqb a " ") eqn:Ea.
        + now intros [= <- <-].
        + destruct (split_on " " r) as [|h0 tl1] eqn:Er.
          * now intros [= <- <-]; simpl; rewrite Ea.
          * intros [= <- <-]. simpl. rewrite Ea. simpl.
            now apply (IH h0 tl1). }
    split; [exact (Hl _ _ _ E1)|].
    apply split_on_inv in E1.
    destruct E1 as [[_ E1]|(r2 & E1 & _)]; subst r1.
    + exists EmptyString. split; [|now left].
      now rewrite string_append_empty.
    + exists (String " " r2). split; [reflexivity|]. right. eauto.
Qed.

Section GuardFacts.
Context {JL : Auth.JwtLib}.

(** X25: a public route is always let through and gets no user.  A guarded
    route is let through only with a non-empty bearer token that the
    verifier accepts; the user attached to the request then takes its id
    from [sub] and its team from [teamId], or from [sub] when the token has
    no team, so the team scope is never empty when [sub] is not.  Without a
    bearer token the request is refused. *)
Theorem guard_admits_verified_tokens_only authorization secret :
  Auth.canActivate true authorization secret = Auth.Activated None
  /\ (forall user,
        Auth.canActivate false authorization secret = Auth.Activated user ->
        exists token payload,
          Auth.extractTokenFromHeader authorization = Some token
          /\ token <> EmptyString
          /\ Auth.verifyAsync token secret = Auth.Verified payload
          /\ user = Some (Auth.mkUser (Auth.sub payload) (Auth.email payload)
                            (Auth.role payload) (Auth.team_scope payload)
                            (Auth.exp payload) (Auth.iat payload))
          /\ (truthy_str (Auth.sub payload) = true ->
              truthy_str (Auth.team_scope payload) = true))
  /\ (truthy_str (Auth.extractTokenFromHeader authorization) = false ->
      Auth.canActivate false authorization secret
      = Auth.Unauthorized "Access token is required").
Proof.
  split; [reflexivity|]. split.
  - intros user. unfold Auth.canActivate.
    destruct (Auth.extractTokenFromHeader authorization) as [token|] eqn:E;
      [|discriminate].
    cbn [truthy_str Tasks.default].
    destruct (String.eqb token EmptyString) eqn:E0; [discriminate|].
    cbn [negb].
    destruct (Auth.verifyAsync token secret) as [payload|name] eqn:Ev.
    + intros [= <-]. exists token, payload. repeat split; trivial.
      * intros ->. discriminate.
      * intros Hs. unfold Auth.team_scope.
        now destruct (truthy_str (Auth.teamId payload)) eqn:Et.
    + destruct (String.eqb name "TokenExpiredError"); [discriminate|].
      destruct (String.eqb name "JsonWebTokenError"); discriminate.
  - intros E. unfold Auth.canActivate. now rewrite E.
Qed.

End GuardFacts.

Lemma bearer_token_extraction_witness :
  Auth.extractTokenFromHeader (Some "Bearer a b") = Some "a".
Proof.
  destruct bearer_token_extraction as [H _].
  apply (H "a" " b"); [reflexivity|right; now exists "b"].
Defined.

Lemma guard_admits_verified_tokens_only_witness :
  exists token payload,
    Auth.extractTokenFromHeader (Some "Bearer good") = Some token
    /\ @Auth.verifyAsync one_token token None = Auth.Verified payload.
Proof.
  destruct (@guard_admits_verified_tokens_only one_token
              (Some "Bearer good") None) as (_ & H & _).
  destruct (H _ eq_refl) as (token & payload & He & _ & Hv & _).
  exists token, payload. auto.
Defined.

(** ** Tasks: moving a card *)

Lemma sorted_suffix {D} (leb : D -> D -> bool) (l1 l2 : list D) :
  sorted_by leb (l1 ++ l2) -> sorted_by leb l2.
Proof.
  unfold sorted_by. induction l1 as [|x r IH]; simpl; trivial.
  intros H. inversion H; subst. auto.
Qed.

Lemma earlier_position_comes_first (l : list Task) (a b : Task) :
  sorted_by position_leb l -> In a l -> In b l ->
  (position a < position b)%Q ->
  exists l1 l2 l3, l = l1 ++ a :: l2 ++ b :: l3.
Proof.
  intros Hs Ha Hb Hlt.
  destruct (in_split _ _ Hb) as (m1 & m2 & ->).
  apply in_app_or in Ha. destruct Ha as [Ha|[->|Ha]].
  - destruct (in_split _ _ Ha) as (l1 & l2 & ->).
    exists l1, l2, m2. now rewrite <- app_assoc.
  - exfalso. now apply (Qlt_irrefl (position a)).
  - exfalso. apply sorted_suffix in Hs. unfold sorted_by in Hs.
    inversion Hs as [|? ? _ Hall]; subst.
    rewrite Forall_forall in Hall. specialize (Hall a Ha).
    unfold position_leb in Hall. apply Qle_bool_iff in Hall.
    apply (Qlt_irrefl (position a)). eapply Qlt_le_trans; eauto.
Qed.

Section Moving.
Context {OL : ObjectIdLib} {TI : TextIndex}.

(** X26: after [updatePosition] the board shows the task in the column of
    its status at the new position: it is listed before every task of that
    column whose position is greater, and after every one whose position is
    smaller. *)
Theorem moved_task_is_reordered id p teamId userId now
    (s : Store Task) (t : Task) (b : Board) :
  unique_ids (docs s) ->
  findOne id teamId s = (Ok t, s) ->
  getKanbanBoard teamId None
    (docs (snd (updatePosition id p teamId userId now s))) (Ok b) ->
  let t' := position_doc p now t in
  In t' (column (status t) b)
  /\ (forall x, In x (column (status t) b) -> (p < position x)%Q ->
        exists l1 l2 l3, column (status t) b = l1 ++ t' :: l2 ++ x :: l3)
  /\ (forall x, In x (column (status t) b) -> (position x < p)%Q ->
        exists l1 l2 l3, column (status t) b = l1 ++ x :: l2 ++ t' :: l3).
Proof.
  intros Hu Hf Hb t'.
  pose proof (findOne_lookup _ _ _ _ _ Hu Hf) as Hl.
  pose proof (findOne_found _ _ _ _ _ Hf) as (_ & _ & _ & _ & Ht & Hd).
  rewrite (updatePosition_found _ _ _ _ _ _ _ Hu Hf) in Hb. simpl snd in Hb.
  assert (Hin : In t' (column (status t) b)).
  { apply (board_column_In _ _ _ _ _ _ Hb).
    repeat split; trivial.
    assert (Hl1 : lookup _id (toHexString id) (docs (updated _id (toHexString id) (position_doc p now) s))
                  = Some t').
    { rewrite lookup_updated by reflexivity.
      now rewrite String.eqb_refl, Hl. }
    now apply lookup_In in Hl1. }
  assert (Hs : sorted_by position_leb (column (status t) b)).
  { apply (board_column_sorted _ _ _ _ _ Hb). }
  split; trivial. split.
  - intros x Hx Hlt. now apply earlier_position_comes_first.
  - intros x Hx Hlt. now apply earlier_position_comes_first.
Qed.

End Moving.

Lemma moved_task_is_reordered_witness :
  exists b,
    @getKanbanBoard Samples.hex_ids Samples.teamA None
      (docs (snd (@updatePosition Samples.hex_ids Samples.id1 (1 # 2)
                    Samples.teamA Samples.alice 9 Samples.store312))) (Ok b)
    /\ In (position_doc (1 # 2) 9 Samples.pos3) (todo b).
Proof.
  assert (H : @getKanbanBoard Samples.hex_ids Samples.teamA None
                (docs (snd (@updatePosition Samples.hex_ids Samples.id1
                              (1 # 2) Samples.teamA Samples.alice 9
                              Samples.store312)))
                (Ok (board_of
                       (find_sort_run (@kanban_filter Samples.hex_ids Samples.teamA None)
                          (Some position_leb)
                          (docs (snd (@updatePosition Samples.hex_ids
                                        Samples.id1 (1 # 2) Samples.teamA
                                        Samples.alice 9
                                        Samples.store312)))))))
    by apply (@getKanbanBoard_run_ok Samples.hex_ids).
  assert (Hu : unique_ids (docs Samples.store312)).
  { unfold unique_ids. simpl. repeat constructor; simpl;
      intuition discriminate. }
  assert (Hf : @findOne Samples.hex_ids Samples.id1 Samples.teamA
                 Samples.store312 = (Ok Samples.pos3, Samples.store312))
    by (vm_compute; reflexivity).
  eexists. split; [exact H|].
  exact (proj1 (@moved_task_is_reordered Samples.hex_ids Samples.id1 (1 # 2)
                  Samples.teamA Samples.alice 9 Samples.store312
                  Samples.pos3 _ Hu Hf H)).
Defined.
